(** * FireResume AI: relevance scoring, layout allocation, ATS compliance
      and JD match reporting

    A shallow embedding of the deterministic core of the résumé generator
    (lib/fireresume-ai/generator.ts and lib/fireresume-ai/ats-compliance.ts,
    with the records of types/fireresume-ai.ts) and the properties proved
    about it.  The file has four parts: the embedding of the code, the
    vocabulary of the statements, sample inputs, and the properties.

    Conventions of the embedding.
    - A JavaScript string is a [string]: the bytes of its UTF-8 encoding.
      [toLowerCase] folds the ASCII letters only and white space is ASCII
      white space; [String_length] counts UTF-16 code units.
    - A JavaScript number that holds a count or a line total is a [Z]
      (integers of this size are exact in binary64).  A number that is
      produced by a division, by a product with a decimal literal or by a
      sum of such numbers is a [Q] holding the exact value of the binary64
      result: every such operation rounds with [fl] (round to nearest, ties
      to even, 53 bits).  The exponent range is not modelled (no overflow,
      no subnormals), and neither are NaN and the infinities: every
      division of the code has a divisor that is at least 1.
    - A [Record<string, number>] is a [gmap string Q]; the order of its
      values, where the code sums them, is the order in which the keys were
      first written.
    - Mutable locals ([score], [usedLines], [sections], the two arrays of
      the compliance check) are threaded explicitly, a loop is a fold or a
      structural recursion, and a [break] is the branch that returns.
    - [Array.prototype.sort] is stable (ECMAScript 2019); it is modelled by
      stable insertion, which computes the same array whenever the
      comparator is a consistent one. *)

From Stdlib Require Import ZArith QArith Qround Qminmax Lia List Bool.
From Stdlib Require Import Ascii String DecimalString.
From Stdlib Require Import Sorting.Permutation Sorting.Sorted.
From stdpp Require Import gmap strings.

Import ListNotations.
Local Open Scope string_scope.
Local Open Scope list_scope.
Local Open Scope Z_scope.

(* ===================================================================== *)
(** ** JavaScript strings and arrays                                      *)
(* ===================================================================== *)

Module JS.

Definition lower_ascii (c : ascii) : ascii :=
  let n := N_of_ascii c in
  if ((65 <=? n) && (n <=? 90))%N then ascii_of_N (n + 32) else c.

(** [s.toLowerCase()] *)
Fixpoint toLowerCase (s : string) : string :=
  match s with
  | EmptyString => EmptyString
  | String c t => String (lower_ascii c) (toLowerCase t)
  end.

(** [hay.includes(needle)] *)
Fixpoint includes (hay needle : string) : bool :=
  if String.prefix needle hay then true
  else match hay with
       | EmptyString => false
       | String _ t => includes t needle
       end.

(** [arr.includes(x)] on an array of strings *)
Definition Array_includes (arr : list string) (x : string) : bool :=
  existsb (String.eqb x) arr.

(** [arr.join(sep)] *)
Definition join (sep : string) (arr : list string) : string :=
  String.concat sep arr.

(** An optional string inside an array that is joined: [undefined] prints
    as the empty string. *)
Definition orEmpty (o : option string) : string :=
  match o with Some s => s | None => EmptyString end.

(** Truthiness of a string / of an optional string. *)
Definition truthy (s : string) : bool :=
  match s with EmptyString => false | _ => true end.

Definition truthy_opt (o : option string) : bool :=
  match o with Some s => truthy s | None => false end.

(** [s.length], in UTF-16 code units, from the UTF-8 bytes: a continuation
    byte adds nothing and the lead byte of a four-byte sequence adds two. *)
Definition units_of_byte (c : ascii) : Z :=
  let n := Z.of_N (N_of_ascii c) in
  if n <? 128 then 1 else if n <? 192 then 0 else if n <? 240 then 1 else 2.

Fixpoint String_length (s : string) : Z :=
  match s with
  | EmptyString => 0
  | String c t => units_of_byte c + String_length t
  end.

(** [arr.length] *)
Definition Array_length {A} (arr : list A) : Z := Z.of_nat (List.length arr).

(** White space: tab, line feed, vertical tab, form feed, carriage return
    and space. *)
Definition is_space (c : ascii) : bool :=
  let n := N_of_ascii c in
  (((9 <=? n) && (n <=? 13)) || (n =? 32))%N.

Fixpoint trimStart (s : string) : string :=
  match s with
  | EmptyString => EmptyString
  | String c t => if is_space c then trimStart t else s
  end.

Fixpoint trimEnd (s : string) : string :=
  match s with
  | EmptyString => EmptyString
  | String c t =>
      match trimEnd t with
      | EmptyString => if is_space c then EmptyString else String c EmptyString
      | t' => String c t'
      end
  end.

(** [s.trim()] *)
Definition trim (s : string) : string := trimEnd (trimStart s).

(** [s.split(/\s+/)]: [cur] is the piece being read and [skipping] says
    that the separator run has already been opened. *)
Fixpoint split_ws_from (s cur : string) (skipping : bool) : list string :=
  match s with
  | EmptyString => [cur]
  | String c t =>
      if is_space c then
        if skipping then split_ws_from t cur true
        else cur :: split_ws_from t EmptyString true
      else split_ws_from t (cur ++ String c EmptyString) false
  end.

Definition split_ws (s : string) : list string :=
  split_ws_from s EmptyString false.

(** [arr.slice(0, n)] for a count [n]. *)
Definition slice0 {A} (arr : list A) (n : nat) : list A := firstn n arr.

(** A decimal numeral, as template literals print an integer. *)
Definition Z_to_string (z : Z) : string := NilZero.string_of_int (Z.to_int z).

(** The double quote character, for the messages that quote a title. *)
Definition dquote : string := String (ascii_of_nat 34) EmptyString.

End JS.

(* ===================================================================== *)
(** ** Regular expressions                                                *)
(* ===================================================================== *)

(** The patterns of ats-compliance.ts use classes, literals, alternation,
    sequencing, [?], [+], [*] and bounded repetition.  They are matched with
    Brzozowski derivatives. *)

Module Regex.

Inductive regex : Type :=
| Void : regex
| Eps : regex
| Cls : (ascii -> bool) -> regex
| Cat : regex -> regex -> regex
| Alt : regex -> regex -> regex
| Star : regex -> regex.

Fixpoint nullable (r : regex) : bool :=
  match r with
  | Void => false
  | Eps => true
  | Cls _ => false
  | Cat a b => nullable a && nullable b
  | Alt a b => nullable a || nullable b
  | Star _ => true
  end.

(** Sequencing and alternation that drop the parts that match nothing. *)
Definition mkCat (a b : regex) : regex :=
  match a, b with
  | Void, _ => Void
  | _, Void => Void
  | Eps, _ => b
  | _, _ => Cat a b
  end.

Definition mkAlt (a b : regex) : regex :=
  match a, b with
  | Void, _ => b
  | _, Void => a
  | _, _ => Alt a b
  end.

Fixpoint deriv (c : ascii) (r : regex) : regex :=
  match r with
  | Void => Void
  | Eps => Void
  | Cls p => if p c then Eps else Void
  | Cat a b =>
      if nullable a then mkAlt (mkCat (deriv c a) b) (deriv c b)
      else mkCat (deriv c a) b
  | Alt a b => mkAlt (deriv c a) (deriv c b)
  | Star a => mkCat (deriv c a) (Star a)
  end.

(** The whole string matches: a pattern anchored with [^] and [$]. *)
Fixpoint matches (r : regex) (s : string) : bool :=
  match s with
  | EmptyString => nullable r
  | String c t => matches (deriv c r) t
  end.

Definition any : regex := Cls (fun _ => true).
Definition chr (c : ascii) : regex := Cls (Ascii.eqb c).
(** A letter under the [i] flag. *)
Definition chr_i (c : ascii) : regex :=
  Cls (fun x => Ascii.eqb (JS.lower_ascii x) (JS.lower_ascii c)).
Definition digit : regex :=
  Cls (fun x => let n := N_of_ascii x in ((48 <=? n) && (n <=? 57))%N).
Definition space : regex := Cls JS.is_space.
Definition opt (r : regex) : regex := Alt r Eps.
Definition plus (r : regex) : regex := Cat r (Star r).

Fixpoint lit (s : string) : regex :=
  match s with
  | EmptyString => Eps
  | String c t => Cat (chr c) (lit t)
  end.

Fixpoint lit_i (s : string) : regex :=
  match s with
  | EmptyString => Eps
  | String c t => Cat (chr_i c) (lit_i t)
  end.

Fixpoint alts (rs : list regex) : regex :=
  match rs with
  | [] => Void
  | r :: rest => Alt r (alts rest)
  end.

(** [pattern.test(s)] for a pattern without anchors: some substring
    matches. *)
Definition test (r : regex) (s : string) : bool :=
  matches (Cat (Star any) (Cat r (Star any))) s.

End Regex.

(* ===================================================================== *)
(** ** Binary64 arithmetic                                                *)
(* ===================================================================== *)

Module Binary64.

(** The integer nearest to [n / d], ties to even ([0 < d]). *)
Definition round_half_even (n d : Z) : Z :=
  let q := n / d in
  match (2 * (n mod d) ?= d) with
  | Lt => q
  | Gt => q + 1
  | Eq => if Z.even q then q else q + 1
  end.

(** [a / d * 2 ^ (- e)] as a fraction of integers. *)
Definition scaled (a d e : Z) : Z * Z :=
  if 0 <=? e then (a, d * 2 ^ e) else (a * 2 ^ (- e), d).

(** The exponent [e] with [2 ^ 52 <= a / d * 2 ^ (- e) < 2 ^ 53]. *)
Definition binade (a d : Z) : Z :=
  let e0 := Z.log2 a - Z.log2 d - 52 in
  let '(n0, d0) := scaled a d e0 in
  if n0 <? 2 ^ 52 * d0 then e0 - 1 else e0.

(** The binary64 number nearest to the rational [x]. *)
Definition fl (x : Q) : Q :=
  let n := Qnum x in
  let d := Z.pos (Qden x) in
  if n =? 0 then 0%Q else
  let a := Z.abs n in
  let e := binade a d in
  let '(sn, sd) := scaled a d e in
  let m := round_half_even sn sd in
  Qred (Qmake (Z.sgn n * m * 2 ^ Z.max e 0) (Z.to_pos (2 ^ Z.max (- e) 0))).

Definition fadd (x y : Q) : Q := fl (x + y)%Q.
Definition fsub (x y : Q) : Q := fl (x - y)%Q.
Definition fmul (x y : Q) : Q := fl (x * y)%Q.
(** [x / y] for a divisor that is not zero. *)
Definition fdiv (x y : Q) : Q := fl (x / y)%Q.

(** An integer as a number. *)
Definition num (z : Z) : Q := inject_Z z.

Definition Math_min (x y : Q) : Q := Qmin x y.
Definition Math_max (x y : Q) : Q := Qmax x y.
Definition Math_floor (x : Q) : Z := Qfloor x.
(** [Math.round] rounds a half towards plus infinity. *)
Definition Math_round (x : Q) : Z := Qfloor (x + (1 # 2))%Q.

(** [x < y] and [x > y] as the tests of a conditional. *)
Definition ltb (x y : Q) : bool := negb (Qle_bool y x).
Definition gtb (x y : Q) : bool := negb (Qle_bool x y).

End Binary64.

Import JS Binary64.

(* ===================================================================== *)
(** ** Data model (types/fireresume-ai.ts)                                *)
(* ===================================================================== *)

Module ContactInfo.
Record t : Type := mk {
  fullName : string;
  email : string;
  phone : option string
}.
End ContactInfo.

Module Experience.
Record t : Type := mk {
  id : string;
  title : string;
  company : string;
  startDate : string;
  endDate : string;
  bullets : list string
}.
End Experience.

Module Project.
Record t : Type := mk {
  id : string;
  title : string;
  techStack : list string;
  link : option string;
  bullets : list string
}.
End Project.

Module Education.
Record t : Type := mk {
  id : string;
  degree : string;
  institution : string;
  graduationDate : string
}.
End Education.

Module SkillCategory.
Record t : Type := mk {
  category : string;
  skills : list string
}.
End SkillCategory.

Module ResumeData.
Record t : Type := mk {
  contact : ContactInfo.t;
  summary : option string;
  experiences : list Experience.t;
  projects : list Project.t;
  education : list Education.t;
  skills : list SkillCategory.t
}.
End ResumeData.

Inductive Importance : Type := required | preferred | nice_to_have.

Module SkillCluster.
Record t : Type := mk {
  category : string;
  skills : list string;
  importance : Importance
}.
End SkillCluster.

Module ImpactTheme.
Record t : Type := mk {
  theme : string;
  keywords : list string;
  weight : Q
}.
End ImpactTheme.

(** [roleType], [seniorityLevel] and [domain] are unions of string
    literals; the code only reads them as strings. *)
Module JDAnalysis.
Record t : Type := mk {
  jobTitle : string;
  roleType : string;
  seniorityLevel : string;
  domain : string;
  skillClusters : list SkillCluster.t;
  primaryKeywords : list string;
  secondaryKeywords : list string;
  impactThemes : list ImpactTheme.t
}.
End JDAnalysis.

Module RelevanceMap.
Record t : Type := mk {
  experiences : gmap string Q;
  projects : gmap string Q;
  skills : gmap string Q;
  overallMatch : Z
}.
End RelevanceMap.

Module BulletRewrite.
Record t : Type := mk {
  original : string;
  rewritten : string;
  keywordsIncluded : list string;
  hasMetric : bool
}.
End BulletRewrite.

Inductive SectionType : Type :=
| header | summary | skills | experience | projects | education
| certifications | publications | awards.

Module LayoutItem.
Record t : Type := mk {
  id : string;
  bulletCount : Z
}.
End LayoutItem.

Module LayoutSection.
Record t : Type := mk {
  type : SectionType;
  allocatedLines : Z;
  items : option (list LayoutItem.t)
}.
End LayoutSection.

Inductive CompressionLevel : Type := none | light | moderate | aggressive.

(** [pageCount: 1 | 2] *)
Inductive PageCount : Type := onePage | twoPages.

Definition pages (p : PageCount) : Z :=
  match p with onePage => 1 | twoPages => 2 end.

Module LayoutPlan.
Record t : Type := mk {
  pageCount : PageCount;
  sections : list LayoutSection.t;
  totalLines : Z;
  compressionLevel : CompressionLevel
}.
End LayoutPlan.

Inductive SummaryLength : Type := short | medium | long.

Module IncludeSections.
Record t : Type := mk {
  summary : bool;
  skills : bool;
  experience : bool;
  projects : bool;
  education : bool
}.
End IncludeSections.

(** [maxBulletsPerExperience] and [maxProjects] are counts (the
    configuration panel offers 2-4 and 1-3). *)
Module ResumeConfig.
Record t : Type := mk {
  pageCount : PageCount;
  includeSections : IncludeSections.t;
  maxBulletsPerExperience : nat;
  maxProjects : nat;
  summaryLength : SummaryLength
}.
End ResumeConfig.

Module GeneratedExperience.
Record t : Type := mk {
  id : string;
  title : string;
  startDate : string;
  endDate : string;
  bullets : list string;
  relevanceScore : option Q;
  rewrittenBullets : list BulletRewrite.t;
  includedInResume : bool
}.
End GeneratedExperience.

Module GeneratedProject.
Record t : Type := mk {
  id : string;
  title : string;
  techStack : list string;
  link : option string;
  bullets : list string;
  relevanceScore : option Q;
  rewrittenBullets : list BulletRewrite.t;
  includedInResume : bool
}.
End GeneratedProject.

(** The fields of [GeneratedResume] that the checkers and the reporter
    read. *)
Module GeneratedResume.
Record t : Type := mk {
  contact : ContactInfo.t;
  summary : option string;
  experiences : list GeneratedExperience.t;
  projects : list GeneratedProject.t;
  education : list Education.t;
  skills : list SkillCategory.t
}.
End GeneratedResume.

Inductive Severity : Type := error | warning | info.

Definition Severity_eqb (a b : Severity) : bool :=
  match a, b with
  | error, error | warning, warning | info, info => true
  | _, _ => false
  end.

Module ATSRule.
Record t : Type := mk {
  id : string;
  name : string;
  description : string;
  severity : Severity
}.
End ATSRule.

Module ATSViolation.
Record t : Type := mk {
  rule : ATSRule.t;
  suggestion : option string;
  location : option string
}.
End ATSViolation.

Module ATSReport.
Record t : Type := mk {
  passed : bool;
  score : Z;
  violations : list ATSViolation.t;
  warnings : list ATSViolation.t;
  checkedRules : list ATSRule.t
}.
End ATSReport.

Module KeywordCoverage.
Record t : Type := mk {
  keyword : string;
  found : bool;
  locations : list string;
  importance : Importance
}.
End KeywordCoverage.

Module SkillsMatch.
Record t : Type := mk {
  matched : list string;
  missing : list string;
  extra : list string
}.
End SkillsMatch.

Module RelevanceSummary.
Record t : Type := mk {
  total : Z;
  included : Z;
  averageRelevance : Z
}.
End RelevanceSummary.

Module RoleClassification.
Record t : Type := mk {
  roleType : string;
  seniorityLevel : string;
  domain : string;
  confidence : Q
}.
End RoleClassification.

Module RoleMatch.
Record t : Type := mk {
  inferred : RoleClassification.t;
  alignmentScore : Z
}.
End RoleMatch.

Module JDMatchReport.
Record t : Type := mk {
  roleMatch : RoleMatch.t;
  keywordCoverage : list KeywordCoverage.t;
  coverageScore : Z;
  skillsMatch : SkillsMatch.t;
  experienceRelevance : RelevanceSummary.t;
  projectRelevance : RelevanceSummary.t;
  suggestions : list string
}.
End JDMatchReport.

(* ===================================================================== *)
(** ** generator.ts: constants                                            *)
(* ===================================================================== *)

Definition LINES_PER_PAGE : Z := 55.
Definition HEADER_LINES : Z := 6.
Definition SUMMARY_LINES_SHORT : Z := 2.
Definition SUMMARY_LINES_MEDIUM : Z := 3.
Definition SUMMARY_LINES_LONG : Z := 4.
Definition SKILLS_LINES_BASE : Z := 3.
Definition EXPERIENCE_HEADER_LINES : Z := 2.
Definition BULLET_LINES : Z := 2.
Definition PROJECT_HEADER_LINES : Z := 1.
Definition EDUCATION_LINES : Z := 3.

(* ===================================================================== *)
(** ** generator.ts: relevance scoring                                    *)
(* ===================================================================== *)

(** [[...primaryKeywords, ...secondaryKeywords].map(k => k.toLowerCase())] *)
Definition allKeywords (jd : JDAnalysis.t) : list string :=
  map toLowerCase (JDAnalysis.primaryKeywords jd ++ JDAnalysis.secondaryKeywords jd).

(** [skillClusters.flatMap(c => c.skills.map(s => s.toLowerCase()))] *)
Definition skillKeywords (jd : JDAnalysis.t) : list string :=
  flat_map (fun c => map toLowerCase (SkillCluster.skills c))
           (JDAnalysis.skillClusters jd).

(** The loop that counts the keywords found in the bullet text. *)
Definition countMatches (allBullets : string) (keywords : list string) : Z :=
  fold_left (fun n keyword => if includes allBullets keyword then n + 1 else n)
            keywords 0.

(** The divisor of the keyword ratio, [Math.max(allKeywords.length, 1)]. *)
Definition keywordDivisor (jd : JDAnalysis.t) : Z :=
  Z.max (Array_length (allKeywords jd)) 1.

(** The loops over the impact themes and their keywords. *)
Definition addThemeBonus (allBullets : string) (theme : ImpactTheme.t)
    (score : Q) : Q :=
  fold_left
    (fun score keyword =>
       if includes allBullets (toLowerCase keyword)
       then fadd score (fmul 5 (ImpactTheme.weight theme))
       else score)
    (ImpactTheme.keywords theme) score.

Definition calculateExperienceRelevance (experience : Experience.t)
    (jdAnalysis : JDAnalysis.t) : Q :=
  let score := 0%Q in
  let maxScore := 100%Q in
  let titleLower := toLowerCase (Experience.title experience) in
  let roleTypeLower := toLowerCase (JDAnalysis.roleType jdAnalysis) in
  let score :=
    if includes titleLower roleTypeLower || includes roleTypeLower titleLower
    then fadd score 20 else score in
  let allBullets := toLowerCase (join " " (Experience.bullets experience)) in
  let keywordMatches :=
    countMatches allBullets (allKeywords jdAnalysis ++ skillKeywords jdAnalysis) in
  let keywordScore :=
    Math_min 40
      (fmul (fdiv (num keywordMatches) (num (keywordDivisor jdAnalysis))) 60) in
  let score := fadd score keywordScore in
  let score :=
    fold_left (fun score theme => addThemeBonus allBullets theme score)
              (JDAnalysis.impactThemes jdAnalysis) score in
  Math_min score maxScore.

(** The loop that counts the technologies named by the job. *)
Definition countTechMatches (jd : JDAnalysis.t) (techStackLower : list string) : Z :=
  fold_left
    (fun n tech =>
       if Array_includes (skillKeywords jd) tech || Array_includes (allKeywords jd) tech
       then n + 1 else n)
    techStackLower 0.

(** The divisor of the technology ratio, [Math.max(techStack.length, 1)]. *)
Definition techDivisor (project : Project.t) : Z :=
  Z.max (Array_length (Project.techStack project)) 1.

Definition calculateProjectRelevance (project : Project.t)
    (jdAnalysis : JDAnalysis.t) : Q :=
  let score := 0%Q in
  let maxScore := 100%Q in
  let techStackLower := map toLowerCase (Project.techStack project) in
  let techMatches := countTechMatches jdAnalysis techStackLower in
  let techScore :=
    Math_min 50 (fmul (fdiv (num techMatches) (num (techDivisor project))) 70) in
  let score := fadd score techScore in
  let allBullets := toLowerCase (join " " (Project.bullets project)) in
  let keywordMatches :=
    countMatches allBullets (allKeywords jdAnalysis ++ skillKeywords jdAnalysis) in
  let keywordScore :=
    Math_min 30
      (fmul (fdiv (num keywordMatches) (num (keywordDivisor jdAnalysis))) 40) in
  let score := fadd score keywordScore in
  let score := if truthy_opt (Project.link project) then fadd score 10 else score in
  Math_min score maxScore.

(** The score of one skill token:
    [jdSkills.includes(skillLower) ? 100 : 0]. *)
Definition skillScore (jdAnalysis : JDAnalysis.t) (skill : string) : Q :=
  let jdSkills := skillKeywords jdAnalysis in
  let skillLower := toLowerCase skill in
  if Array_includes jdSkills skillLower then 100%Q else 0%Q.

(** [scores[id] || 0] *)
Definition scoreOr0 (scores : gmap string Q) (id : string) : Q :=
  match scores !! id with Some s => s | None => 0%Q end.

(** The keys of an object in the order in which they were first written
    (a key that is a canonical array index would come before the others;
    identifiers and skill names are taken not to be such keys). *)
Definition Object_keys (written : list string) : list string :=
  fold_left (fun seen k => if Array_includes seen k then seen else seen ++ [k])
            written [].

Definition Object_values (written : list string) (scores : gmap string Q) : list Q :=
  map (scoreOr0 scores) (Object_keys written).

(** [values.reduce((a, b) => a + b, 0)] *)
Definition sumValues (values : list Q) : Q := fold_left fadd values 0%Q.

Definition mapJDToProfile (jdAnalysis : JDAnalysis.t)
    (resumeData : ResumeData.t) : RelevanceMap.t :=
  let experienceScores :=
    fold_left
      (fun (m : gmap string Q) exp =>
         <[Experience.id exp := calculateExperienceRelevance exp jdAnalysis]> m)
      (ResumeData.experiences resumeData) (∅ : gmap string Q) in
  let projectScores :=
    fold_left
      (fun (m : gmap string Q) proj =>
         <[Project.id proj := calculateProjectRelevance proj jdAnalysis]> m)
      (ResumeData.projects resumeData) (∅ : gmap string Q) in
  let allSkills := flat_map SkillCategory.skills (ResumeData.skills resumeData) in
  let skillScores :=
    fold_left
      (fun (m : gmap string Q) skill => <[skill := skillScore jdAnalysis skill]> m)
      allSkills (∅ : gmap string Q) in
  let experienceValues :=
    Object_values (map Experience.id (ResumeData.experiences resumeData))
                  experienceScores in
  let projectValues :=
    Object_values (map Project.id (ResumeData.projects resumeData)) projectScores in
  let skillValues := Object_values allSkills skillScores in
  let avgExperience :=
    fdiv (sumValues experienceValues)
         (num (Z.max (Array_length experienceValues) 1)) in
  let avgProject :=
    fdiv (sumValues projectValues)
         (num (Z.max (Array_length projectValues) 1)) in
  let matchedSkills :=
    Array_length (List.filter (fun s => gtb s 0) skillValues) in
  let skillMatchRate :=
    fmul (fdiv (num matchedSkills) (num (Z.max (Array_length allSkills) 1))) 100 in
  let overallMatch :=
    Math_round
      (fadd (fadd (fmul avgExperience (fl (5 # 10))) (fmul avgProject (fl (2 # 10))))
            (fmul skillMatchRate (fl (3 # 10)))) in
  RelevanceMap.mk experienceScores projectScores skillScores overallMatch.

(* ===================================================================== *)
(** ** generator.ts: ranking                                              *)
(* ===================================================================== *)

(** [Array.prototype.sort(compare)]: [x] goes before the first element it
    does not have to follow, so that equal elements keep their order. *)
Fixpoint sort_insert {A} (compare : A -> A -> Q) (x : A) (sorted : list A) : list A :=
  match sorted with
  | [] => [x]
  | y :: rest =>
      if gtb (compare x y) 0 then y :: sort_insert compare x rest
      else x :: y :: rest
  end.

Definition Array_sort {A} (compare : A -> A -> Q) (arr : list A) : list A :=
  fold_right (sort_insert compare) [] arr.

Definition rankExperiences (experiences : list Experience.t)
    (relevanceMap : RelevanceMap.t) : list Experience.t :=
  Array_sort
    (fun a b =>
       let scoreA := scoreOr0 (RelevanceMap.experiences relevanceMap) (Experience.id a) in
       let scoreB := scoreOr0 (RelevanceMap.experiences relevanceMap) (Experience.id b) in
       fsub scoreB scoreA)
    experiences.

Definition rankProjects (projects : list Project.t)
    (relevanceMap : RelevanceMap.t) : list Project.t :=
  Array_sort
    (fun a b =>
       let scoreA := scoreOr0 (RelevanceMap.projects relevanceMap) (Project.id a) in
       let scoreB := scoreOr0 (RelevanceMap.projects relevanceMap) (Project.id b) in
       fsub scoreB scoreA)
    projects.

Definition selectTopProjects (projects : list Project.t) (maxCount : nat)
    (relevanceMap : RelevanceMap.t) : list Project.t :=
  slice0 (rankProjects projects relevanceMap) maxCount.

(* ===================================================================== *)
(** ** generator.ts: layout allocation                                    *)
(* ===================================================================== *)

(** The greedy walk over the ranked experiences; the [else] branch is the
    [break]. *)
Fixpoint walkExperiences (rankedExperiences : list Experience.t)
    (maxBulletsPerExperience : nat) (targetExperienceLines : Z)
    (experienceItems : list LayoutItem.t) (experienceLines : Z)
    : list LayoutItem.t * Z :=
  match rankedExperiences with
  | [] => (experienceItems, experienceLines)
  | exp :: rest =>
      let headerLines := EXPERIENCE_HEADER_LINES in
      let maxBullets :=
        Z.min (Z.of_nat maxBulletsPerExperience)
              (Array_length (Experience.bullets exp)) in
      let bulletLines := maxBullets * BULLET_LINES in
      let totalExpLines := headerLines + bulletLines in
      if experienceLines + totalExpLines <=? targetExperienceLines then
        walkExperiences rest maxBulletsPerExperience targetExperienceLines
          (experienceItems ++ [LayoutItem.mk (Experience.id exp) maxBullets])
          (experienceLines + totalExpLines)
      else (experienceItems, experienceLines)
  end.

(** One turn of the loop over the capped ranked projects (it has no
    [break]). *)
Definition walkProject (targetProjectLines : Z)
    (state : list LayoutItem.t * Z) (proj : Project.t) : list LayoutItem.t * Z :=
  let '(projectItems, projectLines) := state in
  let headerLines := PROJECT_HEADER_LINES in
  let maxBullets := Z.min 2 (Array_length (Project.bullets proj)) in
  let bulletLines := maxBullets * BULLET_LINES in
  let totalProjLines := headerLines + bulletLines in
  if projectLines + totalProjLines <=? targetProjectLines then
    (projectItems ++ [LayoutItem.mk (Project.id proj) maxBullets],
     projectLines + totalProjLines)
  else (projectItems, projectLines).

Definition walkProjects (cappedProjects : list Project.t)
    (targetProjectLines : Z) : list LayoutItem.t * Z :=
  fold_left (walkProject targetProjectLines) cappedProjects ([], 0).

Definition allocateLayout (resumeData : ResumeData.t) (config : ResumeConfig.t)
    (relevanceMap : RelevanceMap.t) : LayoutPlan.t :=
  let include := ResumeConfig.includeSections config in
  let totalLines := pages (ResumeConfig.pageCount config) * LINES_PER_PAGE in
  let sections := [LayoutSection.mk header HEADER_LINES None] in
  let usedLines := 0 + HEADER_LINES in
  (* Summary *)
  let '(sections, usedLines) :=
    if IncludeSections.summary include then
      let summaryLines :=
        match ResumeConfig.summaryLength config with
        | short => SUMMARY_LINES_SHORT
        | medium => SUMMARY_LINES_MEDIUM
        | long => SUMMARY_LINES_LONG
        end in
      (sections ++ [LayoutSection.mk summary summaryLines None],
       usedLines + summaryLines)
    else (sections, usedLines) in
  (* Skills *)
  let '(sections, usedLines) :=
    if IncludeSections.skills include then
      let skillLines :=
        Z.min (SKILLS_LINES_BASE
               + Math_floor (fdiv (num (Array_length (ResumeData.skills resumeData))) 2))
              6 in
      (sections ++ [LayoutSection.mk skills skillLines None],
       usedLines + skillLines)
    else (sections, usedLines) in
  (* Remaining space for experience and projects *)
  let educationLines :=
    if IncludeSections.education include
    then Array_length (ResumeData.education resumeData) * EDUCATION_LINES
    else 0 in
  let remainingLines := totalLines - usedLines - educationLines - 2 in
  let rankedExperiences :=
    rankExperiences (ResumeData.experiences resumeData) relevanceMap in
  let rankedProjects := rankProjects (ResumeData.projects resumeData) relevanceMap in
  (* Experience *)
  let '(sections, usedLines) :=
    if IncludeSections.experience include then
      let targetExperienceLines :=
        Math_floor (fmul (num remainingLines) (fl (7 # 10))) in
      let '(experienceItems, experienceLines) :=
        walkExperiences rankedExperiences
          (ResumeConfig.maxBulletsPerExperience config) targetExperienceLines [] 0 in
      (sections ++ [LayoutSection.mk experience experienceLines (Some experienceItems)],
       usedLines + experienceLines)
    else (sections, usedLines) in
  (* Projects *)
  let '(sections, usedLines) :=
    if IncludeSections.projects include
       && (0 <? Array_length rankedProjects) then
      let targetProjectLines :=
        Z.min (remainingLines - (usedLines - HEADER_LINES))
              (Z.of_nat (ResumeConfig.maxProjects config) * 4) in
      let '(projectItems, projectLines) :=
        walkProjects (slice0 rankedProjects (ResumeConfig.maxProjects config))
                     targetProjectLines in
      if 0 <? Array_length projectItems then
        (sections ++ [LayoutSection.mk projects projectLines (Some projectItems)],
         usedLines + projectLines)
      else (sections, usedLines)
    else (sections, usedLines) in
  (* Education *)
  let '(sections, usedLines) :=
    if IncludeSections.education include then
      (sections ++ [LayoutSection.mk education educationLines None],
       usedLines + educationLines)
    else (sections, usedLines) in
  (* Compression level *)
  let utilizationRate := fdiv (num usedLines) (num totalLines) in
  let compressionLevel :=
    if gtb utilizationRate (fl (11 # 10)) then aggressive
    else if gtb utilizationRate 1 then moderate
    else if gtb utilizationRate (fl (95 # 100)) then light
    else none in
  LayoutPlan.mk (ResumeConfig.pageCount config) sections usedLines compressionLevel.

(* ===================================================================== *)
(** ** ats-compliance.ts: the comprehensive checker                      *)
(* ===================================================================== *)

Module ATSCompliance.

Definition ATS_RULES : list ATSRule.t :=
  [ATSRule.mk "contact-email" "Email Required"
     "Resume must include a valid email address" error;
   ATSRule.mk "contact-phone" "Phone Recommended"
     "Including a phone number improves ATS compatibility" warning;
   ATSRule.mk "contact-name" "Full Name Required"
     "Resume must include full name at the top" error;
   ATSRule.mk "has-experience" "Work Experience"
     "Resume should have work experience section" warning;
   ATSRule.mk "has-skills" "Skills Section"
     "Resume should have skills section for ATS keyword matching" warning;
   ATSRule.mk "has-education" "Education Section"
     "Include education section if relevant" info;
   ATSRule.mk "bullet-count" "Bullet Count"
     "Each experience should have 2-4 bullet points" warning;
   ATSRule.mk "bullet-metrics" "Quantified Achievements"
     "Bullet points should include metrics (numbers, percentages)" info;
   ATSRule.mk "bullet-action-verbs" "Action Verbs"
     "Bullets should start with strong action verbs" info;
   ATSRule.mk "summary-optional" "Summary Section"
     "Summary is optional - strong experience sections can stand alone" info;
   ATSRule.mk "date-format" "Standard Date Format"
     "Dates should use Month Year format (e.g., May 2023)" warning;
   ATSRule.mk "consistent-dates" "Consistent Dates"
     "All dates should use the same format" info;
   ATSRule.mk "no-special-chars" "No Special Characters"
     "Avoid special characters that may confuse ATS parsers" warning;
   ATSRule.mk "no-images" "No Images"
     "Resume should not contain images, icons, or graphics" error;
   ATSRule.mk "single-column" "Single Column Layout"
     "Resume uses single column layout for ATS compatibility" error;
   ATSRule.mk "text-based" "Text-Based Content"
     "All content must be actual text, not embedded as graphics" error;
   ATSRule.mk "standard-fonts" "Standard Fonts"
     "Using ATS-safe fonts (Times New Roman, Arial, Helvetica)" info;
   ATSRule.mk "standard-sections" "Standard Section Headings"
     "Using standard section names (Experience, Education, Skills)" info;
   ATSRule.mk "keywords-in-experience" "Keywords in Experience"
     "JD keywords should appear in experience bullets" warning;
   ATSRule.mk "keywords-in-skills" "Keywords in Skills"
     "JD keywords should appear in skills section" warning;
   ATSRule.mk "no-keyword-stuffing" "No Keyword Stuffing"
     "Keywords should appear naturally, not repeated excessively" warning;
   ATSRule.mk "links-text-based" "Text-Based Links"
     "URLs should be written in full, not hidden behind hyperlinks" info;
   ATSRule.mk "valid-linkedin" "Valid LinkedIn URL"
     "LinkedIn URL should be in standard format" info].

(** [ATS_RULES.find((r) => r.id === id)!].  Every identifier the checker
    looks up is in the catalogue (lemma [find_rule_defined]); the rule that
    stands for [undefined] is never returned for them. *)
Definition find_rule (id : string) : ATSRule.t :=
  match List.find (fun r => String.eqb (ATSRule.id r) id) ATS_RULES with
  | Some r => r
  | None => ATSRule.mk EmptyString EmptyString EmptyString info
  end.

Definition actionVerbs : list string :=
  ["achieved"; "accelerated"; "accomplished"; "acquired"; "administered";
   "advanced"; "analyzed"; "applied"; "architected"; "assessed";
   "automated"; "balanced"; "built"; "calculated"; "captured";
   "championed"; "coached"; "collaborated"; "communicated"; "completed";
   "conducted"; "configured"; "consolidated"; "constructed"; "consulted";
   "contributed"; "controlled"; "converted"; "coordinated"; "created";
   "cultivated"; "customized"; "decreased"; "defined"; "delivered";
   "demonstrated"; "deployed"; "designed"; "developed"; "devised";
   "diagnosed"; "directed"; "discovered"; "documented"; "drove"; "earned";
   "edited"; "educated"; "eliminated"; "enabled"; "engineered";
   "enhanced"; "ensured"; "established"; "evaluated"; "exceeded";
   "executed"; "expanded"; "expedited"; "facilitated"; "finalized";
   "formulated"; "founded"; "generated"; "grew"; "guided"; "handled";
   "headed"; "identified"; "illustrated"; "implemented"; "improved";
   "increased"; "influenced"; "initiated"; "innovated"; "inspected";
   "installed"; "instituted"; "integrated"; "introduced"; "invented";
   "investigated"; "launched"; "led"; "leveraged"; "maintained";
   "managed"; "maximized"; "measured"; "mentored"; "migrated";
   "minimized"; "modeled"; "modernized"; "modified"; "monitored";
   "negotiated"; "operated"; "optimized"; "orchestrated"; "organized";
   "originated"; "overhauled"; "oversaw"; "partnered"; "performed";
   "piloted"; "pioneered"; "planned"; "positioned"; "prepared";
   "presented"; "prioritized"; "processed"; "produced"; "programmed";
   "projected"; "promoted"; "proposed"; "provided"; "published";
   "purchased"; "raised"; "reached"; "realized"; "received";
   "recommended"; "reconciled"; "recorded"; "recruited"; "redesigned";
   "reduced"; "refined"; "refactored"; "reformed"; "regulated";
   "remodeled"; "reorganized"; "repaired"; "replaced"; "reported";
   "represented"; "researched"; "resolved"; "restored"; "restructured";
   "reviewed"; "revised"; "revitalized"; "saved"; "scheduled"; "secured";
   "selected"; "served"; "shaped"; "simplified"; "solved"; "sourced";
   "spearheaded"; "specialized"; "specified"; "standardized"; "started";
   "streamlined"; "strengthened"; "structured"; "succeeded"; "supervised";
   "supported"; "surpassed"; "surveyed"; "sustained"; "synchronized";
   "systematized"; "targeted"; "taught"; "tested"; "tracked"; "trained";
   "transferred"; "transformed"; "translated"; "trimmed"; "troubleshot";
   "unified"; "upgraded"; "utilized"; "validated"; "verified"; "won";
   "wrote"].

(** [/[│║┃┊┋┆┇▪▫►◄•·∙]/.test(text)]: each glyph of the class is one UTF-16
    unit, that is one UTF-8 sequence of [text]. *)
Definition problematicChars : Regex.regex :=
  Regex.alts
    (map Regex.lit
       ["│"; "║"; "┃"; "┊"; "┋"; "┆"; "┇"; "▪"; "▫"; "►"; "◄"; "•"; "·"; "∙"]).

Definition hasProblematicSpecialChars (text : string) : bool :=
  Regex.test problematicChars text.

(** The month names of [standardPattern], each with its optional tail. *)
Definition monthNames : Regex.regex :=
  let month (head tail : string) :=
    Regex.Cat (Regex.lit_i head) (Regex.opt (Regex.lit_i tail)) in
  Regex.alts
    [month "Jan" "uary"; month "Feb" "ruary"; month "Mar" "ch";
     month "Apr" "il"; Regex.lit_i "May"; month "Jun" "e"; month "Jul" "y";
     month "Aug" "ust"; month "Sep" "tember"; month "Oct" "ober";
     month "Nov" "ember"; month "Dec" "ember"].

Definition fourDigits : Regex.regex :=
  Regex.Cat Regex.digit (Regex.Cat Regex.digit (Regex.Cat Regex.digit Regex.digit)).

(** [/^(?:Jan(?:uary)?|...|Dec(?:ember)?)[,\s]*\d{4}$|^Present$|^Current$|^\d{4}$/i]:
    every alternative is anchored at both ends. *)
Definition standardPattern : Regex.regex :=
  Regex.alts
    [Regex.Cat monthNames
       (Regex.Cat (Regex.Star (Regex.Alt (Regex.chr ",") Regex.space)) fourDigits);
     Regex.lit_i "Present";
     Regex.lit_i "Current";
     fourDigits].

Definition isStandardDateFormat (date : string) : bool :=
  Regex.matches standardPattern (trim date).

Definition startsWithActionVerb (bullet : string) : bool :=
  let firstWord :=
    match split_ws (trim bullet) with
    | w :: _ => toLowerCase w
    | [] => EmptyString
    end in
  Array_includes actionVerbs firstWord.

(** [/\d+%|\$[\d,]+|\d+x|\d+\+|\d{1,3}(?:,\d{3})*|\d+/] *)
Definition metricPattern : Regex.regex :=
  let d := Regex.digit in
  Regex.alts
    [Regex.Cat (Regex.plus d) (Regex.chr "%");
     Regex.Cat (Regex.chr "$") (Regex.plus (Regex.Alt d (Regex.chr ",")));
     Regex.Cat (Regex.plus d) (Regex.chr "x");
     Regex.Cat (Regex.plus d) (Regex.chr "+");
     Regex.Cat (Regex.Cat d (Regex.Cat (Regex.opt d) (Regex.opt d)))
               (Regex.Star (Regex.Cat (Regex.chr ",") (Regex.Cat d (Regex.Cat d d))));
     Regex.plus d].

Definition hasMetric (text : string) : bool := Regex.test metricPattern text.

(** A word that names a property every object inherits never gets a numeric
    count: [(wordCounts[word] || 0) + 1] is then a string. *)
Definition inheritedKey (word : string) : bool :=
  String.eqb word "constructor" || String.eqb word "__proto__".

Definition hasKeywordStuffing (text : string) : bool :=
  let words := split_ws (toLowerCase text) in
  let wordCounts :=
    fold_left
      (fun (counts : gmap string Z) word =>
         if (3 <? String_length word) && negb (inheritedKey word)
         then <[word := match counts !! word with Some n => n | None => 0 end + 1]> counts
         else counts)
      words (∅ : gmap string Z) in
  let totalWords := Array_length words in
  existsb
    (fun count =>
       (5 <? count) && gtb (fdiv (num count) (num totalWords)) (fl (5 # 100)))
    (map snd (map_to_list wordCounts)).

(** The two arrays that [addIssue] fills. *)
Record Issues : Type := mkIssues {
  violations : list ATSViolation.t;
  warnings : list ATSViolation.t
}.

(** The helper [addIssue]: a rule of severity [info] adds nothing. *)
Definition addIssue (rule : ATSRule.t) (suggestion location : option string)
    (issues : Issues) : Issues :=
  let violation := ATSViolation.mk rule suggestion location in
  match ATSRule.severity rule with
  | error => mkIssues (violations issues ++ [violation]) (warnings issues)
  | warning => mkIssues (violations issues) (warnings issues ++ [violation])
  | info => issues
  end.

(** [if (test) addIssue(...)] *)
Definition addIssueIf (test : bool) (rule : ATSRule.t)
    (suggestion location : option string) (issues : Issues) : Issues :=
  if test then addIssue rule suggestion location issues else issues.

(** One turn of the loop over the included experiences. *)
Definition checkBulletCount (issues : Issues) (exp : GeneratedExperience.t) : Issues :=
  let n := Array_length (GeneratedExperience.rewrittenBullets exp) in
  if n <? 2 then
    addIssue (find_rule "bullet-count")
      (Some ("Add more bullet points to " ++ dquote
             ++ GeneratedExperience.title exp ++ dquote ++ " role")%string)
      (Some ("experience." ++ GeneratedExperience.id exp)%string) issues
  else if 5 <? n then
    addIssue (find_rule "bullet-count")
      (Some ("Consider reducing bullets for " ++ dquote
             ++ GeneratedExperience.title exp ++ dquote ++ " role")%string)
      (Some ("experience." ++ GeneratedExperience.id exp)%string) issues
  else issues.

(** [allBullets]: the rewritten bullets of the included experiences, then
    of the included projects. *)
Definition allBullets (resume : GeneratedResume.t) : list BulletRewrite.t :=
  flat_map GeneratedExperience.rewrittenBullets
    (List.filter GeneratedExperience.includedInResume (GeneratedResume.experiences resume))
  ++ flat_map GeneratedProject.rewrittenBullets
    (List.filter GeneratedProject.includedInResume (GeneratedResume.projects resume)).

(** [bulletsWithMetrics.length / Math.max(allBullets.length, 1)] *)
Definition metricRate (resume : GeneratedResume.t) : Q :=
  let bulletsWithMetrics :=
    List.filter (fun b => hasMetric (BulletRewrite.rewritten b)) (allBullets resume) in
  fdiv (num (Array_length bulletsWithMetrics))
       (num (Z.max (Array_length (allBullets resume)) 1)).

Definition actionVerbRate (resume : GeneratedResume.t) : Q :=
  let bulletsWithActionVerbs :=
    List.filter (fun b => startsWithActionVerb (BulletRewrite.rewritten b))
                (allBullets resume) in
  fdiv (num (Array_length bulletsWithActionVerbs))
       (num (Z.max (Array_length (allBullets resume)) 1)).

(** The text that is searched for glyphs and for keyword stuffing. *)
Definition resumeText (resume : GeneratedResume.t) : string :=
  join " "
    (List.filter truthy
       ([orEmpty (GeneratedResume.summary resume)]
        ++ map BulletRewrite.rewritten (allBullets resume)
        ++ flat_map SkillCategory.skills (GeneratedResume.skills resume))).

(** The loops that compute the score from the two arrays. *)
Definition complianceScore (violations warnings : list ATSViolation.t) : Z :=
  let score := 100 in
  let score :=
    fold_left
      (fun score v =>
         if Severity_eqb (ATSRule.severity (ATSViolation.rule v)) error
         then score - 20 else score)
      violations score in
  let score :=
    fold_left
      (fun score w =>
         if Severity_eqb (ATSRule.severity (ATSViolation.rule w)) warning
         then score - 5 else score)
      warnings score in
  Z.max 0 (Z.min 100 score).

(** The issues collected by the checks, in the order of the source. *)
Definition collectIssues (resume : GeneratedResume.t) : Issues :=
  let contact := GeneratedResume.contact resume in
  let issues := mkIssues [] [] in
  (* Contact information *)
  let issues :=
    addIssueIf (negb (truthy (ContactInfo.email contact)))
      (find_rule "contact-email") (Some "Add a professional email address") None
      issues in
  let issues :=
    addIssueIf (negb (truthy_opt (ContactInfo.phone contact)))
      (find_rule "contact-phone") (Some "Consider adding a phone number") None
      issues in
  let issues :=
    addIssueIf (negb (truthy (ContactInfo.fullName contact))
                || (String_length (ContactInfo.fullName contact) <? 2))
      (find_rule "contact-name") (Some "Include your full name") None issues in
  (* Sections *)
  let includedExperiences :=
    List.filter GeneratedExperience.includedInResume
                (GeneratedResume.experiences resume) in
  let issues :=
    addIssueIf (Array_length includedExperiences =? 0)
      (find_rule "has-experience") (Some "Add work experience section") None
      issues in
  let issues :=
    addIssueIf ((Array_length (GeneratedResume.skills resume) =? 0)
                || (Array_length (flat_map SkillCategory.skills
                                           (GeneratedResume.skills resume)) =? 0))
      (find_rule "has-skills") (Some "Add skills section with relevant keywords")
      None issues in
  (* Content quality *)
  let issues := fold_left checkBulletCount includedExperiences issues in
  let issues :=
    addIssueIf (ltb (metricRate resume) (fl (4 # 10)))
      (find_rule "bullet-metrics")
      (Some ("Only " ++ Z_to_string (Math_round (fmul (metricRate resume) 100))
             ++ "% of bullets have metrics. Add more quantified achievements.")%string)
      None issues in
  let issues :=
    addIssueIf (ltb (actionVerbRate resume) (fl (8 # 10)))
      (find_rule "bullet-action-verbs")
      (Some "Start more bullet points with strong action verbs") None issues in
  (* Date formats *)
  let allDates :=
    List.filter truthy
      (flat_map (fun e => [GeneratedExperience.startDate e; GeneratedExperience.endDate e])
                includedExperiences
       ++ map Education.graduationDate (GeneratedResume.education resume)) in
  let invalidDates := List.filter (fun d => negb (isStandardDateFormat d)) allDates in
  let issues :=
    match invalidDates with
    | first :: _ =>
        addIssue (find_rule "date-format")
          (Some ("Use standard date format (e.g., " ++ dquote ++ "May 2023" ++ dquote
                 ++ "). Found: " ++ first)%string)
          None issues
    | [] => issues
    end in
  (* Special characters and keyword stuffing *)
  let issues :=
    addIssueIf (hasProblematicSpecialChars (resumeText resume))
      (find_rule "no-special-chars")
      (Some "Remove special characters that may confuse ATS parsers") None issues in
  let issues :=
    addIssueIf (hasKeywordStuffing (resumeText resume))
      (find_rule "no-keyword-stuffing")
      (Some "Reduce repetition of keywords. Use synonyms or rephrase.") None
      issues in
  issues.

Definition checkATSCompliance (resume : GeneratedResume.t) : ATSReport.t :=
  let issues := collectIssues resume in
  let score := complianceScore (violations issues) (warnings issues) in
  ATSReport.mk
    (Array_length
       (List.filter
          (fun v => Severity_eqb (ATSRule.severity (ATSViolation.rule v)) error)
          (violations issues)) =? 0)
    score (violations issues) (warnings issues) ATS_RULES.

End ATSCompliance.

(* ===================================================================== *)
(** ** generator.ts: the compliance check of the generator                *)
(* ===================================================================== *)

Definition contactRule : ATSRule.t :=
  ATSRule.mk "contact-info" "Contact Information"
    "Resume must have email and phone" error.

Definition experienceRule : ATSRule.t :=
  ATSRule.mk "has-experience" "Work Experience"
    "Resume should have work experience section" warning.

Definition skillsRule : ATSRule.t :=
  ATSRule.mk "has-skills" "Skills Section"
    "Resume should have a skills section for ATS keyword matching" warning.

Definition dateRule : ATSRule.t :=
  ATSRule.mk "date-format" "Date Format"
    "Dates should be in standard format (Month Year)" info.

Definition metricRule : ATSRule.t :=
  ATSRule.mk "bullet-metrics" "Quantified Achievements"
    "Bullets should include metrics where possible" info.

Definition checkATSCompliance (generatedResume : GeneratedResume.t) : ATSReport.t :=
  let violations : list ATSViolation.t := [] in
  let warnings : list ATSViolation.t := [] in
  let checkedRules : list ATSRule.t := [] in
  (* Rule 1: contact info present *)
  let checkedRules := checkedRules ++ [contactRule] in
  let violations :=
    if negb (truthy (ContactInfo.email (GeneratedResume.contact generatedResume)))
    then violations ++ [ATSViolation.mk contactRule (Some "Add email address") None]
    else violations in
  (* Rule 2: has experiences *)
  let checkedRules := checkedRules ++ [experienceRule] in
  let warnings :=
    if Array_length
         (List.filter GeneratedExperience.includedInResume
                      (GeneratedResume.experiences generatedResume)) =? 0
    then warnings
         ++ [ATSViolation.mk experienceRule (Some "Add at least one work experience") None]
    else warnings in
  (* Rule 3: skills section present *)
  let checkedRules := checkedRules ++ [skillsRule] in
  let warnings :=
    if (Array_length (GeneratedResume.skills generatedResume) =? 0)
       || (Array_length (flat_map SkillCategory.skills
                                  (GeneratedResume.skills generatedResume)) =? 0)
    then warnings
         ++ [ATSViolation.mk skillsRule
               (Some "Add skills section with relevant keywords") None]
    else warnings in
  (* Rule 4: standard date formats *)
  let checkedRules := checkedRules ++ [dateRule] in
  (* Rule 5: bullets have metrics *)
  let checkedRules := checkedRules ++ [metricRule] in
  let includedBullets :=
    flat_map GeneratedExperience.rewrittenBullets
      (List.filter GeneratedExperience.includedInResume
                   (GeneratedResume.experiences generatedResume)) in
  let bulletsWithMetrics :=
    Array_length (List.filter BulletRewrite.hasMetric includedBullets) in
  let totalBullets := Array_length includedBullets in
  let warnings :=
    if (0 <? totalBullets)
       && ltb (fdiv (num bulletsWithMetrics) (num totalBullets)) (fl (5 # 10))
    then warnings
         ++ [ATSViolation.mk metricRule
               (Some "Add more quantified metrics to your bullet points") None]
    else warnings in
  (* Score *)
  let errorCount := Array_length violations in
  let warningCount := Array_length warnings in
  let score := Z.max 0 (100 - errorCount * 20 - warningCount * 5) in
  ATSReport.mk (errorCount =? 0) score violations warnings checkedRules.

(* ===================================================================== *)
(** ** generator.ts: the JD match report                                  *)
(* ===================================================================== *)

(** The rewritten bullet texts of the included experiences and of the
    included projects. *)
Definition includedExperienceBullets (generatedResume : GeneratedResume.t) : list string :=
  flat_map (fun e => map BulletRewrite.rewritten (GeneratedExperience.rewrittenBullets e))
    (List.filter GeneratedExperience.includedInResume
                 (GeneratedResume.experiences generatedResume)).

Definition includedProjectBullets (generatedResume : GeneratedResume.t) : list string :=
  flat_map (fun p => map BulletRewrite.rewritten (GeneratedProject.rewrittenBullets p))
    (List.filter GeneratedProject.includedInResume
                 (GeneratedResume.projects generatedResume)).

(** The pieces of text that are joined into the haystack. *)
Definition resumeTextParts (generatedResume : GeneratedResume.t) : list string :=
  [orEmpty (GeneratedResume.summary generatedResume)]
  ++ includedExperienceBullets generatedResume
  ++ includedProjectBullets generatedResume
  ++ flat_map SkillCategory.skills (GeneratedResume.skills generatedResume).

Definition resumeText (generatedResume : GeneratedResume.t) : string :=
  toLowerCase (join " " (resumeTextParts generatedResume)).

Definition skillsText (generatedResume : GeneratedResume.t) : string :=
  toLowerCase
    (join " " (flat_map SkillCategory.skills (GeneratedResume.skills generatedResume))).

(** The record built for one keyword by the [map] callback. *)
Definition coverageOf (jdAnalysis : JDAnalysis.t)
    (generatedResume : GeneratedResume.t) (keyword : string) : KeywordCoverage.t :=
  let found := includes (resumeText generatedResume) (toLowerCase keyword) in
  let importance :=
    if Array_includes (JDAnalysis.primaryKeywords jdAnalysis) keyword
    then required else preferred in
  let locations : list string := [] in
  let locations :=
    if match GeneratedResume.summary generatedResume with
       | Some text => includes (toLowerCase text) (toLowerCase keyword)
       | None => false
       end
    then locations ++ ["summary"] else locations in
  let locations :=
    if includes (skillsText generatedResume) (toLowerCase keyword)
    then locations ++ ["skills"] else locations in
  KeywordCoverage.mk keyword found locations importance.

(** [sum + (e.relevanceScore || 0)] *)
Definition scoreOrZero (relevanceScore : option Q) : Q :=
  match relevanceScore with Some s => s | None => 0%Q end.

Definition generateJDMatchReport (resumeData : ResumeData.t)
    (jdAnalysis : JDAnalysis.t) (generatedResume : GeneratedResume.t)
    (relevanceMap : RelevanceMap.t) : JDMatchReport.t :=
  (* Keyword coverage *)
  let allKeywords :=
    JDAnalysis.primaryKeywords jdAnalysis ++ JDAnalysis.secondaryKeywords jdAnalysis in
  let keywordCoverage := map (coverageOf jdAnalysis generatedResume) allKeywords in
  let coveredKeywords :=
    Array_length (List.filter KeywordCoverage.found keywordCoverage) in
  let coverageScore :=
    Math_round
      (fmul (fdiv (num coveredKeywords) (num (Z.max (Array_length allKeywords) 1)))
            100) in
  (* Skills match *)
  let resumeSkills :=
    flat_map (fun c => map toLowerCase (SkillCategory.skills c))
             (ResumeData.skills resumeData) in
  let jdSkills :=
    flat_map (fun c => map toLowerCase (SkillCluster.skills c))
             (JDAnalysis.skillClusters jdAnalysis) in
  let matched := List.filter (fun s => Array_includes jdSkills s) resumeSkills in
  let missing := List.filter (fun s => negb (Array_includes resumeSkills s)) jdSkills in
  let extra := List.filter (fun s => negb (Array_includes jdSkills s)) resumeSkills in
  (* Experience relevance *)
  let includedExperiences :=
    List.filter GeneratedExperience.includedInResume
                (GeneratedResume.experiences generatedResume) in
  let avgExperienceRelevance :=
    fdiv (fold_left
            (fun sum e => fadd sum (scoreOrZero (GeneratedExperience.relevanceScore e)))
            includedExperiences 0%Q)
         (num (Z.max (Array_length includedExperiences) 1)) in
  (* Project relevance *)
  let includedProjects :=
    List.filter GeneratedProject.includedInResume
                (GeneratedResume.projects generatedResume) in
  let avgProjectRelevance :=
    fdiv (fold_left
            (fun sum p => fadd sum (scoreOrZero (GeneratedProject.relevanceScore p)))
            includedProjects 0%Q)
         (num (Z.max (Array_length includedProjects) 1)) in
  (* Suggestions *)
  let suggestions : list string := [] in
  let suggestions :=
    if coverageScore <? 50
    then suggestions ++ ["Consider adding more JD keywords to your experience bullets"]
    else suggestions in
  let suggestions :=
    if 5 <? Array_length missing
    then suggestions
         ++ [("Missing key skills: " ++ join ", " (slice0 missing 5)
              ++ ". Add if applicable.")%string]
    else suggestions in
  let suggestions :=
    if ltb avgExperienceRelevance 50
    then suggestions ++ ["Consider emphasizing experiences more relevant to this role"]
    else suggestions in
  JDMatchReport.mk
    (RoleMatch.mk
       (RoleClassification.mk (JDAnalysis.roleType jdAnalysis)
          (JDAnalysis.seniorityLevel jdAnalysis) (JDAnalysis.domain jdAnalysis)
          (fl (85 # 100)))
       (RelevanceMap.overallMatch relevanceMap))
    keywordCoverage coverageScore
    (SkillsMatch.mk matched (slice0 missing 10) (slice0 extra 10))
    (RelevanceSummary.mk (Array_length (ResumeData.experiences resumeData))
       (Array_length includedExperiences) (Math_round avgExperienceRelevance))
    (RelevanceSummary.mk (Array_length (ResumeData.projects resumeData))
       (Array_length includedProjects) (Math_round avgProjectRelevance))
    suggestions.

(* ===================================================================== *)
(** * Vocabulary of the statements                                        *)
(* ===================================================================== *)

(** ** Ranking *)

(** The comparator of [rankExperiences] and [rankProjects]:
    [scoreB - scoreA]. *)
Definition byScoreDescending {A} (score : A -> Q) (a b : A) : Q :=
  fsub (score b) (score a).

Definition sameScore {A} (score : A -> Q) (q : Q) (a : A) : bool :=
  Qeq_bool (score a) q.

(** Every entry has a score at least that of each entry after it. *)
Definition descending {A} (score : A -> Q) : list A -> Prop :=
  StronglySorted (fun a b => (score b <= score a)%Q).

Definition experienceScore (relevanceMap : RelevanceMap.t) (e : Experience.t) : Q :=
  scoreOr0 (RelevanceMap.experiences relevanceMap) (Experience.id e).

Definition projectScore (relevanceMap : RelevanceMap.t) (p : Project.t) : Q :=
  scoreOr0 (RelevanceMap.projects relevanceMap) (Project.id p).

(** ** Relevance scores *)


(** The lower-cased text of the bullets of an experience. *)
Definition bulletText (bullets : list string) : string :=
  toLowerCase (join " " bullets).

(** T: the points for the title. *)
Definition titlePoints (experience : Experience.t) (jd : JDAnalysis.t) : Q :=
  let titleLower := toLowerCase (Experience.title experience) in
  let roleTypeLower := toLowerCase (JDAnalysis.roleType jd) in
  if includes titleLower roleTypeLower || includes roleTypeLower titleLower
  then 20%Q else 0%Q.

(** m: the keywords and skill tokens found in the text. *)
Definition keywordHits (text : string) (jd : JDAnalysis.t) : Z :=
  Array_length (List.filter (includes text) (allKeywords jd ++ skillKeywords jd)).

(** keywordCount: the number of primary and secondary keywords. *)
Definition keywordCount (jd : JDAnalysis.t) : Z :=
  Array_length (JDAnalysis.primaryKeywords jd ++ JDAnalysis.secondaryKeywords jd).

(** K: the points for the keyword density. *)
Definition keywordPoints (experience : Experience.t) (jd : JDAnalysis.t) : Q :=
  Math_min 40
    (fmul (fdiv (num (keywordHits (bulletText (Experience.bullets experience)) jd))
                (num (Z.max (keywordCount jd) 1)))
          60).

(** The terms of B: [5 * weight] for every theme keyword found. *)
Definition themeBonuses (text : string) (jd : JDAnalysis.t) : list Q :=
  flat_map
    (fun theme =>
       map (fun _ => fmul 5 (ImpactTheme.weight theme))
           (List.filter (fun keyword => includes text (toLowerCase keyword))
                        (ImpactTheme.keywords theme)))
    (JDAnalysis.impactThemes jd).

Definition nonnegativeWeights (jd : JDAnalysis.t) : Prop :=
  Forall (fun theme => (0 <= ImpactTheme.weight theme)%Q) (JDAnalysis.impactThemes jd).

(** ** Layout *)

Definition summaryLinesOf (config : ResumeConfig.t) : Z :=
  if IncludeSections.summary (ResumeConfig.includeSections config) then
    match ResumeConfig.summaryLength config with
    | short => 2
    | medium => 3
    | long => 4
    end
  else 0.

Definition skillLinesOf (resumeData : ResumeData.t) (config : ResumeConfig.t) : Z :=
  if IncludeSections.skills (ResumeConfig.includeSections config) then
    Z.min (3 + Math_floor (fdiv (num (Array_length (ResumeData.skills resumeData))) 2)) 6
  else 0.

Definition educationLinesOf (resumeData : ResumeData.t) (config : ResumeConfig.t) : Z :=
  if IncludeSections.education (ResumeConfig.includeSections config)
  then Array_length (ResumeData.education resumeData) * 3 else 0.

(** [remainingLines]: the page budget less the header, the summary, the
    skills, the education and two lines of padding. *)
Definition remainingLines (resumeData : ResumeData.t) (config : ResumeConfig.t) : Z :=
  pages (ResumeConfig.pageCount config) * 55
  - (6 + summaryLinesOf config + skillLinesOf resumeData config)
  - educationLinesOf resumeData config - 2.

(** [Math.floor(remainingLines * 0.7)] *)
Definition targetExperienceLines (resumeData : ResumeData.t) (config : ResumeConfig.t) : Z :=
  Math_floor (fmul (num (remainingLines resumeData config)) (fl (7 # 10))).

Definition experienceBullets (config : ResumeConfig.t) (exp : Experience.t) : Z :=
  Z.min (Z.of_nat (ResumeConfig.maxBulletsPerExperience config))
        (Array_length (Experience.bullets exp)).

(** Two header lines and two lines for each bullet that is kept. *)
Definition experienceCost (config : ResumeConfig.t) (exp : Experience.t) : Z :=
  2 + experienceBullets config exp * 2.

Definition experienceItem (config : ResumeConfig.t) (exp : Experience.t) : LayoutItem.t :=
  LayoutItem.mk (Experience.id exp) (experienceBullets config exp).

Definition projectBullets (proj : Project.t) : Z :=
  Z.min 2 (Array_length (Project.bullets proj)).

(** One header line and two lines for each of at most two bullets. *)
Definition projectCost (proj : Project.t) : Z := 1 + projectBullets proj * 2.

Definition projectItem (proj : Project.t) : LayoutItem.t :=
  LayoutItem.mk (Project.id proj) (projectBullets proj).

Definition sumZ (l : list Z) : Z := fold_right Z.add 0 l.

Definition SectionType_eqb (a b : SectionType) : bool :=
  match a, b with
  | header, header | summary, summary | skills, skills
  | experience, experience | projects, projects | education, education
  | certifications, certifications | publications, publications
  | awards, awards => true
  | _, _ => false
  end.

(** The section of a kind in a plan, if the plan has one. *)
Definition sectionOf (kind : SectionType) (plan : LayoutPlan.t) : option LayoutSection.t :=
  List.find (fun s => SectionType_eqb (LayoutSection.type s) kind)
            (LayoutPlan.sections plan).

(** The lines the experience section takes (none when it is left out). *)
Definition experienceLinesOf (plan : LayoutPlan.t) : Z :=
  match sectionOf experience plan with
  | Some s => LayoutSection.allocatedLines s
  | None => 0
  end.

(** The greedy admission of the project walk: each candidate in turn is
    admitted when the running total with its cost stays within the target,
    and is passed over otherwise. *)
Inductive Admits (target : Z) : Z -> list Project.t -> list Project.t -> Prop :=
| Admits_done : forall running, Admits target running [] []
| Admits_take : forall running proj rest admitted,
    running + projectCost proj <= target ->
    Admits target (running + projectCost proj) rest admitted ->
    Admits target running (proj :: rest) (proj :: admitted)
| Admits_skip : forall running proj rest admitted,
    target < running + projectCost proj ->
    Admits target running rest admitted ->
    Admits target running (proj :: rest) admitted.

(** The target of the project walk as the specification words it: the
    remaining lines less the lines of the experience section. *)
Definition claimedProjectTarget (resumeData : ResumeData.t) (config : ResumeConfig.t)
    (relevanceMap : RelevanceMap.t) : Z :=
  Z.min (remainingLines resumeData config
         - experienceLinesOf (allocateLayout resumeData config relevanceMap))
        (Z.of_nat (ResumeConfig.maxProjects config) * 4).

(** The sections of a plan, one piece for each kind. *)

Definition summaryPart (config : ResumeConfig.t) : list LayoutSection.t :=
  if IncludeSections.summary (ResumeConfig.includeSections config)
  then [LayoutSection.mk summary (summaryLinesOf config) None] else [].

Definition skillsPart (resumeData : ResumeData.t) (config : ResumeConfig.t)
  : list LayoutSection.t :=
  if IncludeSections.skills (ResumeConfig.includeSections config)
  then [LayoutSection.mk skills (skillLinesOf resumeData config) None] else [].

Definition experienceWalk (resumeData : ResumeData.t) (config : ResumeConfig.t)
    (relevanceMap : RelevanceMap.t) : list LayoutItem.t * Z :=
  walkExperiences (rankExperiences (ResumeData.experiences resumeData) relevanceMap)
    (ResumeConfig.maxBulletsPerExperience config)
    (targetExperienceLines resumeData config) [] 0.

Definition experiencePart (resumeData : ResumeData.t) (config : ResumeConfig.t)
    (relevanceMap : RelevanceMap.t) : list LayoutSection.t :=
  if IncludeSections.experience (ResumeConfig.includeSections config)
  then [LayoutSection.mk experience
          (snd (experienceWalk resumeData config relevanceMap))
          (Some (fst (experienceWalk resumeData config relevanceMap)))]
  else [].

Definition cappedProjects (resumeData : ResumeData.t) (config : ResumeConfig.t)
    (relevanceMap : RelevanceMap.t) : list Project.t :=
  firstn (ResumeConfig.maxProjects config)
         (rankProjects (ResumeData.projects resumeData) relevanceMap).

(** The target of the project walk: what is left of [remainingLines] after
    the summary, the skills and the experience lines, and at most four
    lines for each project allowed. *)
Definition targetProjectLines (resumeData : ResumeData.t) (config : ResumeConfig.t)
    (relevanceMap : RelevanceMap.t) : Z :=
  Z.min (remainingLines resumeData config
         - (summaryLinesOf config + skillLinesOf resumeData config
            + sumZ (map LayoutSection.allocatedLines
                        (experiencePart resumeData config relevanceMap))))
        (Z.of_nat (ResumeConfig.maxProjects config) * 4).

Definition projectWalk (resumeData : ResumeData.t) (config : ResumeConfig.t)
    (relevanceMap : RelevanceMap.t) : list LayoutItem.t * Z :=
  walkProjects (cappedProjects resumeData config relevanceMap)
               (targetProjectLines resumeData config relevanceMap).

Definition projectsPart (resumeData : ResumeData.t) (config : ResumeConfig.t)
    (relevanceMap : RelevanceMap.t) : list LayoutSection.t :=
  if IncludeSections.projects (ResumeConfig.includeSections config) then
    match fst (projectWalk resumeData config relevanceMap) with
    | [] => []
    | items => [LayoutSection.mk projects
                  (snd (projectWalk resumeData config relevanceMap)) (Some items)]
    end
  else [].

Definition educationPart (resumeData : ResumeData.t) (config : ResumeConfig.t)
  : list LayoutSection.t :=
  if IncludeSections.education (ResumeConfig.includeSections config)
  then [LayoutSection.mk education (educationLinesOf resumeData config) None] else [].

Definition planSections (resumeData : ResumeData.t) (config : ResumeConfig.t)
    (relevanceMap : RelevanceMap.t) : list LayoutSection.t :=
  [LayoutSection.mk header 6 None]
  ++ summaryPart config ++ skillsPart resumeData config
  ++ experiencePart resumeData config relevanceMap
  ++ projectsPart resumeData config relevanceMap
  ++ educationPart resumeData config.

(** ** Compliance *)

Definition isError (v : ATSViolation.t) : bool :=
  Severity_eqb (ATSRule.severity (ATSViolation.rule v)) error.

Definition isWarning (v : ATSViolation.t) : bool :=
  Severity_eqb (ATSRule.severity (ATSViolation.rule v)) warning.

(** The violations of a report whose rule has severity [error]. *)
Definition errorViolations (report : ATSReport.t) : list ATSViolation.t :=
  List.filter isError (ATSReport.violations report).

(** 100 less 20 for each error and 5 for each warning, clamped to
    [0, 100]. *)
Definition scoreFormula (errors warnings : Z) : Z :=
  Z.max 0 (Z.min 100 (100 - 20 * errors - 5 * warnings)).

(** A warning of a report names the rule [id]. *)
Definition warnsAbout (id : string) (report : ATSReport.t) : bool :=
  existsb (fun w => String.eqb (ATSRule.id (ATSViolation.rule w)) id)
          (ATSReport.warnings report).

(** Every violation carries a catalogue rule of severity [error] and every
    warning a catalogue rule of severity [warning]. *)
Definition issuesSorted (issues : ATSCompliance.Issues) : Prop :=
  Forall (fun v => In (ATSViolation.rule v) ATSCompliance.ATS_RULES
                   /\ ATSRule.severity (ATSViolation.rule v) = error)
         (ATSCompliance.violations issues)
  /\ Forall (fun w => In (ATSViolation.rule w) ATSCompliance.ATS_RULES
                      /\ ATSRule.severity (ATSViolation.rule w) = warning)
            (ATSCompliance.warnings issues).

(** ** Keyword coverage *)


(** The keywords of the job that the haystack holds. *)
Definition foundKeywords (jd : JDAnalysis.t) (generatedResume : GeneratedResume.t)
  : list string :=
  List.filter (fun k => includes (resumeText generatedResume) (toLowerCase k))
              (JDAnalysis.primaryKeywords jd ++ JDAnalysis.secondaryKeywords jd).

(** The coverage as the code computes it from the two counts. *)
Definition coverageOfCounts (found total : Z) : Z :=
  Math_round (fmul (fdiv (num found) (num (Z.max total 1))) 100).

(** round(100 * found / max(total, 1)) without intermediate rounding. *)
Definition exactCoverage (found total : Z) : Z :=
  Math_round (num (100 * found) / num (Z.max total 1))%Q.


(* ===================================================================== *)
(** * More of the code                                                   *)
(* ===================================================================== *)

(** The functions of the two files that the first part leaves out, under
    the same conventions.  Two of them bear on what follows.
    - The calls of the completion service are the one effect of this code:
      the outcome of each call is an input of the model.
    - A record is the finite map of its own entries, and [record[key]] a
      lookup in it.  Identifiers and skills are thus taken not to be names
      that every object inherits (such as [__proto__] and [constructor]),
      under which a JavaScript object answers with a value that is not an
      entry; [hasKeywordStuffing], whose keys are the words of a text,
      treats these names apart. *)

(* ===================================================================== *)
(** ** ats-compliance.ts: the quick check                                *)
(* ===================================================================== *)

(** [Partial<GeneratedResume>]: the fields [quickATSCheck] reads, each of
    which may be absent. *)
Module PartialResume.
Record t : Type := mk {
  contact : option ContactInfo.t;
  experiences : option (list GeneratedExperience.t);
  skills : option (list SkillCategory.t)
}.
End PartialResume.

(** What [quickATSCheck] returns. *)
Module QuickReport.
Record t : Type := mk {
  score : Z;
  issues : list string
}.
End QuickReport.

(** ats-compliance.ts, [quickATSCheck]. *)
Definition quickATSCheck (resume : PartialResume.t) : QuickReport.t :=
  let issues : list string := [] in
  let score := 100 in
  (* Basic checks *)
  let '(issues, score) :=
    if negb (truthy_opt (option_map ContactInfo.email (PartialResume.contact resume)))
    then (issues ++ ["Missing email address"], score - 20)
    else (issues, score) in
  let '(issues, score) :=
    if negb (truthy_opt (match PartialResume.contact resume with
                         | Some contact => ContactInfo.phone contact
                         | None => None
                         end))
    then (issues ++ ["Missing phone number"], score - 5)
    else (issues, score) in
  let experiences :=
    match PartialResume.experiences resume with
    | Some entries => List.filter GeneratedExperience.includedInResume entries
    | None => []
    end in
  let '(issues, score) :=
    if Array_length experiences =? 0
    then (issues ++ ["No work experience included"], score - 15)
    else (issues, score) in
  let skillNames :=
    match PartialResume.skills resume with
    | Some categories => flat_map SkillCategory.skills categories
    | None => []
    end in
  let '(issues, score) :=
    if Array_length skillNames =? 0
    then (issues ++ ["No skills listed"], score - 10)
    else (issues, score) in
  QuickReport.mk (Z.max 0 score) issues.

(* ===================================================================== *)
(** ** generator.ts: rewriting the bullets and the summary               *)
(* ===================================================================== *)

(** What a call of the completion service comes to: it throws, or it
    returns [response.choices[0]?.message?.content], which may be
    absent. *)
Inductive Completion : Type :=
| Failed : Completion
| Content : option string -> Completion.

(** generator.ts, [rewriteSingleBullet]: [/\d+%?|\$[\d,]+|\d+x|\d+\+/] *)
Definition rewriteMetricPattern : Regex.regex :=
  let d := Regex.digit in
  Regex.alts
    [Regex.Cat (Regex.plus d) (Regex.opt (Regex.chr "%"));
     Regex.Cat (Regex.chr "$") (Regex.plus (Regex.Alt d (Regex.chr ",")));
     Regex.Cat (Regex.plus d) (Regex.chr "x");
     Regex.Cat (Regex.plus d) (Regex.chr "+")].

(** [rewriteSingleBullet], given the outcome of its call. *)
Definition rewriteSingleBullet (completion : Completion) (bullet : string)
    (jdAnalysis : JDAnalysis.t) : BulletRewrite.t :=
  match completion with
  | Content content =>
      let rewritten :=
        match content with
        | Some text => if truthy (trim text) then trim text else bullet
        | None => bullet
        end in
      (* Find which keywords were included *)
      let allKeywords :=
        JDAnalysis.primaryKeywords jdAnalysis
        ++ JDAnalysis.secondaryKeywords jdAnalysis
        ++ flat_map SkillCluster.skills (JDAnalysis.skillClusters jdAnalysis) in
      let keywordsIncluded :=
        List.filter (fun k => includes (toLowerCase rewritten) (toLowerCase k))
                    allKeywords in
      (* Check if it has a metric *)
      let hasMetric := Regex.test rewriteMetricPattern rewritten in
      BulletRewrite.mk bullet rewritten keywordsIncluded hasMetric
  | Failed =>
      BulletRewrite.mk bullet bullet [] (Regex.test rewriteMetricPattern bullet)
  end.

(** [rewriteBullets]: the calls are made for the bullets in order, and
    [Promise.all] keeps that order; [completions i] is the outcome of the
    call for the bullet at index [i]. *)
Definition rewriteBullets (completions : nat -> Completion) (bullets : list string)
    (jdAnalysis : JDAnalysis.t) : list BulletRewrite.t :=
  imap (fun i bullet => rewriteSingleBullet (completions i) bullet jdAnalysis) bullets.

Definition rewriteProjectBullets (completions : nat -> Completion) (project : Project.t)
    (jdAnalysis : JDAnalysis.t) : list BulletRewrite.t :=
  rewriteBullets completions (Project.bullets project) jdAnalysis.

(** [generateSummary], given the outcome of its call; the job and the
    length only go into the prompt. *)
Definition generateSummary (completion : Completion) (resumeData : ResumeData.t)
    (jdAnalysis : JDAnalysis.t) (length : SummaryLength) : string :=
  match completion with
  | Content (Some text) =>
      if truthy (trim text) then trim text else orEmpty (ResumeData.summary resumeData)
  | Content None => orEmpty (ResumeData.summary resumeData)
  | Failed => orEmpty (ResumeData.summary resumeData)
  end.

(* ===================================================================== *)
(** ** generator.ts: the assembly of the résumé                          *)
(* ===================================================================== *)

(** The outcomes of the calls that one run of [generateResume] makes: one
    for the summary and one for each bullet that is rewritten, by the index
    of the entry and the index of the bullet. *)
Module Service.
Record t : Type := mk {
  summary : Completion;
  experienceBullet : nat -> nat -> Completion;
  projectBullet : nat -> nat -> Completion
}.
End Service.

(** [arr.slice(0, n)] for an integer [n]: a negative [n] counts from the
    end. *)
Definition Array_slice0 {A} (arr : list A) (n : Z) : list A :=
  if n <? 0 then firstn (List.length arr - Z.to_nat (- n)) arr
  else firstn (Z.to_nat n) arr.

(** The items of the first section of a kind, if the plan has such a
    section and it has items:
    [sections.find((s) => s.type === kind)?.items]. *)
Definition sectionItems (kind : SectionType) (layoutPlan : LayoutPlan.t)
  : option (list LayoutItem.t) :=
  match List.find (fun s => SectionType_eqb (LayoutSection.type s) kind)
                  (LayoutPlan.sections layoutPlan) with
  | Some s => LayoutSection.items s
  | None => None
  end.

(** The résumé that [generateResume] returns, with its plan and its two
    reports. *)
Module Generated.
Record t : Type := mk {
  resume : GeneratedResume.t;
  layoutPlan : LayoutPlan.t;
  atsReport : ATSReport.t;
  jdMatchReport : JDMatchReport.t
}.
End Generated.

(** The callback of Step 5, for the experience at [index]. *)
Definition generateExperience (service : Service.t) (jdAnalysis : JDAnalysis.t)
    (config : ResumeConfig.t) (relevanceMap : RelevanceMap.t) (layoutPlan : LayoutPlan.t)
    (includedExpIds : list string) (index : nat) (exp : Experience.t)
  : GeneratedExperience.t :=
  let included := Array_includes includedExpIds (Experience.id exp) in
  let layoutItem :=
    match sectionItems experience layoutPlan with
    | Some items =>
        List.find (fun i => String.eqb (LayoutItem.id i) (Experience.id exp)) items
    | None => None
    end in
  let bulletCount :=
    match layoutItem with
    | Some item =>
        if LayoutItem.bulletCount item =? 0
        then Z.of_nat (ResumeConfig.maxBulletsPerExperience config)
        else LayoutItem.bulletCount item
    | None => Z.of_nat (ResumeConfig.maxBulletsPerExperience config)
    end in
  let bulletsToRewrite :=
    if included then Array_slice0 (Experience.bullets exp) bulletCount else [] in
  let rewrittenBullets :=
    if included
    then rewriteBullets (Service.experienceBullet service index) bulletsToRewrite jdAnalysis
    else [] in
  GeneratedExperience.mk (Experience.id exp) (Experience.title exp)
    (Experience.startDate exp) (Experience.endDate exp) (Experience.bullets exp)
    (Some (scoreOr0 (RelevanceMap.experiences relevanceMap) (Experience.id exp)))
    rewrittenBullets included.

(** The callback of Step 7, for the project at [index]. *)
Definition generateProject (service : Service.t) (jdAnalysis : JDAnalysis.t)
    (relevanceMap : RelevanceMap.t) (includedProjIds : list string)
    (index : nat) (proj : Project.t) : GeneratedProject.t :=
  let included := Array_includes includedProjIds (Project.id proj) in
  let rewrittenBullets :=
    if included
    then rewriteProjectBullets (Service.projectBullet service index) proj jdAnalysis
    else [] in
  GeneratedProject.mk (Project.id proj) (Project.title proj) (Project.techStack proj)
    (Project.link proj) (Project.bullets proj)
    (Some (scoreOr0 (RelevanceMap.projects relevanceMap) (Project.id proj)))
    rewrittenBullets included.

Definition generateResume (service : Service.t) (resumeData : ResumeData.t)
    (jdAnalysis : JDAnalysis.t) (config : ResumeConfig.t) : Generated.t :=
  (* Step 1: Map JD to profile and get relevance scores *)
  let relevanceMap := mapJDToProfile jdAnalysis resumeData in
  (* Step 2: Allocate layout *)
  let layoutPlan := allocateLayout resumeData config relevanceMap in
  (* Step 3: Generate summary *)
  let summary :=
    generateSummary (Service.summary service) resumeData jdAnalysis
      (ResumeConfig.summaryLength config) in
  (* Step 4: Get included experience IDs from layout *)
  let includedExpIds :=
    match sectionItems experience layoutPlan with
    | Some items => map LayoutItem.id items
    | None => []
    end in
  (* Step 5: Rewrite bullets for included experiences *)
  let generatedExperiences :=
    imap (generateExperience service jdAnalysis config relevanceMap layoutPlan
            includedExpIds)
         (ResumeData.experiences resumeData) in
  (* Step 6: Get included project IDs from layout *)
  let includedProjIds :=
    match sectionItems projects layoutPlan with
    | Some items => map LayoutItem.id items
    | None => []
    end in
  (* Step 7: Rewrite bullets for included projects *)
  let generatedProjects :=
    imap (generateProject service jdAnalysis relevanceMap includedProjIds)
         (ResumeData.projects resumeData) in
  (* Step 8: Build generated resume *)
  let generatedResume :=
    GeneratedResume.mk (ResumeData.contact resumeData) (Some summary)
      generatedExperiences generatedProjects (ResumeData.education resumeData)
      (ResumeData.skills resumeData) in
  (* Step 9: Check ATS compliance (use comprehensive checker) *)
  let atsReport := ATSCompliance.checkATSCompliance generatedResume in
  (* Step 10: Generate JD match report *)
  let jdMatchReport :=
    generateJDMatchReport resumeData jdAnalysis generatedResume relevanceMap in
  Generated.mk generatedResume layoutPlan atsReport jdMatchReport.

(* ===================================================================== *)
(** * Vocabulary of the further statements                               *)
(* ===================================================================== *)

(** ** Layout *)

(** The compression level the code derives from the tally and the page
    budget. *)
Definition compressionOf (usedLines totalLines : Z) : CompressionLevel :=
  let utilizationRate := fdiv (num usedLines) (num totalLines) in
  if gtb utilizationRate (fl (11 # 10)) then aggressive
  else if gtb utilizationRate 1 then moderate
  else if gtb utilizationRate (fl (95 # 100)) then light
  else none.

(** The same level from exact integer comparisons. *)
Definition exactCompression (usedLines totalLines : Z) : CompressionLevel :=
  if 11 * totalLines <? 10 * usedLines then aggressive
  else if totalLines <? usedLines then moderate
  else if 95 * totalLines <? 100 * usedLines then light
  else none.

(** The page budget of a configuration. *)
Definition pageBudget (config : ResumeConfig.t) : Z :=
  pages (ResumeConfig.pageCount config) * LINES_PER_PAGE.

(** The lines of the sections that are not walked: header, summary, skills
    and education. *)
Definition fixedLines (resumeData : ResumeData.t) (config : ResumeConfig.t) : Z :=
  HEADER_LINES + summaryLinesOf config + skillLinesOf resumeData config
  + educationLinesOf resumeData config.

(** Whether seventy per cent of [remaining] lines, as the code computes
    it, is not above [remaining]. *)
Definition targetWithin (remaining : nat) : bool :=
  Math_floor (fmul (num (Z.of_nat remaining)) (fl (7 # 10))) <=? Z.of_nat remaining.

(** The order in which the kinds of section can appear in a plan. *)
Definition sectionOrder : list SectionType :=
  [header; summary; skills; experience; projects; education].

(** The kinds of the sections of a plan, in order. *)
Definition sectionTypes (plan : LayoutPlan.t) : list SectionType :=
  map LayoutSection.type (LayoutPlan.sections plan).

(** The items of the section of a kind (none when the plan has no such
    section). *)
Definition itemsOf (kind : SectionType) (plan : LayoutPlan.t) : list LayoutItem.t :=
  match sectionOf kind plan with
  | Some s => match LayoutSection.items s with Some items => items | None => [] end
  | None => []
  end.

(** The lines allocated to the section of a kind (0 when the plan has no
    such section). *)
Definition linesOf (kind : SectionType) (plan : LayoutPlan.t) : Z :=
  match sectionOf kind plan with
  | Some s => LayoutSection.allocatedLines s
  | None => 0
  end.

(** ** Compliance *)

(** The issue [addIssue] records for the catalogue rule [id]. *)
Definition issueOf (id suggestion : string) (location : option string) : ATSViolation.t :=
  ATSViolation.mk (ATSCompliance.find_rule id) (Some suggestion) location.

(** The issue when the test holds, nothing otherwise. *)
Definition issueWhen (test : bool) (issue : ATSViolation.t) : list ATSViolation.t :=
  if test then [issue] else [].

(** An included experience has fewer than two or more than five rewritten
    bullets. *)
Definition badBulletCount (exp : GeneratedExperience.t) : bool :=
  let n := Array_length (GeneratedExperience.rewrittenBullets exp) in
  (n <? 2) || (5 <? n).

(** The warning of the rule bullet-count for one included experience, if
    it draws one. *)
Definition bulletCountIssue (exp : GeneratedExperience.t) : list ATSViolation.t :=
  let n := Array_length (GeneratedExperience.rewrittenBullets exp) in
  if n <? 2 then
    [issueOf "bullet-count"
       ("Add more bullet points to " ++ dquote
        ++ GeneratedExperience.title exp ++ dquote ++ " role")
       (Some ("experience." ++ GeneratedExperience.id exp)%string)]
  else if 5 <? n then
    [issueOf "bullet-count"
       ("Consider reducing bullets for " ++ dquote
        ++ GeneratedExperience.title exp ++ dquote ++ " role")
       (Some ("experience." ++ GeneratedExperience.id exp)%string)]
  else [].

(** [resume.experiences.filter((e) => e.includedInResume)] *)
Definition includedExperiences (resume : GeneratedResume.t) : list GeneratedExperience.t :=
  List.filter GeneratedExperience.includedInResume (GeneratedResume.experiences resume).

(** The dates of the included experiences and of the education that are
    not empty and not in a standard format. *)
Definition invalidDates (resume : GeneratedResume.t) : list string :=
  List.filter (fun d => negb (ATSCompliance.isStandardDateFormat d))
    (List.filter truthy
       (flat_map (fun e => [GeneratedExperience.startDate e; GeneratedExperience.endDate e])
                 (includedExperiences resume)
        ++ map Education.graduationDate (GeneratedResume.education resume))).

(** The test of the rule has-skills. *)
Definition noSkills (resume : GeneratedResume.t) : bool :=
  (Array_length (GeneratedResume.skills resume) =? 0)
  || (Array_length (flat_map SkillCategory.skills (GeneratedResume.skills resume)) =? 0).

(** The identifier of the rule of an issue. *)
Definition ruleId (v : ATSViolation.t) : string := ATSRule.id (ATSViolation.rule v).

(** The violations of the comprehensive checker, rule by rule. *)
Definition violationsOf (resume : GeneratedResume.t) : list ATSViolation.t :=
  let contact := GeneratedResume.contact resume in
  issueWhen (negb (truthy (ContactInfo.email contact)))
    (issueOf "contact-email" "Add a professional email address" None)
  ++ issueWhen (negb (truthy (ContactInfo.fullName contact))
                || (String_length (ContactInfo.fullName contact) <? 2))
       (issueOf "contact-name" "Include your full name" None).

(** The warning of the rule date-format: one, for the first invalid date,
    however many there are. *)
Definition dateIssue (resume : GeneratedResume.t) : list ATSViolation.t :=
  match invalidDates resume with
  | first :: _ =>
      [issueOf "date-format"
         ("Use standard date format (e.g., " ++ dquote ++ "May 2023" ++ dquote
          ++ "). Found: " ++ first) None]
  | [] => []
  end.

(** The warnings, in the order of the checks. *)
Definition warningsOf (resume : GeneratedResume.t) : list ATSViolation.t :=
  let contact := GeneratedResume.contact resume in
  issueWhen (negb (truthy_opt (ContactInfo.phone contact)))
    (issueOf "contact-phone" "Consider adding a phone number" None)
  ++ issueWhen (Array_length (includedExperiences resume) =? 0)
       (issueOf "has-experience" "Add work experience section" None)
  ++ issueWhen (noSkills resume)
       (issueOf "has-skills" "Add skills section with relevant keywords" None)
  ++ flat_map bulletCountIssue (includedExperiences resume)
  ++ dateIssue resume
  ++ issueWhen (ATSCompliance.hasProblematicSpecialChars (ATSCompliance.resumeText resume))
       (issueOf "no-special-chars"
          "Remove special characters that may confuse ATS parsers" None)
  ++ issueWhen (ATSCompliance.hasKeywordStuffing (ATSCompliance.resumeText resume))
       (issueOf "no-keyword-stuffing"
          "Reduce repetition of keywords. Use synonyms or rephrase." None).

(** The identifier when the test holds, nothing otherwise. *)
Definition idWhen (test : bool) (id : string) : list string :=
  if test then [id] else [].

(** A generated résumé seen as a partial one with every field present. *)
Definition asPartial (resume : GeneratedResume.t) : PartialResume.t :=
  PartialResume.mk (Some (GeneratedResume.contact resume))
    (Some (GeneratedResume.experiences resume))
    (Some (GeneratedResume.skills resume)).

(** The four messages of the quick check, in the order of the checks. *)
Definition quickMessages : list string :=
  ["Missing email address"; "Missing phone number"; "No work experience included";
   "No skills listed"].

(** ** Digits, dates and words *)

(** An ASCII digit, the class [\d]. *)
Definition isDigit (c : ascii) : bool :=
  let n := N_of_ascii c in ((48 <=? n) && (n <=? 57))%N.

(** The string holds a digit. *)
Fixpoint hasDigit (s : string) : bool :=
  match s with
  | EmptyString => false
  | String c t => isDigit c || hasDigit t
  end.









(** ** Reports *)


(** A JavaScript array holds fewer than [2 ^ 32] elements. *)
Definition arrayLimit : Z := 2 ^ 32.

(** ** The language of a pattern *)

Module RegexLang.
Import Regex.

(** The strings that a pattern matches as a whole. *)
Inductive Lang : regex -> string -> Prop :=
| Lang_eps : Lang Eps ""
| Lang_cls : forall p c, p c = true -> Lang (Cls p) (String c "")
| Lang_cat : forall a b s t, Lang a s -> Lang b t -> Lang (Cat a b) (s ++ t)
| Lang_alt_l : forall a b s, Lang a s -> Lang (Alt a b) s
| Lang_alt_r : forall a b s, Lang b s -> Lang (Alt a b) s
| Lang_star_nil : forall a, Lang (Star a) ""
| Lang_star_cons : forall a s t, Lang a s -> Lang (Star a) t -> Lang (Star a) (s ++ t).

End RegexLang.

(** ** Generation *)

(** The number of bullets that [generateResume] rewrites for an included
    experience is the bullet count of a plan item, or
    [maxBulletsPerExperience] where that count is 0. *)
Definition bulletCountFor (config : ResumeConfig.t) (layoutItem : option LayoutItem.t) : Z :=
  match layoutItem with
  | Some item =>
      if LayoutItem.bulletCount item =? 0
      then Z.of_nat (ResumeConfig.maxBulletsPerExperience config)
      else LayoutItem.bulletCount item
  | None => Z.of_nat (ResumeConfig.maxBulletsPerExperience config)
  end.

(* ===================================================================== *)
(** * Sample inputs                                                       *)
(* ===================================================================== *)

Module Samples.

Definition noScores : RelevanceMap.t := RelevanceMap.mk ∅ ∅ ∅ 0.

(** A bullet as the rewrite step returns it when it changes nothing. *)
Definition bullet (text : string) : BulletRewrite.t :=
  BulletRewrite.mk text text [] false.

(** A résumé with no e-mail address, one included experience with three
    bullets that hold no metric, a telephone number, skills and standard
    dates. *)
Definition resumeWithoutEmail : GeneratedResume.t :=
  GeneratedResume.mk
    (ContactInfo.mk "Ada Lovelace" "" (Some "555-0100"))
    None
    [GeneratedExperience.mk "e1" "Engineer" "May 2023" "Present" [] None
       [bullet "Led the platform team"; bullet "Built internal tooling";
        bullet "Mentored new engineers"]
       true]
    []
    [Education.mk "ed1" "BSc" "MIT" "2020"]
    [SkillCategory.mk "Languages" ["Python"; "Go"]].

Definition experienceWith (id : string) (bullets : nat) : Experience.t :=
  Experience.mk id "Engineer" "Acme" "2020" "2021" (repeat "Did the work" bullets).

Definition projectWith (id : string) (bullets : nat) : Project.t :=
  Project.mk id "Tool" [] None (repeat "Made the thing" bullets).

Definition schools (n : nat) : list Education.t :=
  repeat (Education.mk "ed" "BSc" "MIT" "2020") n.

Definition skillCategories (n : nat) : list SkillCategory.t :=
  repeat (SkillCategory.mk "Languages" ["Python"]) n.

(** [DEFAULT_CONFIG]: one page, no summary, at most four bullets for an
    experience and three projects. *)
Definition defaultConfig : ResumeConfig.t :=
  ResumeConfig.mk onePage (IncludeSections.mk false true true true true) 4 3 short.

(** Four skill categories, one school, experiences of four, four and two
    bullets and three projects of two bullets. *)
Definition profileA : ResumeData.t :=
  ResumeData.mk (ContactInfo.mk "Ada Lovelace" "ada@example.org" None) None
    [experienceWith "e1" 4; experienceWith "e2" 4; experienceWith "e3" 2]
    [projectWith "p1" 2; projectWith "p2" 2; projectWith "p3" 2]
    (schools 1) (skillCategories 4).

(** Six skill categories and fourteen schools: the education alone takes
    42 lines. *)
Definition profileB : ResumeData.t :=
  ResumeData.mk (ContactInfo.mk "Ada Lovelace" "ada@example.org" None) None
    [experienceWith "e1" 1] [] (schools 14) (skillCategories 6).

(** A job and an experience for the scoring functions. *)
Definition jobA : JDAnalysis.t :=
  JDAnalysis.mk "Backend Engineer" "Software Engineer" "Senior" "Enterprise"
    [SkillCluster.mk "Cloud" ["Docker"] required]
    ["Python"; "AWS"] []
    [ImpactTheme.mk "growth" ["scale"] (1 # 2)].

Definition experienceA : Experience.t :=
  Experience.mk "e1" "Senior Software Engineer" "Acme" "May 2021" "Present"
    ["Built Python services"; "Deployed on AWS at scale"].

(** A job with no keyword, no skill and no theme, and entries with no
    bullet and no technology. *)
Definition emptyJob : JDAnalysis.t :=
  JDAnalysis.mk "" "Other" "Mid-Level" "Other" [] [] [] [].

Definition emptyExperience : Experience.t := Experience.mk "e0" "" "" "" "" [].

Definition emptyProject : Project.t := Project.mk "p0" "" [] None [].



Definition profileOf (generatedResume : GeneratedResume.t) : ResumeData.t :=
  ResumeData.mk (GeneratedResume.contact generatedResume)
    (GeneratedResume.summary generatedResume) [] []
    (GeneratedResume.education generatedResume)
    (GeneratedResume.skills generatedResume).

(** Forty keywords, kw101 to kw140, of which the skills name the first
    twenty-three. *)
Definition numbered (n : nat) : list string :=
  map (fun i => ("kw" ++ Z_to_string (100 + Z.of_nat i))%string) (seq 1 n).

Definition jobFortyKeywords : JDAnalysis.t :=
  JDAnalysis.mk "Analyst" "Data Scientist" "Senior" "Enterprise" []
    (numbered 40) [] [].

Definition resumeTwentyThree : GeneratedResume.t :=
  GeneratedResume.mk
    (ContactInfo.mk "Ada Lovelace" "ada@example.org" None) None [] [] []
    [SkillCategory.mk "Keywords" (numbered 23)].

End Samples.

Module Scenarios.

(** The completion service is down: every call fails. *)
Definition serviceDown : Service.t :=
  Service.mk Failed (fun _ _ => Failed) (fun _ _ => Failed).

End Scenarios.

(* ===================================================================== *)
(** * Properties                                                          *)
(* ===================================================================== *)

(** ** Binary64 rounding keeps the sign *)

Module Binary64Facts.

Lemma round_half_even_ge (n d : Z) : n / d <= round_half_even n d.
Proof.
  unfold round_half_even.
  destruct (2 * (n mod d) ?= d); [destruct (Z.even (n / d)) | | ]; lia.
Qed.

Lemma scaled_dominates (a d e : Z) :
  1 <= a -> 1 <= d -> e <= Z.log2 a - Z.log2 d - 1 ->
  0 < snd (scaled a d e) <= fst (scaled a d e).
Proof.
  intros Ha Hd He.
  pose proof (Z.log2_spec a ltac:(lia)) as [Hal _].
  pose proof (Z.log2_spec d ltac:(lia)) as [_ Hdu].
  pose proof (Z.log2_nonneg a) as Hla.
  pose proof (Z.log2_nonneg d) as Hld.
  unfold scaled. destruct (0 <=? e) eqn:E; simpl.
  - apply Z.leb_le in E.
    assert (0 < 2 ^ e) by (apply Z.pow_pos_nonneg; lia).
    split; [nia |].
    assert (2 ^ Z.succ (Z.log2 d) * 2 ^ e <= 2 ^ Z.log2 a).
    { rewrite <- Z.pow_add_r by lia. apply Z.pow_le_mono_r; lia. }
    nia.
  - apply Z.leb_gt in E.
    assert (0 < 2 ^ (- e)) by (apply Z.pow_pos_nonneg; lia).
    split; [lia |].
    assert (2 ^ Z.succ (Z.log2 d) <= 2 ^ Z.log2 a * 2 ^ (- e)).
    { rewrite <- Z.pow_add_r by lia. apply Z.pow_le_mono_r; lia. }
    nia.
Qed.

Lemma binade_le (a d : Z) : binade a d <= Z.log2 a - Z.log2 d - 52.
Proof.
  unfold binade. destruct (scaled a d _) as [n0 d0].
  destruct (n0 <? 2 ^ 52 * d0); lia.
Qed.

(** The significand of a number that is not zero is positive. *)
Lemma significand_pos (a d : Z) :
  1 <= a -> 1 <= d ->
  0 < round_half_even (fst (scaled a d (binade a d))) (snd (scaled a d (binade a d))).
Proof.
  intros Ha Hd.
  pose proof (binade_le a d) as He.
  pose proof (scaled_dominates a d (binade a d) Ha Hd ltac:(lia)) as [Hs Hle].
  eapply Z.lt_le_trans; [| apply round_half_even_ge].
  apply Z.div_str_pos. lia.
Qed.

(** The numerator of [fl x] has the sign of [x]. *)
Lemma fl_sgn (x : Q) : Z.sgn (Qnum (fl x)) = Z.sgn (Qnum x).
Proof.
  unfold fl. destruct (Qnum x =? 0) eqn:E.
  - apply Z.eqb_eq in E. now rewrite E.
  - apply Z.eqb_neq in E.
    pose proof (significand_pos (Z.abs (Qnum x)) (Z.pos (Qden x))
                  ltac:(lia) ltac:(lia)) as Hm.
    destruct (scaled _ _ _) as [sn sd]. simpl in Hm.
    set (m := round_half_even sn sd) in *.
    set (k := 2 ^ Z.max (binade (Z.abs (Qnum x)) (Z.pos (Qden x))) 0).
    assert (Hk : 0 < k) by (apply Z.pow_pos_nonneg; lia).
    set (q := Qmake _ _).
    assert (Hq : Z.sgn (Qnum q) = Z.sgn (Qnum x)).
    { unfold q. simpl. rewrite !Z.sgn_mul, Z.sgn_sgn.
      rewrite (Z.sgn_pos m), (Z.sgn_pos k) by lia. lia. }
    rewrite <- Hq.
    pose proof (Qred_correct q) as Hr.
    unfold Qeq in Hr.
    assert (Hsgn : Z.sgn (Qnum (Qred q) * Z.pos (Qden q))
                   = Z.sgn (Qnum q * Z.pos (Qden (Qred q))))
      by now rewrite Hr.
    rewrite !Z.sgn_mul in Hsgn. cbn [Z.sgn] in Hsgn. lia.
Qed.

Lemma Qsgn_pos (x : Q) : (0 < x)%Q <-> Z.sgn (Qnum x) = 1.
Proof.
  unfold Qlt. simpl. rewrite Z.mul_1_r.
  split; [apply Z.sgn_pos | apply Z.sgn_pos_iff].
Qed.

Lemma Qsgn_neg (x : Q) : (x < 0)%Q <-> Z.sgn (Qnum x) = -1.
Proof.
  unfold Qlt. simpl. rewrite Z.mul_1_r.
  split; [apply Z.sgn_neg | apply Z.sgn_neg_iff].
Qed.

Lemma fl_pos (x : Q) : (0 < fl x)%Q <-> (0 < x)%Q.
Proof. now rewrite !Qsgn_pos, fl_sgn. Qed.

Lemma fl_neg (x : Q) : (fl x < 0)%Q <-> (x < 0)%Q.
Proof. now rewrite !Qsgn_neg, fl_sgn. Qed.

Lemma fl_nonneg (x : Q) : (0 <= x)%Q -> (0 <= fl x)%Q.
Proof.
  intros H. apply Qnot_lt_le. rewrite fl_neg. now apply Qle_not_lt.
Qed.

End Binary64Facts.

Import Binary64Facts.

(* ===================================================================== *)
(** ** Ranking                                                            *)
(* ===================================================================== *)

Section Ranking.

Context {A : Type} (score : A -> Q).

Lemma comparator_positive (a b : A) :
  gtb (byScoreDescending score a b) 0 = true <-> (score a < score b)%Q.
Proof.
  unfold gtb, byScoreDescending, fsub.
  rewrite negb_true_iff, <- not_true_iff_false, Qle_bool_iff.
  split.
  - intros H. apply Qnot_le_lt in H. apply (proj1 (fl_pos _)) in H.
    now apply Qlt_minus_iff.
  - intros H. apply Qlt_not_le. apply (proj2 (fl_pos _)).
    now apply (Qlt_minus_iff (score a)).
Qed.

Lemma comparator_not_positive (a b : A) :
  gtb (byScoreDescending score a b) 0 = false <-> (score b <= score a)%Q.
Proof.
  rewrite <- not_true_iff_false, comparator_positive. split.
  - apply Qnot_lt_le.
  - apply Qle_not_lt.
Qed.

Lemma sort_insert_permutation (x : A) (l : list A) :
  Permutation (sort_insert (byScoreDescending score) x l) (x :: l).
Proof.
  induction l as [| y rest IH]; simpl; [reflexivity |].
  destruct (gtb (byScoreDescending score x y) 0); [| reflexivity].
  rewrite IH. apply perm_swap.
Qed.

Lemma Array_sort_permutation (l : list A) :
  Permutation (Array_sort (byScoreDescending score) l) l.
Proof.
  induction l as [| x rest IH]; simpl; [reflexivity |].
  unfold Array_sort in *. simpl.
  rewrite sort_insert_permutation. now constructor.
Qed.

Lemma sort_insert_descending (x : A) (l : list A) :
  descending score l -> descending score (sort_insert (byScoreDescending score) x l).
Proof.
  unfold descending.
  induction l as [| y rest IH]; simpl; intros Hs.
  - constructor; constructor.
  - apply StronglySorted_inv in Hs as [Hrest Hy].
    destruct (gtb (byScoreDescending score x y) 0) eqn:E.
    + apply comparator_positive in E.
      constructor; [now apply IH |].
      eapply Permutation_Forall; [symmetry; apply sort_insert_permutation |].
      constructor; [now apply Qlt_le_weak | exact Hy].
    + apply comparator_not_positive in E.
      constructor; [now constructor |].
      constructor; [exact E |].
      eapply List.Forall_impl; [| exact Hy].
      intros z Hz. simpl in Hz. now apply Qle_trans with (score y).
Qed.

Lemma Array_sort_descending (l : list A) :
  descending score (Array_sort (byScoreDescending score) l).
Proof.
  induction l as [| x rest IH]; simpl.
  - constructor.
  - now apply sort_insert_descending.
Qed.

(** Inserting moves [x] only past entries with a strictly larger score, so
    the entries of any one score keep their order. *)
Lemma sort_insert_stable (q : Q) (x : A) (l : list A) :
  List.filter (sameScore score q) (sort_insert (byScoreDescending score) x l)
  = List.filter (sameScore score q) (x :: l).
Proof.
  induction l as [| y rest IH]; [reflexivity |].
  cbn [sort_insert].
  destruct (gtb (byScoreDescending score x y) 0) eqn:E; [| reflexivity].
  apply comparator_positive in E.
  cbn [List.filter] in *. rewrite IH.
  unfold sameScore.
  destruct (Qeq_bool (score x) q) eqn:Ex, (Qeq_bool (score y) q) eqn:Ey; try reflexivity.
  apply Qeq_bool_iff in Ex, Ey. exfalso.
  rewrite Ex, Ey in E. now apply Qlt_irrefl in E.
Qed.

Lemma Array_sort_stable (q : Q) (l : list A) :
  List.filter (sameScore score q) (Array_sort (byScoreDescending score) l)
  = List.filter (sameScore score q) l.
Proof.
  induction l as [| x rest IH]; [reflexivity |].
  unfold Array_sort in *. cbn [fold_right].
  rewrite sort_insert_stable. cbn [List.filter]. now rewrite IH.
Qed.

Lemma sameScore_refl (a : A) : sameScore score (score a) a = true.
Proof. unfold sameScore. apply Qeq_bool_iff. reflexivity. Qed.

(** An entry of the class of [q] in a descending list is not above its
    head. *)
Lemma class_below_head (q : Q) (x z : A) (rest : list A) :
  descending score (x :: rest) ->
  In z (List.filter (sameScore score q) (x :: rest)) ->
  (q <= score x)%Q.
Proof.
  intros Hs Hz. apply filter_In in Hz as [Hin Hq].
  unfold sameScore in Hq. apply Qeq_bool_iff in Hq. rewrite <- Hq.
  destruct Hin as [-> | Hin]; [apply Qle_refl |].
  apply StronglySorted_inv in Hs as [_ Hall].
  rewrite List.Forall_forall in Hall. now apply Hall.
Qed.

(** Two descending lists with the same entries, in the same order, in
    every class of equal scores are the same list. *)
Lemma stable_descending_unique (l1 l2 : list A) :
  descending score l1 -> descending score l2 ->
  (forall q, List.filter (sameScore score q) l1 = List.filter (sameScore score q) l2) ->
  l1 = l2.
Proof.
  revert l2. induction l1 as [| x t1 IH]; intros l2 Hs1 Hs2 Hsame.
  - destruct l2 as [| y t2]; [reflexivity |].
    specialize (Hsame (score y)). cbn [List.filter] in Hsame.
    now rewrite sameScore_refl in Hsame.
  - destruct l2 as [| y t2].
    + specialize (Hsame (score x)). cbn [List.filter] in Hsame.
      now rewrite sameScore_refl in Hsame.
    + assert (Hyx : (score y <= score x)%Q).
      { apply (class_below_head (score y) x y t1 Hs1).
        rewrite (Hsame (score y)). cbn [List.filter].
        rewrite sameScore_refl. now left. }
      assert (Hxy : (score x <= score y)%Q).
      { apply (class_below_head (score x) y x t2 Hs2).
        rewrite <- (Hsame (score x)). cbn [List.filter].
        rewrite sameScore_refl. now left. }
      assert (Heq : sameScore score (score x) y = true).
      { unfold sameScore. apply Qeq_bool_iff. now apply Qle_antisym. }
      pose proof (Hsame (score x)) as Hhead. cbn [List.filter] in Hhead.
      rewrite sameScore_refl, Heq in Hhead. injection Hhead as -> _.
      f_equal. apply IH.
      * now apply StronglySorted_inv in Hs1.
      * now apply StronglySorted_inv in Hs2.
      * intros q. specialize (Hsame q). cbn [List.filter] in Hsame.
        destruct (sameScore score q y); [now injection Hsame | exact Hsame].
Qed.

(** The model of [sort] does not depend on the sorting algorithm: any
    descending arrangement of [l] that keeps the order inside every class of
    equal scores is the array that [Array_sort] returns. *)
Lemma Array_sort_is_the_stable_sort (l arranged : list A) :
  descending score arranged ->
  (forall q, List.filter (sameScore score q) arranged
             = List.filter (sameScore score q) l) ->
  arranged = Array_sort (byScoreDescending score) l.
Proof.
  intros Hs Hsame. apply stable_descending_unique.
  - exact Hs.
  - apply Array_sort_descending.
  - intros q. now rewrite Array_sort_stable.
Qed.

End Ranking.

Lemma rankExperiences_sort (es : list Experience.t) (rm : RelevanceMap.t) :
  rankExperiences es rm = Array_sort (byScoreDescending (experienceScore rm)) es.
Proof. reflexivity. Qed.

Lemma rankProjects_sort (ps : list Project.t) (rm : RelevanceMap.t) :
  rankProjects ps rm = Array_sort (byScoreDescending (projectScore rm)) ps.
Proof. reflexivity. Qed.


(* ===================================================================== *)
(** ** Relevance scores                                                   *)
(* ===================================================================== *)

Lemma countMatches_from (text : string) (keywords : list string) (n : Z) :
  fold_left (fun n keyword => if includes text keyword then n + 1 else n) keywords n
  = n + Array_length (List.filter (includes text) keywords).
Proof.
  unfold Array_length. revert n.
  induction keywords as [| k rest IH]; intros n; simpl; [lia |].
  rewrite IH. destruct (includes text k); simpl List.length; lia.
Qed.

Lemma countMatches_filter (text : string) (keywords : list string) :
  countMatches text keywords = Array_length (List.filter (includes text) keywords).
Proof. unfold countMatches. now rewrite countMatches_from. Qed.


Lemma addThemeBonus_terms (text : string) (theme : ImpactTheme.t) (score : Q) :
  addThemeBonus text theme score
  = fold_left fadd
      (map (fun _ => fmul 5 (ImpactTheme.weight theme))
           (List.filter (fun keyword => includes text (toLowerCase keyword))
                        (ImpactTheme.keywords theme)))
      score.
Proof.
  unfold addThemeBonus. revert score.
  induction (ImpactTheme.keywords theme) as [| k rest IH]; intros score; simpl;
    [reflexivity |].
  destruct (includes text (toLowerCase k)); simpl; apply IH.
Qed.

Lemma themes_terms (text : string) (jd : JDAnalysis.t) (score : Q) :
  fold_left (fun score theme => addThemeBonus text theme score)
            (JDAnalysis.impactThemes jd) score
  = fold_left fadd (themeBonuses text jd) score.
Proof.
  unfold themeBonuses. revert score.
  induction (JDAnalysis.impactThemes jd) as [| th rest IH]; intros score; simpl;
    [reflexivity |].
  now rewrite fold_left_app, IH, addThemeBonus_terms.
Qed.


Lemma fadd_nonneg (x y : Q) : (0 <= x)%Q -> (0 <= y)%Q -> (0 <= fadd x y)%Q.
Proof.
  intros Hx Hy. apply fl_nonneg.
  apply Qle_trans with (0 + 0)%Q; [discriminate | now apply Qplus_le_compat].
Qed.

Lemma fmul_nonneg (x y : Q) : (0 <= x)%Q -> (0 <= y)%Q -> (0 <= fmul x y)%Q.
Proof. intros Hx Hy. apply fl_nonneg. now apply Qmult_le_0_compat. Qed.

Lemma fdiv_nonneg (n d : Z) : 0 <= n -> 1 <= d -> (0 <= fdiv (num n) (num d))%Q.
Proof.
  intros Hn Hd. apply fl_nonneg. unfold num.
  apply Qle_shift_div_l.
  - change 0%Q with (inject_Z 0). rewrite <- Zlt_Qlt. lia.
  - rewrite Qmult_0_l. change 0%Q with (inject_Z 0). rewrite <- Zle_Qle. lia.
Qed.

Lemma Math_min_nonneg (x y : Q) : (0 <= x)%Q -> (0 <= y)%Q -> (0 <= Math_min x y)%Q.
Proof. intros Hx Hy. unfold Math_min. now apply Q.min_glb. Qed.

Lemma Math_min_le_r (x y : Q) : (Math_min x y <= y)%Q.
Proof. apply Q.le_min_r. Qed.

Lemma Array_length_nonneg {A} (l : list A) : 0 <= Array_length l.
Proof. unfold Array_length. lia. Qed.

Lemma fold_fadd_nonneg (terms : list Q) (score : Q) :
  Forall (fun t => (0 <= t)%Q) terms -> (0 <= score)%Q ->
  (0 <= fold_left fadd terms score)%Q.
Proof.
  intros Hterms. revert score.
  induction Hterms as [| t rest Ht _ IH]; intros score Hs; simpl; [exact Hs |].
  apply IH. now apply fadd_nonneg.
Qed.

Lemma themeBonuses_nonneg (text : string) (jd : JDAnalysis.t) :
  nonnegativeWeights jd -> Forall (fun t => (0 <= t)%Q) (themeBonuses text jd).
Proof.
  unfold nonnegativeWeights, themeBonuses.
  induction 1 as [| th rest Hth _ IH]; simpl; [constructor |].
  apply Forall_app. split; [| exact IH].
  apply List.Forall_forall. intros t Ht. apply in_map_iff in Ht as (k & <- & _).
  apply fmul_nonneg; [discriminate | exact Hth].
Qed.

Lemma countTechMatches_nonneg (jd : JDAnalysis.t) (techs : list string) :
  0 <= countTechMatches jd techs.
Proof.
  unfold countTechMatches.
  assert (H : forall n, 0 <= n ->
            0 <= fold_left
                   (fun n tech =>
                      if Array_includes (skillKeywords jd) tech
                         || Array_includes (allKeywords jd) tech
                      then n + 1 else n) techs n).
  { induction techs as [| t rest IH]; intros n Hn; simpl; [exact Hn |].
    apply IH. destruct (_ || _); lia. }
  apply H. lia.
Qed.

Lemma experience_relevance_range (experience : Experience.t) (jd : JDAnalysis.t) :
  nonnegativeWeights jd ->
  (0 <= calculateExperienceRelevance experience jd <= 100)%Q.
Proof.
  intros Hw. unfold calculateExperienceRelevance. rewrite themes_terms.
  split; [| apply Math_min_le_r].
  apply Math_min_nonneg; [| discriminate].
  apply fold_fadd_nonneg; [now apply themeBonuses_nonneg |].
  apply fadd_nonneg.
  - destruct (_ || _); [apply fadd_nonneg |]; discriminate.
  - apply Math_min_nonneg; [discriminate |].
    apply fmul_nonneg; [| discriminate].
    apply fdiv_nonneg.
    + rewrite countMatches_filter. apply Array_length_nonneg.
    + unfold keywordDivisor. lia.
Qed.

Lemma project_relevance_range (project : Project.t) (jd : JDAnalysis.t) :
  (0 <= calculateProjectRelevance project jd <= 100)%Q.
Proof.
  unfold calculateProjectRelevance. split; [| apply Math_min_le_r].
  apply Math_min_nonneg; [| discriminate].
  assert (Hbase :
    (0 <= fadd (fadd 0
                 (Math_min 50
                    (fmul (fdiv (num (countTechMatches jd
                                        (map toLowerCase (Project.techStack project))))
                                (num (techDivisor project))) 70)))
               (Math_min 30
                  (fmul (fdiv (num (countMatches
                                      (toLowerCase (join " " (Project.bullets project)))
                                      (allKeywords jd ++ skillKeywords jd)))
                              (num (keywordDivisor jd))) 40)))%Q).
  { apply fadd_nonneg; [apply fadd_nonneg; [apply Qle_refl |] |];
      (apply Math_min_nonneg; [discriminate |]);
      (apply fmul_nonneg; [| discriminate]); apply fdiv_nonneg.
    - apply countTechMatches_nonneg.
    - unfold techDivisor. lia.
    - rewrite countMatches_filter. apply Array_length_nonneg.
    - unfold keywordDivisor. lia. }
  destruct (truthy_opt (Project.link project)); [| exact Hbase].
  apply fadd_nonneg; [exact Hbase | discriminate].
Qed.

Lemma skill_score_range (jd : JDAnalysis.t) (skill : string) :
  (0 <= skillScore jd skill <= 100)%Q.
Proof. unfold skillScore. destruct (Array_includes _ _); split; discriminate. Qed.

(** Writing scores between 0 and 100 into a map of such scores keeps it
    one. *)
Lemma scores_written_in_range {A} (key : A -> string) (score : A -> Q)
    (entries : list A) (scores : gmap string Q) :
  (forall x, (0 <= score x <= 100)%Q) ->
  (forall id s, scores !! id = Some s -> (0 <= s <= 100)%Q) ->
  forall id s,
    fold_left (fun (m : gmap string Q) x => <[key x := score x]> m) entries scores
    !! id = Some s ->
    (0 <= s <= 100)%Q.
Proof.
  intros Hscore. revert scores.
  induction entries as [| x entries IH]; intros scores Hscores; [exact Hscores |].
  cbn [fold_left]. apply IH. intros id s.
  rewrite lookup_insert. case_decide as Hid.
  - intros [= <-]. apply Hscore.
  - apply Hscores.
Qed.

(** Every score that [mapJDToProfile] stores lies between 0 and 100. *)
Lemma relevance_map_in_range (jd : JDAnalysis.t) (resumeData : ResumeData.t) :
  nonnegativeWeights jd ->
  forall id s,
    (RelevanceMap.experiences (mapJDToProfile jd resumeData) !! id = Some s
     \/ RelevanceMap.projects (mapJDToProfile jd resumeData) !! id = Some s
     \/ RelevanceMap.skills (mapJDToProfile jd resumeData) !! id = Some s) ->
    (0 <= s <= 100)%Q.
Proof.
  intros Hw id s. cbn [mapJDToProfile RelevanceMap.experiences
    RelevanceMap.projects RelevanceMap.skills].
  intros [H | [H | H]]; revert H;
    apply (scores_written_in_range _ (fun x => _)); try (intros ? ?; now rewrite lookup_empty).
  - intros e. now apply experience_relevance_range.
  - intros p. apply project_relevance_range.
  - intros k. apply skill_score_range.
Qed.

(** C7.  For a job whose theme weights are not negative (the data model
    has them in [0, 1]) the score of every experience, of every project and
    of every skill token lies between 0 and 100, and the two divisors of the
    scoring functions are at least 1, whatever the lists hold. *)
Theorem relevance_scores_in_range :
  forall jd : JDAnalysis.t,
    nonnegativeWeights jd ->
    (forall experience : Experience.t,
        (0 <= calculateExperienceRelevance experience jd <= 100)%Q)
    /\ (forall project : Project.t,
           (0 <= calculateProjectRelevance project jd <= 100)%Q)
    /\ (forall skill : string, (0 <= skillScore jd skill <= 100)%Q)
    /\ 1 <= keywordDivisor jd
    /\ (forall project : Project.t, 1 <= techDivisor project).
Proof.
  intros jd Hw. repeat split.
  - now apply experience_relevance_range.
  - now apply experience_relevance_range.
  - apply project_relevance_range.
  - apply project_relevance_range.
  - apply skill_score_range.
  - apply skill_score_range.
  - unfold keywordDivisor. lia.
  - unfold techDivisor. lia.
Qed.

(* ===================================================================== *)
(** ** Layout                                                            *)
(* ===================================================================== *)

Lemma walkProjects_nil (target : Z) : walkProjects [] target = ([], 0).
Proof. reflexivity. Qed.

Lemma Array_length_pos_cons {A} (l : list A) :
  (0 <? Array_length l) = match l with [] => false | _ => true end.
Proof.
  destruct l; [reflexivity |].
  unfold Array_length. simpl List.length. apply Z.ltb_lt. lia.
Qed.

Lemma firstn_of_nil {A} (n : nat) : firstn n (@nil A) = [].
Proof. now destruct n. Qed.

Local Opaque fl fmul fdiv Math_floor rankExperiences rankProjects
  walkExperiences walkProjects Z.mul Z.sub Z.add Z.min.

Ltac equate_experience_target :=
  try match goal with
      | |- context [walkExperiences ?r ?m (Math_floor (fmul (num ?x) ?c)) [] 0] =>
          match goal with
          | |- context [walkExperiences r m (Math_floor (fmul (num ?y) c)) [] 0] =>
              tryif constr_eq x y then fail else replace x with y by lia
          end
      end.

Ltac open_experience_walk :=
  try match goal with
      | |- context [walkExperiences ?r ?m ?t [] 0] =>
          destruct (walkExperiences r m t [] 0) as [items lines]
      end;
  cbn [fst snd map LayoutSection.allocatedLines sumZ fold_right].

Ltac equate_project_target :=
  try match goal with
      | |- context [walkProjects ?l ?t1] =>
          match goal with
          | |- context [walkProjects l ?t2] =>
              tryif constr_eq t1 t2 then fail else replace t1 with t2 by lia
          end
      end.

Ltac open_project_walk :=
  try match goal with
      | |- context [walkProjects ?l ?t] =>
          destruct (walkProjects l t) as [[| item0 items0] lines0]
      end;
  rewrite ?Array_length_pos_cons.

Lemma allocateLayout_sections (resumeData : ResumeData.t) (config : ResumeConfig.t)
    (relevanceMap : RelevanceMap.t) :
  LayoutPlan.sections (allocateLayout resumeData config relevanceMap)
  = planSections resumeData config relevanceMap
  /\ LayoutPlan.totalLines (allocateLayout resumeData config relevanceMap)
     = sumZ (map LayoutSection.allocatedLines
                 (planSections resumeData config relevanceMap)).
Proof.
  unfold allocateLayout, planSections, summaryPart, skillsPart, experiencePart,
    projectsPart, educationPart, projectWalk, targetProjectLines, cappedProjects,
    experiencePart, experienceWalk, targetExperienceLines, remainingLines,
    summaryLinesOf, skillLinesOf, educationLinesOf, slice0.
  destruct config as [pc [s k e p ed] mb mp sl]; cbn [ResumeConfig.includeSections
    ResumeConfig.pageCount ResumeConfig.maxBulletsPerExperience ResumeConfig.maxProjects
    ResumeConfig.summaryLength IncludeSections.summary IncludeSections.skills
    IncludeSections.experience IncludeSections.projects IncludeSections.education].
  unfold LINES_PER_PAGE, HEADER_LINES, SUMMARY_LINES_SHORT, SUMMARY_LINES_MEDIUM,
    SUMMARY_LINES_LONG, SKILLS_LINES_BASE, EDUCATION_LINES.
  rewrite Array_length_pos_cons.
  destruct s, k, e, p, ed, sl; cbv beta iota zeta;
    rewrite ?andb_true_l, ?andb_false_l;
    equate_experience_target; open_experience_walk;
    try (destruct (rankProjects _ _) as [| proj0 ranked];
         rewrite ?firstn_of_nil, ?walkProjects_nil);
    equate_project_target; open_project_walk;
    cbn [fst snd app map LayoutSection.allocatedLines LayoutPlan.sections
         LayoutPlan.totalLines sumZ fold_right];
    (split; [reflexivity | lia]).
Qed.

Local Transparent fl fmul fdiv Math_floor rankExperiences rankProjects
  Z.mul Z.sub Z.add Z.min.

Lemma sumZ_app (a b : list Z) : sumZ (a ++ b) = sumZ a + sumZ b.
Proof. unfold sumZ. induction a as [| x a IH]; simpl; lia. Qed.

Lemma sectionOf_experience (resumeData : ResumeData.t) (config : ResumeConfig.t)
    (relevanceMap : RelevanceMap.t) :
  sectionOf experience (allocateLayout resumeData config relevanceMap)
  = head (experiencePart resumeData config relevanceMap).
Proof.
  unfold sectionOf. rewrite (proj1 (allocateLayout_sections _ _ _)).
  unfold planSections, summaryPart, skillsPart, experiencePart, projectsPart,
    educationPart.
  destruct (IncludeSections.summary _), (IncludeSections.skills _),
    (IncludeSections.experience _), (IncludeSections.projects _),
    (IncludeSections.education _);
    try destruct (fst (projectWalk _ _ _)); reflexivity.
Qed.

Lemma sectionOf_projects (resumeData : ResumeData.t) (config : ResumeConfig.t)
    (relevanceMap : RelevanceMap.t) :
  sectionOf projects (allocateLayout resumeData config relevanceMap)
  = head (projectsPart resumeData config relevanceMap).
Proof.
  unfold sectionOf. rewrite (proj1 (allocateLayout_sections _ _ _)).
  unfold planSections, summaryPart, skillsPart, experiencePart, projectsPart,
    educationPart.
  destruct (IncludeSections.summary _), (IncludeSections.skills _),
    (IncludeSections.experience _), (IncludeSections.projects _),
    (IncludeSections.education _);
    try destruct (fst (projectWalk _ _ _)); reflexivity.
Qed.

Lemma experienceLinesOf_part (resumeData : ResumeData.t) (config : ResumeConfig.t)
    (relevanceMap : RelevanceMap.t) :
  experienceLinesOf (allocateLayout resumeData config relevanceMap)
  = sumZ (map LayoutSection.allocatedLines
              (experiencePart resumeData config relevanceMap)).
Proof.
  unfold experienceLinesOf. rewrite sectionOf_experience.
  unfold experiencePart. destruct (IncludeSections.experience _); simpl; lia.
Qed.

Local Transparent walkExperiences walkProjects.

(** The walk admits a prefix of the ranked list and stops at the first
    entry that does not fit. *)
Lemma walkExperiences_prefix (config : ResumeConfig.t) (target : Z)
    (ranked : list Experience.t) (items : list LayoutItem.t) (lines : Z) :
  exists admitted rest : list Experience.t,
    ranked = admitted ++ rest
    /\ walkExperiences ranked (ResumeConfig.maxBulletsPerExperience config) target
         items lines
       = (items ++ map (experienceItem config) admitted,
          lines + sumZ (map (experienceCost config) admitted))
    /\ (forall pre exp post,
           admitted = pre ++ exp :: post ->
           lines + sumZ (map (experienceCost config) pre) + experienceCost config exp
           <= target)
    /\ match rest with
       | [] => True
       | exp :: _ =>
           target < lines + sumZ (map (experienceCost config) admitted)
                    + experienceCost config exp
       end.
Proof.
  revert items lines.
  induction ranked as [| exp ranked IH]; intros items lines.
  - exists [], []. repeat split.
    + simpl. now rewrite app_nil_r, Z.add_0_r.
    + intros pre e post H. now destruct pre.
  - cbn [walkExperiences].
    change (EXPERIENCE_HEADER_LINES
            + Z.min (Z.of_nat (ResumeConfig.maxBulletsPerExperience config))
                    (Array_length (Experience.bullets exp)) * BULLET_LINES)
      with (experienceCost config exp).
    change (LayoutItem.mk (Experience.id exp)
              (Z.min (Z.of_nat (ResumeConfig.maxBulletsPerExperience config))
                     (Array_length (Experience.bullets exp))))
      with (experienceItem config exp).
    destruct (lines + experienceCost config exp <=? target) eqn:Fit.
    + apply Z.leb_le in Fit.
      destruct (IH (items ++ [experienceItem config exp])
                   (lines + experienceCost config exp))
        as (admitted & rest & Hsplit & Hwalk & Hpre & Hstop).
      exists (exp :: admitted), rest. repeat split.
      * now rewrite Hsplit.
      * rewrite Hwalk. cbn [map sumZ fold_right]. rewrite <- app_assoc.
        f_equal. fold (sumZ (map (experienceCost config) admitted)). lia.
      * intros pre e post H. destruct pre as [| p pre]; cbn in H.
        -- injection H as -> _. cbn. lia.
        -- injection H as -> H. specialize (Hpre pre e post H).
           cbn [map sumZ fold_right].
           fold (sumZ (map (experienceCost config) pre)). lia.
      * destruct rest as [| e rest]; [exact I |].
        cbn [map sumZ fold_right].
        fold (sumZ (map (experienceCost config) admitted)). lia.
    + apply Z.leb_gt in Fit.
      exists [], (exp :: ranked). repeat split.
      * simpl. now rewrite app_nil_r, Z.add_0_r.
      * intros pre e post H. now destruct pre.
      * cbn. lia.
Qed.

Lemma walkProjects_admits (target : Z) (capped : list Project.t)
    (items : list LayoutItem.t) (lines : Z) :
  exists admitted : list Project.t,
    Admits target lines capped admitted
    /\ fold_left (walkProject target) capped (items, lines)
       = (items ++ map projectItem admitted,
          lines + sumZ (map projectCost admitted)).
Proof.
  revert items lines.
  induction capped as [| proj capped IH]; intros items lines.
  - exists []. split; [constructor |].
    simpl. now rewrite app_nil_r, Z.add_0_r.
  - cbn [fold_left walkProject].
    change (PROJECT_HEADER_LINES
            + Z.min 2 (Array_length (Project.bullets proj)) * BULLET_LINES)
      with (projectCost proj).
    change (LayoutItem.mk (Project.id proj)
              (Z.min 2 (Array_length (Project.bullets proj))))
      with (projectItem proj).
    destruct (lines + projectCost proj <=? target) eqn:Fit.
    + apply Z.leb_le in Fit.
      destruct (IH (items ++ [projectItem proj]) (lines + projectCost proj))
        as (admitted & Hadm & Hwalk).
      exists (proj :: admitted). split; [now constructor |].
      rewrite Hwalk. cbn [map sumZ fold_right]. rewrite <- app_assoc.
      f_equal. fold (sumZ (map projectCost admitted)). lia.
    + apply Z.leb_gt in Fit.
      destruct (IH items lines) as (admitted & Hadm & Hwalk).
      exists admitted. split; [now constructor | exact Hwalk].
Qed.

(** C5, amended.  With the experience section enabled the plan admits a
    prefix of the ranked experiences, each with
    min(maxBulletsPerExperience, its bullet count) bullets; every admission
    keeps the running total within floor(remainingLines * 0.7); the walk
    stops at the first entry that would overflow; and the lines of the
    section never exceed that target when it is not negative (they are 0
    when it is). *)
Theorem experience_walk_greedy_prefix :
  forall (resumeData : ResumeData.t) (config : ResumeConfig.t)
         (relevanceMap : RelevanceMap.t),
    IncludeSections.experience (ResumeConfig.includeSections config) = true ->
    exists admitted rest : list Experience.t,
      rankExperiences (ResumeData.experiences resumeData) relevanceMap
      = admitted ++ rest
      /\ sectionOf experience (allocateLayout resumeData config relevanceMap)
         = Some (LayoutSection.mk experience
                   (sumZ (map (experienceCost config) admitted))
                   (Some (map (experienceItem config) admitted)))
      /\ (forall pre exp post,
             admitted = pre ++ exp :: post ->
             sumZ (map (experienceCost config) pre) + experienceCost config exp
             <= targetExperienceLines resumeData config)
      /\ match rest with
         | [] => True
         | exp :: _ =>
             targetExperienceLines resumeData config
             < sumZ (map (experienceCost config) admitted)
               + experienceCost config exp
         end
      /\ sumZ (map (experienceCost config) admitted)
         <= Z.max 0 (targetExperienceLines resumeData config).
Proof.
  intros rd cfg rm Hon.
  destruct (walkExperiences_prefix cfg (targetExperienceLines rd cfg)
              (rankExperiences (ResumeData.experiences rd) rm) [] 0)
    as (admitted & rest & Hsplit & Hwalk & Hpre & Hstop).
  exists admitted, rest. repeat split.
  - exact Hsplit.
  - rewrite sectionOf_experience. unfold experiencePart, experienceWalk.
    rewrite Hon, Hwalk. reflexivity.
  - intros pre e post H. specialize (Hpre pre e post H). lia.
  - destruct rest; [exact I | lia].
  - destruct admitted as [| a adm]; [cbn; lia |].
    destruct (@exists_last _ (a :: adm)) as (pre & e & Hlast); [discriminate |].
    specialize (Hpre pre e [] Hlast).
    rewrite Hlast, map_app, sumZ_app. cbn. lia.
Qed.

(** C4, amended.  With the projects section enabled the walk takes the
    ranked projects capped to maxProjects against the target
    min(remainingLines - (summary lines + skills lines + experience lines),
    maxProjects * 4); a project costs 1 + min(2, its bullet count) * 2 lines
    and is admitted exactly when the running total with its cost stays
    within the target (one that does not fit is passed over and the walk
    goes on); the section lists the admitted projects, and is left out when
    there are none. *)
Theorem project_walk_against_target :
  forall (resumeData : ResumeData.t) (config : ResumeConfig.t)
         (relevanceMap : RelevanceMap.t),
    IncludeSections.projects (ResumeConfig.includeSections config) = true ->
    exists admitted : list Project.t,
      Admits
        (Z.min (remainingLines resumeData config
                - (summaryLinesOf config + skillLinesOf resumeData config
                   + experienceLinesOf
                       (allocateLayout resumeData config relevanceMap)))
               (Z.of_nat (ResumeConfig.maxProjects config) * 4))
        0
        (firstn (ResumeConfig.maxProjects config)
                (rankProjects (ResumeData.projects resumeData) relevanceMap))
        admitted
      /\ sectionOf projects (allocateLayout resumeData config relevanceMap)
         = match admitted with
           | [] => None
           | _ :: _ =>
               Some (LayoutSection.mk projects
                       (sumZ (map projectCost admitted))
                       (Some (map projectItem admitted)))
           end.
Proof.
  intros rd cfg rm Hon.
  rewrite experienceLinesOf_part.
  fold (targetProjectLines rd cfg rm). fold (cappedProjects rd cfg rm).
  destruct (walkProjects_admits (targetProjectLines rd cfg rm)
              (cappedProjects rd cfg rm) [] 0) as (admitted & Hadm & Hwalk).
  exists admitted. split; [exact Hadm |].
  rewrite sectionOf_projects. unfold projectsPart, projectWalk, walkProjects.
  rewrite Hon, Hwalk. cbn [fst snd app].
  destruct admitted; reflexivity.
Qed.

(** C10.  The [totalLines] of a plan is the sum of the lines allocated to
    its sections. *)
Theorem totalLines_is_sum_of_sections :
  forall (resumeData : ResumeData.t) (config : ResumeConfig.t)
         (relevanceMap : RelevanceMap.t),
    LayoutPlan.totalLines (allocateLayout resumeData config relevanceMap)
    = sumZ (map LayoutSection.allocatedLines
                (LayoutPlan.sections
                   (allocateLayout resumeData config relevanceMap))).
Proof.
  intros rd cfg rm.
  destruct (allocateLayout_sections rd cfg rm) as [Hs Ht].
  now rewrite Ht, Hs.
Qed.

(* ===================================================================== *)
(** ** Compliance                                                        *)
(* ===================================================================== *)

Module ATSComplianceFacts.
Import ATSCompliance.

Lemma find_rule_defined (id : string) :
  ATSRule.severity (find_rule id) <> info -> In (find_rule id) ATS_RULES.
Proof.
  unfold find_rule.
  destruct (List.find _ ATS_RULES) as [r |] eqn:F.
  - intros _. now apply find_some in F.
  - intros H. now contradiction H.
Qed.

Lemma addIssue_sorted (id : string) (suggestion location : option string)
    (issues : Issues) :
  issuesSorted issues -> issuesSorted (addIssue (find_rule id) suggestion location issues).
Proof.
  intros [Hv Hw]. unfold addIssue.
  pose proof (find_rule_defined id) as Hin.
  destruct (ATSRule.severity (find_rule id)) eqn:S; split; cbn; try assumption.
  - apply Forall_app. split; [exact Hv |].
    constructor; [| constructor]. cbn. split; [now apply Hin | exact S].
  - apply Forall_app. split; [exact Hw |].
    constructor; [| constructor]. cbn. split; [now apply Hin | exact S].
Qed.

Lemma addIssueIf_sorted (test : bool) (id : string)
    (suggestion location : option string) (issues : Issues) :
  issuesSorted issues ->
  issuesSorted (addIssueIf test (find_rule id) suggestion location issues).
Proof.
  intros H. unfold addIssueIf. destruct test; [now apply addIssue_sorted | exact H].
Qed.

Lemma checkBulletCount_sorted (exps : list GeneratedExperience.t) (issues : Issues) :
  issuesSorted issues -> issuesSorted (fold_left checkBulletCount exps issues).
Proof.
  revert issues.
  induction exps as [| e exps IH]; intros issues H; [exact H |].
  cbn [fold_left]. apply IH. unfold checkBulletCount.
  destruct (_ <? 2); [now apply addIssue_sorted |].
  destruct (5 <? _); [now apply addIssue_sorted | exact H].
Qed.

Lemma collectIssues_sorted (resume : GeneratedResume.t) :
  issuesSorted (collectIssues resume).
Proof.
  unfold collectIssues. cbv zeta.
  repeat first
    [ apply addIssueIf_sorted
    | apply checkBulletCount_sorted
    | match goal with
      | |- issuesSorted (match ?l with _ => _ end) => destruct l; [| apply addIssue_sorted]
      end ].
  all: split; constructor.
Qed.

(** Of the catalogue only rules of severity [info] carry the identifier
    of the metrics rule. *)
Lemma metrics_rule_is_info (r : ATSRule.t) :
  In r ATS_RULES -> ATSRule.severity r = warning ->
  String.eqb (ATSRule.id r) "bullet-metrics" = false.
Proof.
  intros Hin. unfold ATS_RULES in Hin. cbn [In] in Hin.
  repeat (destruct Hin as [<- | Hin]; [cbn; first [reflexivity | discriminate] |]).
  contradiction.
Qed.

Lemma filter_all {A} (f : A -> bool) (l : list A) :
  Forall (fun x => f x = true) l -> List.filter f l = l.
Proof.
  induction 1 as [| x l Hx _ IH]; [reflexivity |].
  cbn. now rewrite Hx, IH.
Qed.

Lemma filter_none {A} (f : A -> bool) (l : list A) :
  Forall (fun x => f x = false) l -> List.filter f l = [].
Proof.
  induction 1 as [| x l Hx _ IH]; [reflexivity |].
  cbn. now rewrite Hx, IH.
Qed.

Lemma subtract_each {A} (f : A -> bool) (k : Z) (l : list A) (score : Z) :
  fold_left (fun score x => if f x then score - k else score) l score
  = score - k * Array_length (List.filter f l).
Proof.
  unfold Array_length. revert score.
  induction l as [| x l IH]; intros score; cbn [fold_left List.filter].
  - cbn. lia.
  - rewrite IH. destruct (f x); cbn [List.length]; lia.
Qed.

Lemma complianceScore_formula (vs ws : list ATSViolation.t) :
  complianceScore vs ws
  = scoreFormula (Array_length (List.filter isError vs))
                 (Array_length (List.filter isWarning ws)).
Proof.
  unfold complianceScore, scoreFormula.
  rewrite !subtract_each. fold isError isWarning. f_equal.
Qed.

End ATSComplianceFacts.

Import ATSComplianceFacts.

Lemma comprehensive_violations_are_errors (resume : GeneratedResume.t) :
  Forall (fun v => isError v = true)
         (ATSReport.violations (ATSCompliance.checkATSCompliance resume)).
Proof.
  destruct (collectIssues_sorted resume) as [Hv _].
  cbn [ATSCompliance.checkATSCompliance ATSReport.violations].
  eapply List.Forall_impl; [| exact Hv].
  intros v [_ Hs]. unfold isError. now rewrite Hs.
Qed.

Lemma comprehensive_warnings_are_warnings (resume : GeneratedResume.t) :
  Forall (fun w => isWarning w = true /\ isError w = false
                   /\ String.eqb (ATSRule.id (ATSViolation.rule w)) "bullet-metrics"
                      = false)
         (ATSReport.warnings (ATSCompliance.checkATSCompliance resume)).
Proof.
  destruct (collectIssues_sorted resume) as [_ Hw].
  cbn [ATSCompliance.checkATSCompliance ATSReport.warnings].
  eapply List.Forall_impl; [| exact Hw].
  intros w [Hin Hs]. unfold isWarning, isError. rewrite Hs.
  repeat split. now apply metrics_rule_is_info.
Qed.

(** The violations and the warnings of the generator's own check. *)
Lemma generator_violations_are_errors (resume : GeneratedResume.t) :
  Forall (fun v => isError v = true)
         (ATSReport.violations (checkATSCompliance resume)).
Proof.
  unfold checkATSCompliance. cbn [ATSReport.violations].
  destruct (negb _); cbn [app]; repeat constructor.
Qed.

Lemma generator_warnings_are_not_errors (resume : GeneratedResume.t) :
  Forall (fun w => isError w = false)
         (ATSReport.warnings (checkATSCompliance resume)).
Proof.
  unfold checkATSCompliance. cbn [ATSReport.warnings].
  repeat match goal with |- context [if ?c then _ else _] => destruct c end;
    cbn [app]; repeat constructor.
Qed.

Lemma length_zero_iff_nil {A} (l : list A) : (Array_length l =? 0) = true <-> l = [].
Proof.
  unfold Array_length. rewrite Z.eqb_eq. destruct l; cbn [List.length]; split;
    intros H; try reflexivity; try discriminate; lia.
Qed.

(** C2.  For the comprehensive checker and for the generator's own check,
    [passed] is true exactly when no violation of the report has a rule of
    severity [error]; the warnings never hold such a rule. *)
Theorem passed_iff_no_error_violation :
  forall resume : GeneratedResume.t,
    (ATSReport.passed (ATSCompliance.checkATSCompliance resume) = true
     <-> errorViolations (ATSCompliance.checkATSCompliance resume) = [])
    /\ List.filter isError
         (ATSReport.warnings (ATSCompliance.checkATSCompliance resume)) = []
    /\ (ATSReport.passed (checkATSCompliance resume) = true
        <-> errorViolations (checkATSCompliance resume) = [])
    /\ List.filter isError (ATSReport.warnings (checkATSCompliance resume)) = [].
Proof.
  intros resume. split; [| split; [| split]].
  - unfold errorViolations.
    cbn [ATSCompliance.checkATSCompliance ATSReport.passed ATSReport.violations].
    apply length_zero_iff_nil.
  - apply filter_none.
    eapply List.Forall_impl; [| apply comprehensive_warnings_are_warnings].
    now intros w (_ & H & _).
  - unfold errorViolations.
    rewrite (filter_all _ _ (generator_violations_are_errors resume)).
    unfold checkATSCompliance. cbn [ATSReport.passed ATSReport.violations].
    apply length_zero_iff_nil.
  - apply filter_none, generator_warnings_are_not_errors.
Qed.

Lemma scoreFormula_range (errors warnings : Z) :
  0 <= scoreFormula errors warnings <= 100.
Proof. unfold scoreFormula. lia. Qed.

Lemma scoreFormula_unclamped_above (errors warnings : Z) :
  0 <= errors -> 0 <= warnings ->
  scoreFormula errors warnings = Z.max 0 (100 - errors * 20 - warnings * 5).
Proof. unfold scoreFormula. lia. Qed.

(** C3.  For both checkers the score of a report is 100 less 20 for each
    violation of severity [error] and 5 for each warning, clamped to
    [0, 100]; it lies in [0, 100]; and one more violation or one more
    warning never raises it. *)
Theorem score_formula_bounded_monotone :
  forall resume : GeneratedResume.t,
    (let report := ATSCompliance.checkATSCompliance resume in
     ATSReport.score report
     = scoreFormula (Array_length (errorViolations report))
                    (Array_length (ATSReport.warnings report))
     /\ 0 <= ATSReport.score report <= 100)
    /\ (let report := checkATSCompliance resume in
        ATSReport.score report
        = scoreFormula (Array_length (errorViolations report))
                       (Array_length (ATSReport.warnings report))
        /\ 0 <= ATSReport.score report <= 100)
    /\ (forall errors warnings : Z,
           scoreFormula (errors + 1) warnings <= scoreFormula errors warnings
           /\ scoreFormula errors (warnings + 1) <= scoreFormula errors warnings)
    /\ (forall (violations warnings : list ATSViolation.t) (issue : ATSViolation.t),
           ATSCompliance.complianceScore (violations ++ [issue]) warnings
           <= ATSCompliance.complianceScore violations warnings
           /\ ATSCompliance.complianceScore violations (warnings ++ [issue])
              <= ATSCompliance.complianceScore violations warnings).
Proof.
  intros resume. split; [| split; [| split]].
  - cbv zeta. split.
    + unfold errorViolations.
      cbn [ATSCompliance.checkATSCompliance ATSReport.score ATSReport.violations
           ATSReport.warnings].
      rewrite complianceScore_formula. do 2 f_equal.
      apply filter_all.
      destruct (collectIssues_sorted resume) as [_ Hw].
      eapply List.Forall_impl; [| exact Hw].
      intros w [_ Hs]. unfold isWarning. now rewrite Hs.
    + cbn [ATSCompliance.checkATSCompliance ATSReport.score].
      rewrite complianceScore_formula. apply scoreFormula_range.
  - cbv zeta. split.
    + unfold errorViolations.
      rewrite (filter_all _ _ (generator_violations_are_errors resume)).
      rewrite scoreFormula_unclamped_above by apply Array_length_nonneg.
      reflexivity.
    + unfold checkATSCompliance. cbn [ATSReport.score]. unfold Array_length. lia.
  - intros errors warnings. unfold scoreFormula. lia.
  - intros vs ws issue. rewrite !complianceScore_formula, !List.filter_app.
    unfold Array_length. rewrite !List.length_app. cbn [List.filter].
    unfold scoreFormula.
    destruct (isError issue), (isWarning issue); cbn [List.length]; lia.
Qed.

(** The metrics rule never appears among the warnings of the
    comprehensive checker, whatever the share of bullets with a metric. *)
Lemma metric_warning_never_reported (resume : GeneratedResume.t) :
  warnsAbout "bullet-metrics" (ATSCompliance.checkATSCompliance resume) = false.
Proof.
  unfold warnsAbout.
  pose proof (comprehensive_warnings_are_warnings resume) as H.
  induction H as [| w ws (_ & _ & Hw) _ IH]; [reflexivity |].
  cbn [existsb]. now rewrite Hw, IH.
Qed.

(* ===================================================================== *)
(** ** Keyword coverage                                                  *)
(* ===================================================================== *)

Module StringFacts.

Lemma append_nil (b : string) : ("" ++ b)%string = b.
Proof. reflexivity. Qed.

Lemma append_cons (c : ascii) (a b : string) :
  (String c a ++ b)%string = String c (a ++ b).
Proof. reflexivity. Qed.




Lemma prefix_nil (s : string) : String.prefix "" s = true.
Proof. now destruct s. Qed.

Lemma prefix_app (k a b : string) :
  String.prefix k a = true -> String.prefix k (a ++ b) = true.
Proof.
  revert a. induction k as [| c k IH]; intros a H; [apply prefix_nil |].
  destruct a as [| d a]; [discriminate |].
  rewrite append_cons. cbn [String.prefix] in *.
  destruct (ascii_dec c d); [now apply IH | discriminate].
Qed.

Lemma includes_cons (c : ascii) (a k : string) :
  includes (String c a) k
  = if String.prefix k (String c a) then true else includes a k.
Proof. reflexivity. Qed.

Lemma includes_nil (k : string) :
  includes "" k = match k with EmptyString => true | _ => false end.
Proof. now destruct k. Qed.

Lemma if_true_true (c : bool) : (if c then true else true) = true.
Proof. now destruct c. Qed.

Lemma includes_app_l (a b k : string) :
  includes a k = true -> includes (a ++ b) k = true.
Proof.
  induction a as [| c a IH]; intros H.
  - rewrite includes_nil in H. destruct k; [| discriminate].
    rewrite append_nil. destruct b; reflexivity.
  - rewrite append_cons, includes_cons. rewrite includes_cons in H.
    destruct (String.prefix k (String c a)) eqn:P.
    + rewrite <- append_cons. now rewrite (prefix_app _ _ _ P).
    + rewrite (IH H). apply if_true_true.
Qed.

Lemma includes_app_r (a b k : string) :
  includes b k = true -> includes (a ++ b) k = true.
Proof.
  intros H. induction a as [| c a IH]; [exact H |].
  rewrite append_cons, includes_cons, IH. apply if_true_true.
Qed.







End StringFacts.

Import StringFacts.



Lemma filter_map_length {A B} (f : A -> B) (p : B -> bool) (l : list A) :
  Array_length (List.filter p (map f l))
  = Array_length (List.filter (fun x => p (f x)) l).
Proof.
  unfold Array_length. f_equal.
  induction l as [| x l IH]; [reflexivity |].
  cbn [map List.filter]. destruct (p (f x)); cbn [List.length]; now rewrite IH.
Qed.

Lemma filter_length_le {A} (p : A -> bool) (l : list A) :
  0 <= Array_length (List.filter p l) <= Array_length l.
Proof.
  unfold Array_length. split; [lia |].
  apply Nat2Z.inj_le, List.filter_length_le.
Qed.






(* ===================================================================== *)
(** ** The properties on the sample inputs                                *)
(* ===================================================================== *)

(** The catalogue holds every rule the comprehensive checker looks up. *)
Lemma find_rule_total :
  forallb (fun id => String.eqb (ATSRule.id (ATSCompliance.find_rule id)) id)
    ["contact-email"; "contact-phone"; "contact-name"; "has-experience";
     "has-skills"; "bullet-count"; "bullet-metrics"; "bullet-action-verbs";
     "date-format"; "no-special-chars"; "no-keyword-stuffing"]
  = true.
Proof. vm_compute. reflexivity. Qed.

(** C1 (the code departs from it).  A résumé with no e-mail address whose
    three bullets hold no metric has a metric rate below 0.4, and the
    comprehensive checker reports one violation and no warning at all: the
    metrics rule has severity [info], which [addIssue] drops.  The
    generator's own check does warn about the same rule. *)
Lemma low_metric_rate_without_warning :
  ltb (ATSCompliance.metricRate Samples.resumeWithoutEmail) (fl (4 # 10)) = true
  /\ map (fun v => ATSRule.id (ATSViolation.rule v))
         (ATSReport.violations
            (ATSCompliance.checkATSCompliance Samples.resumeWithoutEmail))
     = ["contact-email"]
  /\ ATSReport.warnings (ATSCompliance.checkATSCompliance Samples.resumeWithoutEmail)
     = []
  /\ ATSReport.score (ATSCompliance.checkATSCompliance Samples.resumeWithoutEmail)
     = 80
  /\ ATSReport.passed (ATSCompliance.checkATSCompliance Samples.resumeWithoutEmail)
     = false
  /\ warnsAbout "bullet-metrics" (checkATSCompliance Samples.resumeWithoutEmail)
     = true.
Proof. vm_compute. repeat split; reflexivity. Qed.

(** The experience score of the sample: 20 for the title, 40 for the
    keywords and 2.5 for the theme. *)
Lemma experience_relevance_sample :
  calculateExperienceRelevance Samples.experienceA Samples.jobA = (125 # 2)%Q
  /\ titlePoints Samples.experienceA Samples.jobA = 20%Q
  /\ keywordPoints Samples.experienceA Samples.jobA = 40%Q
  /\ themeBonuses (bulletText (Experience.bullets Samples.experienceA)) Samples.jobA
     = [(5 # 2)%Q].
Proof. vm_compute. repeat split; reflexivity. Qed.

(** C7 on the sample job, whose one theme has weight 0.5, and on entries
    with nothing in them. *)
Lemma relevance_scores_witness :
  nonnegativeWeights Samples.jobA
  /\ (0 <= calculateExperienceRelevance Samples.experienceA Samples.jobA <= 100)%Q
  /\ (0 <= calculateExperienceRelevance Samples.emptyExperience Samples.jobA <= 100)%Q
  /\ (0 <= calculateProjectRelevance Samples.emptyProject Samples.jobA <= 100)%Q
  /\ (0 <= skillScore Samples.jobA "docker" <= 100)%Q
  /\ 1 <= keywordDivisor Samples.jobA
  /\ 1 <= techDivisor Samples.emptyProject.
Proof.
  assert (Hw : nonnegativeWeights Samples.jobA).
  { constructor; [| constructor]. unfold Qle. simpl. lia. }
  destruct (relevance_scores_in_range Samples.jobA Hw)
    as (He & Hp & Hs & Hk & Ht).
  exact (conj Hw
           (conj (He Samples.experienceA)
              (conj (He Samples.emptyExperience)
                 (conj (Hp Samples.emptyProject)
                    (conj (Hs "docker") (conj Hk (Ht Samples.emptyProject))))))).
Defined.

(** C4 on the sample profile: one project is admitted against the target
    of 8 lines. *)
Lemma project_walk_witness :
  exists admitted : list Project.t,
    Admits 8 0
      [Samples.projectWith "p1" 2; Samples.projectWith "p2" 2;
       Samples.projectWith "p3" 2]
      admitted
    /\ sectionOf projects
         (allocateLayout Samples.profileA Samples.defaultConfig Samples.noScores)
       = match admitted with
         | [] => None
         | _ :: _ =>
             Some (LayoutSection.mk projects (sumZ (map projectCost admitted))
                     (Some (map projectItem admitted)))
         end.
Proof.
  exact (project_walk_against_target Samples.profileA Samples.defaultConfig
           Samples.noScores eq_refl).
Defined.

(** C4 as stated fails.  On the sample profile with the default
    configuration the skills take 5 lines and the experiences 26 of the 39
    remaining lines.  The target worded as
    min(remainingLines - experience lines, maxProjects * 4) is 12 and would
    admit two projects (10 lines); the code also takes the skills lines off,
    walks against 8 and admits one project (5 lines). *)
Lemma project_target_counts_skills :
  remainingLines Samples.profileA Samples.defaultConfig = 39
  /\ skillLinesOf Samples.profileA Samples.defaultConfig = 5
  /\ experienceLinesOf
       (allocateLayout Samples.profileA Samples.defaultConfig Samples.noScores) = 26
  /\ claimedProjectTarget Samples.profileA Samples.defaultConfig Samples.noScores = 12
  /\ walkProjects
       (cappedProjects Samples.profileA Samples.defaultConfig Samples.noScores) 12
     = ([LayoutItem.mk "p1" 2; LayoutItem.mk "p2" 2], 10)
  /\ targetProjectLines Samples.profileA Samples.defaultConfig Samples.noScores = 8
  /\ sectionOf projects
       (allocateLayout Samples.profileA Samples.defaultConfig Samples.noScores)
     = Some (LayoutSection.mk projects 5 (Some [LayoutItem.mk "p1" 2])).
Proof. vm_compute. repeat split; reflexivity. Qed.

(** C5 on the sample profile: the three experiences take 10, 10 and 6
    lines and fit the target of 27 lines. *)
Lemma experience_walk_witness :
  exists admitted rest : list Experience.t,
    rankExperiences (ResumeData.experiences Samples.profileA) Samples.noScores
    = admitted ++ rest
    /\ sectionOf experience
         (allocateLayout Samples.profileA Samples.defaultConfig Samples.noScores)
       = Some (LayoutSection.mk experience
                 (sumZ (map (experienceCost Samples.defaultConfig) admitted))
                 (Some (map (experienceItem Samples.defaultConfig) admitted)))
    /\ sumZ (map (experienceCost Samples.defaultConfig) admitted) <= 27.
Proof.
  destruct (experience_walk_greedy_prefix Samples.profileA Samples.defaultConfig
              Samples.noScores eq_refl)
    as (admitted & rest & Hsplit & Hsection & _ & _ & Hbound).
  exists admitted, rest. exact (conj Hsplit (conj Hsection Hbound)).
Defined.

(** C5 as stated fails.  With fourteen schools the education takes 42
    lines, [remainingLines] is -1 and the target floor(-1 * 0.7) is -1; no
    experience is admitted, and the 0 lines of the experience section
    exceed the target. *)
Lemma experience_lines_exceed_negative_target :
  remainingLines Samples.profileB Samples.defaultConfig = -1
  /\ targetExperienceLines Samples.profileB Samples.defaultConfig = -1
  /\ sectionOf experience
       (allocateLayout Samples.profileB Samples.defaultConfig Samples.noScores)
     = Some (LayoutSection.mk experience 0 (Some []))
  /\ targetExperienceLines Samples.profileB Samples.defaultConfig
     < experienceLinesOf
         (allocateLayout Samples.profileB Samples.defaultConfig Samples.noScores).
Proof. vm_compute. repeat split; reflexivity. Qed.

(** The tally of the sample plan is 45 lines; the page holds 55. *)
Lemma totalLines_sample :
  LayoutPlan.totalLines
    (allocateLayout Samples.profileA Samples.defaultConfig Samples.noScores) = 45
  /\ pages (ResumeConfig.pageCount Samples.defaultConfig) * LINES_PER_PAGE = 55.
Proof. vm_compute. split; reflexivity. Qed.

(** The product with 0.7 is a binary64 product: for 90 remaining lines it
    is just below 63 and the target is 62. *)
Lemma target_of_90_lines :
  Math_floor (fmul (num 90) (fl (7 # 10))) = 62
  /\ Math_floor (fmul (num 100) (fl (7 # 10))) = 70.
Proof. vm_compute. split; reflexivity. Qed.


(** With 23 of 40 keywords found the quotient 23 / 40 rounds to a binary64
    number below 0.575, the product with 100 stays below 57.5 and the score
    is 57, where round(100 * 23 / 40) is 58. *)
Lemma coverage_of_23_in_40 :
  Array_length (foundKeywords Samples.jobFortyKeywords Samples.resumeTwentyThree) = 23
  /\ JDMatchReport.coverageScore
       (generateJDMatchReport (Samples.profileOf Samples.resumeTwentyThree)
          Samples.jobFortyKeywords Samples.resumeTwentyThree Samples.noScores)
     = 57
  /\ exactCoverage 23 40 = 58.
Proof. vm_compute. repeat split; reflexivity. Qed.

(* ===================================================================== *)
(** * Further properties                                                 *)
(* ===================================================================== *)

(* ===================================================================== *)
(** ** Binary64 rounding keeps the order                                 *)
(* ===================================================================== *)

Module Binary64Order.

(** What [round_half_even] returns: the quotient lies within a half of it,
    and on a tie the result is even. *)
Lemma round_half_even_spec (n d : Z) :
  0 < d ->
  let k := round_half_even n d in
  (2 * k - 1) * d <= 2 * n <= (2 * k + 1) * d
  /\ (2 * n = (2 * k + 1) * d \/ 2 * n = (2 * k - 1) * d -> Z.even k = true).
Proof.
  intros Hd. cbv zeta. unfold round_half_even.
  pose proof (Z.div_mod n d ltac:(lia)) as Hdm.
  pose proof (Z.mod_pos_bound n d Hd) as Hr.
  set (q := n / d) in *. set (r := n mod d) in *.
  destruct (2 * r ?= d) eqn:C.
  - apply Z.compare_eq in C.
    destruct (Z.even q) eqn:Ev.
    + split; [nia |]. intros _. exact Ev.
    + split; [nia |]. intros _.
      rewrite Z.even_add, Ev. reflexivity.
  - rewrite Z.compare_lt_iff in C. split; [nia |]. intros [H | H]; nia.
  - rewrite Z.compare_gt_iff in C. split; [nia |]. intros [H | H]; nia.
Qed.

Lemma round_half_even_monotone (n d n' d' : Z) :
  0 < d -> 0 < d' -> n * d' <= n' * d ->
  round_half_even n d <= round_half_even n' d'.
Proof.
  intros Hd Hd' Hle.
  destruct (round_half_even_spec n d Hd) as [[Hlo Hhi] Htie].
  destruct (round_half_even_spec n' d' Hd') as [[Hlo' Hhi'] Htie'].
  set (k := round_half_even n d) in *. set (k' := round_half_even n' d') in *.
  destruct (Z_le_gt_dec k k') as [| Hgt]; [assumption | exfalso].
  assert (H1 : 2 * n * d' <= (2 * k' + 1) * d' * d) by nia.
  assert (H2 : (2 * k' + 1) * d * d' <= 2 * n * d') by nia.
  assert (Hk : k = k' + 1) by nia.
  assert (Hn : 2 * n = (2 * k - 1) * d) by nia.
  assert (Hn' : 2 * n' = (2 * k' + 1) * d') by nia.
  assert (Ek : Z.even k = true) by (apply Htie; now right).
  assert (Ek' : Z.even k' = true) by (apply Htie'; now left).
  rewrite Hk, Z.even_add, Ek' in Ek. discriminate.
Qed.

Lemma scaled_eq (a d e : Z) :
  scaled a d e = (a * 2 ^ Z.max (- e) 0, d * 2 ^ Z.max e 0).
Proof.
  unfold scaled. destruct (0 <=? e) eqn:E.
  - apply Z.leb_le in E. rewrite (Z.max_r (- e) 0), (Z.max_l e 0) by lia.
    now rewrite Z.pow_0_r, Z.mul_1_r.
  - apply Z.leb_gt in E. rewrite (Z.max_l (- e) 0), (Z.max_r e 0) by lia.
    now rewrite Z.pow_0_r, Z.mul_1_r.
Qed.

Lemma pow_shift (e k : Z) :
  0 <= k -> 0 <= k + e ->
  2 ^ Z.max e 0 * 2 ^ k = 2 ^ Z.max (- e) 0 * 2 ^ (k + e).
Proof. intros. rewrite <- !Z.pow_add_r by lia. f_equal. lia. Qed.

Lemma pow_gap (e e' : Z) :
  e < e' ->
  2 * (2 ^ Z.max e 0 * 2 ^ Z.max (- e') 0) <= 2 ^ Z.max e' 0 * 2 ^ Z.max (- e) 0.
Proof.
  intros. change 2 with (2 ^ 1) at 1. rewrite <- !Z.pow_add_r by lia.
  apply Z.pow_le_mono_r; lia.
Qed.

Lemma pow_step (e : Z) :
  2 * (2 ^ Z.max (e - 1) 0 * 2 ^ Z.max (- e) 0)
  = 2 ^ Z.max e 0 * 2 ^ Z.max (- (e - 1)) 0.
Proof.
  change 2 with (2 ^ 1) at 1. rewrite <- !Z.pow_add_r by lia. f_equal. lia.
Qed.

Lemma pow_pos (e : Z) : 0 < 2 ^ Z.max e 0.
Proof. apply Z.pow_pos_nonneg; lia. Qed.

(** The exponent chosen by [binade] puts the scaled fraction in
    [2 ^ 52, 2 ^ 53). *)
Lemma binade_spec (a d : Z) :
  1 <= a -> 1 <= d ->
  let e := binade a d in
  2 ^ 52 * (d * 2 ^ Z.max e 0) <= a * 2 ^ Z.max (- e) 0
  /\ a * 2 ^ Z.max (- e) 0 < 2 ^ 53 * (d * 2 ^ Z.max e 0).
Proof.
  intros Ha Hd. cbv zeta. unfold binade.
  set (e0 := Z.log2 a - Z.log2 d - 52).
  rewrite (scaled_eq a d e0).
  destruct (Z.log2_spec a ltac:(lia)) as [Hal Hau].
  destruct (Z.log2_spec d ltac:(lia)) as [Hdl Hdu].
  pose proof (Z.log2_nonneg a) as Hla. pose proof (Z.log2_nonneg d) as Hld.
  set (la := Z.log2 a) in *. set (ld := Z.log2 d) in *.
  pose proof (pow_pos e0) as HP. pose proof (pow_pos (- e0)) as HN.
  set (P := 2 ^ Z.max e0 0) in *. set (N := 2 ^ Z.max (- e0) 0) in *.
  assert (Hup : a * N < 2 ^ 53 * (d * P)).
  { pose proof (pow_shift e0 (ld + 53) ltac:(lia) ltac:(lia)) as Hs.
    fold P N in Hs.
    replace (ld + 53 + e0) with (Z.succ la) in Hs by lia.
    rewrite Z.pow_add_r in Hs by lia. nia. }
  assert (Hlow : 2 ^ 51 * (d * P) < a * N).
  { pose proof (pow_shift e0 (ld + 52) ltac:(lia) ltac:(lia)) as Hs.
    fold P N in Hs.
    replace (ld + 52 + e0) with la in Hs by lia.
    replace (ld + 52) with (Z.succ ld + 51) in Hs by lia.
    rewrite Z.pow_add_r in Hs by lia. nia. }
  destruct (a * N <? 2 ^ 52 * (d * P)) eqn:C.
  - apply Z.ltb_lt in C.
    pose proof (pow_step e0) as Hs. fold P N in Hs.
    pose proof (pow_pos (e0 - 1)) as HP1. pose proof (pow_pos (- (e0 - 1))) as HN1.
    set (P1 := 2 ^ Z.max (e0 - 1) 0) in *.
    set (N1 := 2 ^ Z.max (- (e0 - 1)) 0) in *.
    change (2 ^ 53) with (2 * 2 ^ 52). change (2 ^ 52) with (2 * 2 ^ 51) at 1.
    change (2 ^ 51) with 2251799813685248 in *.
    change (2 ^ 52) with 4503599627370496 in *.
    split.
    + apply Z.mul_le_mono_pos_r with (p := N); [lia |].
      transitivity (2251799813685248 * (d * P) * N1); [nia |].
      apply Z.lt_le_incl.
      replace (a * N1 * N) with (a * N * N1) by ring.
      apply Z.mul_lt_mono_pos_r; lia.
    + apply Z.mul_lt_mono_pos_r with (p := N); [lia |].
      replace (a * N1 * N) with (a * N * N1) by ring.
      replace (2 * 4503599627370496 * (d * P1) * N)
        with (4503599627370496 * (d * P) * N1) by nia.
      apply Z.mul_lt_mono_pos_r; lia.
  - apply Z.ltb_ge in C. split; [exact C | exact Hup].
Qed.

Lemma significand_bounds (a d : Z) :
  1 <= a -> 1 <= d ->
  let e := binade a d in
  2 ^ 52 <= round_half_even (a * 2 ^ Z.max (- e) 0) (d * 2 ^ Z.max e 0) <= 2 ^ 53.
Proof.
  intros Ha Hd. cbv zeta.
  destruct (binade_spec a d Ha Hd) as [Hlo Hhi].
  pose proof (pow_pos (binade a d)) as HP.
  set (n := a * _) in *. set (dd := d * _) in *.
  assert (Hdd : 0 < dd) by (unfold dd; nia).
  destruct (round_half_even_spec n dd Hdd) as [[H1 H2] _].
  set (k := round_half_even n dd) in *.
  change (2 ^ 52) with 4503599627370496 in *.
  change (2 ^ 53) with 9007199254740992 in *.
  split; nia.
Qed.

(** [fl] of a positive rational, without the case analysis on its sign. *)
Lemma fl_of_positive (x : Q) :
  0 < Qnum x ->
  let a := Qnum x in
  let d := Z.pos (Qden x) in
  let e := binade a d in
  (fl x == Qmake (round_half_even (a * 2 ^ Z.max (- e) 0) (d * 2 ^ Z.max e 0)
                    * 2 ^ Z.max e 0)
                 (Z.to_pos (2 ^ Z.max (- e) 0)))%Q.
Proof.
  intros Hn. cbv zeta. unfold fl.
  destruct (Qnum x =? 0) eqn:E; [apply Z.eqb_eq in E; lia |].
  rewrite (Z.abs_eq (Qnum x)) by lia.
  rewrite scaled_eq, Qred_correct, (Z.sgn_pos (Qnum x)) by lia.
  now rewrite Z.mul_1_l.
Qed.

(** Rounding to binary64 keeps the order of non-negative rationals. *)
Lemma fl_monotone (x y : Q) : (0 <= x)%Q -> (x <= y)%Q -> (fl x <= fl y)%Q.
Proof.
  intros Hx Hxy.
  destruct (Z.eq_dec (Qnum x) 0) as [Hz | Hnz].
  - assert (E : fl x = 0%Q) by (unfold fl; now rewrite Hz).
    rewrite E. apply fl_nonneg. now apply Qle_trans with x.
  - assert (Ha : 0 < Qnum x) by (unfold Qle in Hx; simpl in Hx; lia).
    assert (Ha' : 0 < Qnum y).
    { unfold Qle in Hxy. pose proof (Pos2Z.is_pos (Qden y)).
      pose proof (Pos2Z.is_pos (Qden x)). nia. }
    rewrite (fl_of_positive x Ha), (fl_of_positive y Ha').
    unfold Qle in Hxy |- *. cbn [Qnum Qden].
    set (a := Qnum x) in *. set (d := Z.pos (Qden x)) in *.
    set (a' := Qnum y) in *. set (d' := Z.pos (Qden y)) in *.
    assert (Hd : 1 <= d) by (unfold d; lia).
    assert (Hd' : 1 <= d') by (unfold d'; lia).
    destruct (binade_spec a d ltac:(lia) Hd) as [Hlo Hhi].
    destruct (binade_spec a' d' ltac:(lia) Hd') as [Hlo' Hhi'].
    pose proof (significand_bounds a d ltac:(lia) Hd) as Hm.
    pose proof (significand_bounds a' d' ltac:(lia) Hd') as Hm'.
    cbv zeta in Hm, Hm'.
    set (e := binade a d) in *. set (e' := binade a' d') in *.
    pose proof (pow_pos e) as HP. pose proof (pow_pos (- e)) as HN.
    pose proof (pow_pos e') as HP'. pose proof (pow_pos (- e')) as HN'.
    rewrite !Z2Pos.id by assumption.
    destruct (Z.lt_trichotomy e e') as [Hlt | [Heq | Hgt]].
    + pose proof (pow_gap e e' Hlt) as Hg.
      set (P := 2 ^ Z.max e 0) in *. set (N := 2 ^ Z.max (- e) 0) in *.
      set (P' := 2 ^ Z.max e' 0) in *. set (N' := 2 ^ Z.max (- e') 0) in *.
      set (m := round_half_even _ _) in *. set (m' := round_half_even _ _) in *.
      change (2 ^ 52) with 4503599627370496 in *.
      change (2 ^ 53) with (2 * 4503599627370496) in *.
      transitivity (2 * 4503599627370496 * (P * N')); [nia |].
      transitivity (4503599627370496 * (P' * N)); [nia |]. nia.
    + assert (Hr : round_half_even (a * 2 ^ Z.max (- e) 0) (d * 2 ^ Z.max e 0)
                   <= round_half_even (a' * 2 ^ Z.max (- e') 0) (d' * 2 ^ Z.max e' 0)).
      { apply round_half_even_monotone; [nia | nia |].
        rewrite <- Heq.
        replace (a * 2 ^ Z.max (- e) 0 * (d' * 2 ^ Z.max e 0))
          with (a * d' * (2 ^ Z.max (- e) 0 * 2 ^ Z.max e 0)) by ring.
        replace (a' * 2 ^ Z.max (- e) 0 * (d * 2 ^ Z.max e 0))
          with (a' * d * (2 ^ Z.max (- e) 0 * 2 ^ Z.max e 0)) by ring.
        apply Z.mul_le_mono_nonneg_r; [nia | exact Hxy]. }
      rewrite <- Heq in *.
      set (P := 2 ^ Z.max e 0) in *. set (N := 2 ^ Z.max (- e) 0) in *.
      nia.
    + exfalso.
      pose proof (pow_gap e' e ltac:(lia)) as Hg.
      set (P := 2 ^ Z.max e 0) in *. set (N := 2 ^ Z.max (- e) 0) in *.
      set (P' := 2 ^ Z.max e' 0) in *. set (N' := 2 ^ Z.max (- e') 0) in *.
      change (2 ^ 52) with 4503599627370496 in *.
      change (2 ^ 53) with (2 * 4503599627370496) in *.
      assert (H1 : 4503599627370496 * (d * P) * (d' * N') <= a * N * (d' * N'))
        by (apply Z.mul_le_mono_nonneg_r; nia).
      assert (H2 : a * d' * (N * N') <= a' * d * (N * N'))
        by (apply Z.mul_le_mono_nonneg_r; nia).
      assert (H3 : a' * N' * (d * N) < 2 * 4503599627370496 * (d' * P') * (d * N))
        by (apply Z.mul_lt_mono_pos_r; nia).
      assert (H4 : 4503599627370496 * (d * d') * (P * N')
                   < 4503599627370496 * (d * d') * (2 * (P' * N))) by nia.
      apply Z.mul_lt_mono_pos_l in H4; nia.
Qed.

(** Two non-negative rationals of the same value round to the same
    number. *)
Lemma fl_Qeq (x y : Q) : (0 <= x)%Q -> (x == y)%Q -> (fl x == fl y)%Q.
Proof.
  intros Hx Hxy. apply Qle_antisym.
  - apply fl_monotone; [exact Hx | rewrite Hxy; apply Qle_refl].
  - apply fl_monotone; [rewrite <- Hxy; exact Hx | rewrite Hxy; apply Qle_refl].
Qed.

Lemma round_half_even_integer (n : Z) : round_half_even n 1 = n.
Proof.
  unfold round_half_even. rewrite Z.mod_1_r, Z.div_1_r. reflexivity.
Qed.

(** An integer below [2 ^ 53] is a binary64 number. *)
Lemma fl_integer (z : Z) : 0 <= z < 2 ^ 53 -> (fl (inject_Z z) == inject_Z z)%Q.
Proof.
  intros Hz. destruct (Z.eq_dec z 0) as [-> | Hnz]; [reflexivity |].
  rewrite fl_of_positive by (cbn; lia). cbn [Qnum Qden inject_Z].
  destruct (binade_spec z 1 ltac:(lia) ltac:(lia)) as [Hlo Hhi].
  set (e := binade z 1) in *.
  pose proof (pow_pos e) as HP. pose proof (pow_pos (- e)) as HN.
  assert (He : e <= 0).
  { destruct (Z_le_gt_dec e 0) as [| Hgt]; [assumption | exfalso].
    rewrite (Z.max_r (- e) 0), Z.pow_0_r in Hlo by lia.
    rewrite (Z.max_l e 0) in Hlo by lia.
    assert (2 ^ 1 <= 2 ^ e) by (apply Z.pow_le_mono_r; lia).
    change (2 ^ 1) with 2 in *. change (2 ^ 52) with 4503599627370496 in *.
    change (2 ^ 53) with 9007199254740992 in *. nia. }
  rewrite (Z.max_r e 0), Z.pow_0_r, !Z.mul_1_r by lia.
  rewrite round_half_even_integer.
  unfold Qeq. cbn [Qnum Qden]. rewrite Z2Pos.id by assumption. cbn [inject_Z Qnum Qden]. ring.
Qed.

(** What lies at or below a binary64 number rounds to at most that
    number. *)
Lemma fl_le_integer (x : Q) (z : Z) :
  (0 <= x)%Q -> 0 <= z < 2 ^ 53 -> (x <= inject_Z z)%Q -> (fl x <= inject_Z z)%Q.
Proof.
  intros Hx Hz Hle. rewrite <- (fl_integer z Hz). now apply fl_monotone.
Qed.

End Binary64Order.

(* ===================================================================== *)
(** ** Layout: items, order, budget and compression                      *)
(* ===================================================================== *)

Import Binary64Order.

Lemma fdiv_monotone (a b d : Z) :
  0 <= a <= b -> 0 < d -> (fdiv (num a) (num d) <= fdiv (num b) (num d))%Q.
Proof.
  intros Hab Hd. unfold fdiv. apply fl_monotone.
  - unfold Qle, Qdiv, Qmult, Qinv, num, inject_Z. destruct d; try lia. simpl. lia.
  - unfold Qle, Qdiv, Qmult, Qinv, num, inject_Z. destruct d; try lia. simpl. nia.
Qed.

Lemma gtb_above (a b c : Q) : gtb a c = true -> (a <= b)%Q -> gtb b c = true.
Proof.
  unfold gtb. rewrite !negb_true_iff, <- !not_true_iff_false, !Qle_bool_iff.
  intros Hac Hab Hbc. apply Hac. now apply Qle_trans with b.
Qed.

Lemma gtb_below (a b c : Q) : gtb b c = false -> (a <= b)%Q -> gtb a c = false.
Proof.
  unfold gtb. rewrite !negb_false_iff, !Qle_bool_iff.
  intros Hbc Hab. now apply Qle_trans with b.
Qed.

(** Between two tallies that get the same test results, every tally gets
    them. *)
Lemma compressionOf_between (lo hi used total : Z) :
  0 < total -> 0 <= lo <= used -> used <= hi ->
  compressionOf lo total = compressionOf hi total ->
  compressionOf used total = compressionOf lo total.
Proof.
  intros Ht Hlo Hhi. unfold compressionOf. cbv zeta.
  pose proof (fdiv_monotone lo used total Hlo Ht) as H1.
  pose proof (fdiv_monotone used hi total ltac:(lia) Ht) as H2.
  set (ul := fdiv (num lo) (num total)) in *.
  set (uh := fdiv (num hi) (num total)) in *.
  set (u := fdiv (num used) (num total)) in *.
  destruct (gtb ul (fl (11 # 10))) eqn:A1.
  { now rewrite (gtb_above _ _ _ A1 H1). }
  destruct (gtb uh (fl (11 # 10))) eqn:B1.
  { destruct (gtb ul 1), (gtb ul (fl (95 # 100))); discriminate. }
  rewrite (gtb_below _ _ _ B1 H2).
  destruct (gtb ul 1) eqn:A2.
  { now rewrite (gtb_above _ _ _ A2 H1). }
  destruct (gtb uh 1) eqn:B2.
  { destruct (gtb ul (fl (95 # 100))); discriminate. }
  rewrite (gtb_below _ _ _ B2 H2).
  destruct (gtb ul (fl (95 # 100))) eqn:A3.
  { now rewrite (gtb_above _ _ _ A3 H1). }
  destruct (gtb uh (fl (95 # 100))) eqn:B3; [discriminate |].
  now rewrite (gtb_below _ _ _ B3 H2).
Qed.

(** Above a tally that is aggressive every tally is. *)
Lemma compressionOf_aggressive (lo used total : Z) :
  0 < total -> 0 <= lo <= used ->
  compressionOf lo total = aggressive -> compressionOf used total = aggressive.
Proof.
  intros Ht Hlo. unfold compressionOf. cbv zeta.
  pose proof (fdiv_monotone lo used total Hlo Ht) as H1.
  set (ul := fdiv (num lo) (num total)) in *.
  destruct (gtb ul (fl (11 # 10))) eqn:A1.
  - now rewrite (gtb_above _ _ _ A1 H1).
  - intros H. destruct (gtb ul 1); [discriminate |].
    destruct (gtb ul (fl (95 # 100))); discriminate.
Qed.

Lemma exactCompression_band (used total : Z) (level : CompressionLevel) :
  0 < total ->
  exactCompression used total = level <->
  match level with
  | aggressive => 11 * total < 10 * used
  | moderate => total < used /\ 10 * used <= 11 * total
  | light => 95 * total < 100 * used /\ used <= total
  | none => 100 * used <= 95 * total
  end.
Proof.
  intros Hpos. unfold exactCompression.
  destruct (11 * total <? 10 * used) eqn:A; [apply Z.ltb_lt in A | apply Z.ltb_ge in A];
    [destruct level; split; intros H; try discriminate; try reflexivity; lia |].
  destruct (total <? used) eqn:B; [apply Z.ltb_lt in B | apply Z.ltb_ge in B];
    [destruct level; split; intros H; try discriminate; try reflexivity; lia |].
  destruct (95 * total <? 100 * used) eqn:C; [apply Z.ltb_lt in C | apply Z.ltb_ge in C];
    destruct level; split; intros H; try discriminate; try reflexivity; lia.
Qed.

(** On a page budget of one or two pages the binary64 comparisons of the
    utilisation give the level of the exact comparisons. *)
Lemma compressionOf_exact (used total : Z) :
  total = 55 \/ total = 110 -> 0 <= used ->
  compressionOf used total = exactCompression used total.
Proof.
  intros Ht Hu. symmetry. apply exactCompression_band; [lia |].
  assert (Band : forall lo hi level,
            compressionOf lo total = level -> compressionOf hi total = level ->
            0 < total -> 0 <= lo <= used -> used <= hi ->
            compressionOf used total = level).
  { intros lo hi level Hl Hh Hpos Hlo Hhi. rewrite <- Hl.
    apply (compressionOf_between lo hi); try assumption. now rewrite Hl, Hh. }
  destruct Ht as [-> | ->].
  - destruct (Z_le_gt_dec used 52).
    { rewrite (Band 0 52 none); first [lia | vm_compute; reflexivity]. }
    destruct (Z_le_gt_dec used 55).
    { rewrite (Band 53 55 light); first [lia | vm_compute; reflexivity]. }
    destruct (Z_le_gt_dec used 60).
    { rewrite (Band 56 60 moderate); first [lia | vm_compute; reflexivity]. }
    rewrite (compressionOf_aggressive 61 used 55);
      first [lia | vm_compute; reflexivity].
  - destruct (Z_le_gt_dec used 104).
    { rewrite (Band 0 104 none); first [lia | vm_compute; reflexivity]. }
    destruct (Z_le_gt_dec used 110).
    { rewrite (Band 105 110 light); first [lia | vm_compute; reflexivity]. }
    destruct (Z_le_gt_dec used 121).
    { rewrite (Band 111 121 moderate); first [lia | vm_compute; reflexivity]. }
    rewrite (compressionOf_aggressive 122 used 110);
      first [lia | vm_compute; reflexivity].
Qed.

Local Opaque fl fmul fdiv Math_floor rankExperiences rankProjects
  walkExperiences walkProjects Z.mul Z.sub Z.add Z.min gtb.

Lemma allocateLayout_compression (resumeData : ResumeData.t) (config : ResumeConfig.t)
    (relevanceMap : RelevanceMap.t) :
  LayoutPlan.compressionLevel (allocateLayout resumeData config relevanceMap)
  = compressionOf (LayoutPlan.totalLines (allocateLayout resumeData config relevanceMap))
                  (pageBudget config).
Proof.
  unfold allocateLayout, compressionOf, pageBudget, slice0.
  destruct config as [pc [s k e p ed] mb mp sl]; cbn [ResumeConfig.includeSections
    ResumeConfig.pageCount ResumeConfig.maxBulletsPerExperience ResumeConfig.maxProjects
    ResumeConfig.summaryLength IncludeSections.summary IncludeSections.skills
    IncludeSections.experience IncludeSections.projects IncludeSections.education].
  rewrite Array_length_pos_cons.
  destruct s, k, e, p, ed, sl; cbv beta iota zeta;
    rewrite ?andb_true_l, ?andb_false_l;
    open_experience_walk;
    try (destruct (rankProjects _ _) as [| proj0 ranked];
         rewrite ?firstn_of_nil, ?walkProjects_nil);
    open_project_walk;
    reflexivity.
Qed.

Local Transparent fl fmul fdiv Math_floor rankExperiences rankProjects
  walkExperiences walkProjects Z.mul Z.sub Z.add Z.min gtb.

Lemma Math_floor_nonneg (x : Q) : (0 <= x)%Q -> 0 <= Math_floor x.
Proof.
  intros H. unfold Math_floor. change 0 with (Qfloor 0). now apply Qfloor_resp_le.
Qed.

Lemma Math_floor_neg (x : Q) : (x < 0)%Q -> Math_floor x < 0.
Proof.
  intros H. unfold Math_floor.
  pose proof (Qfloor_le x) as Hf.
  assert (Hlt : (inject_Z (Qfloor x) < inject_Z 0)%Q)
    by (eapply Qle_lt_trans; [exact Hf | exact H]).
  now rewrite <- Zlt_Qlt in Hlt.
Qed.

Lemma summaryLinesOf_range (config : ResumeConfig.t) : 0 <= summaryLinesOf config <= 4.
Proof.
  unfold summaryLinesOf.
  destruct (IncludeSections.summary _); [destruct (ResumeConfig.summaryLength _) |]; lia.
Qed.

Lemma skillLinesOf_range (resumeData : ResumeData.t) (config : ResumeConfig.t) :
  0 <= skillLinesOf resumeData config <= 6.
Proof.
  unfold skillLinesOf. destruct (IncludeSections.skills _); [| lia].
  pose proof (Math_floor_nonneg
                (fdiv (num (Array_length (ResumeData.skills resumeData))) 2)) as H.
  assert (0 <= Math_floor (fdiv (num (Array_length (ResumeData.skills resumeData))) 2)).
  { apply H. apply (fdiv_nonneg _ 2); [apply Array_length_nonneg | lia]. }
  lia.
Qed.

Lemma educationLinesOf_nonneg (resumeData : ResumeData.t) (config : ResumeConfig.t) :
  0 <= educationLinesOf resumeData config.
Proof.
  unfold educationLinesOf. destruct (IncludeSections.education _); [| lia].
  pose proof (Array_length_nonneg (ResumeData.education resumeData)). lia.
Qed.

Lemma remainingLines_fixed (resumeData : ResumeData.t) (config : ResumeConfig.t) :
  remainingLines resumeData config
  = pageBudget config - 2 - fixedLines resumeData config.
Proof. unfold remainingLines, pageBudget, fixedLines, LINES_PER_PAGE, HEADER_LINES. lia. Qed.

Lemma pageBudget_cases (config : ResumeConfig.t) :
  pageBudget config = 55 \/ pageBudget config = 110.
Proof.
  unfold pageBudget. destruct (ResumeConfig.pageCount config); [now left | now right].
Qed.

Lemma target_within_remaining : forallb targetWithin (seq 0 103) = true.
Proof. vm_compute. reflexivity. Qed.

Lemma targetExperienceLines_le (resumeData : ResumeData.t) (config : ResumeConfig.t) :
  0 <= remainingLines resumeData config ->
  targetExperienceLines resumeData config <= remainingLines resumeData config.
Proof.
  intros Hr. unfold targetExperienceLines.
  assert (Hup : remainingLines resumeData config <= 102).
  { rewrite remainingLines_fixed. unfold fixedLines, HEADER_LINES.
    pose proof (summaryLinesOf_range config).
    pose proof (skillLinesOf_range resumeData config).
    pose proof (educationLinesOf_nonneg resumeData config).
    destruct (pageBudget_cases config) as [-> | ->]; lia. }
  pose proof target_within_remaining as H. rewrite forallb_forall in H.
  specialize (H (Z.to_nat (remainingLines resumeData config))).
  unfold targetWithin in H. rewrite Z2Nat.id in H by lia.
  apply Z.leb_le, H, in_seq. lia.
Qed.

Lemma targetExperienceLines_neg (resumeData : ResumeData.t) (config : ResumeConfig.t) :
  remainingLines resumeData config < 0 ->
  targetExperienceLines resumeData config < 0.
Proof.
  intros Hr. unfold targetExperienceLines. apply Math_floor_neg.
  unfold fmul. apply (proj2 (fl_neg _)).
  set (r := remainingLines resumeData config) in *.
  assert (Hc : (0 < fl (7 # 10))%Q) by (apply (proj2 (fl_pos _)); reflexivity).
  assert (Hn : (num r < 0)%Q).
  { unfold num. change 0%Q with (inject_Z 0). rewrite <- Zlt_Qlt. exact Hr. }
  unfold Qlt in *. simpl in *. nia.
Qed.

Lemma experienceCost_pos (config : ResumeConfig.t) (exp : Experience.t) :
  2 <= experienceCost config exp.
Proof.
  unfold experienceCost, experienceBullets.
  pose proof (Array_length_nonneg (Experience.bullets exp)). lia.
Qed.

Lemma projectCost_pos (proj : Project.t) : 1 <= projectCost proj.
Proof.
  unfold projectCost, projectBullets.
  pose proof (Array_length_nonneg (Project.bullets proj)). lia.
Qed.

Lemma experienceCosts_nonneg (config : ResumeConfig.t) (l : list Experience.t) :
  0 <= sumZ (map (experienceCost config) l).
Proof.
  induction l as [| e l IH]; cbn; [lia |].
  pose proof (experienceCost_pos config e). fold (sumZ (map (experienceCost config) l)). lia.
Qed.

Lemma projectCosts_nonneg (l : list Project.t) : 0 <= sumZ (map projectCost l).
Proof.
  induction l as [| p l IH]; cbn; [lia |].
  pose proof (projectCost_pos p). fold (sumZ (map projectCost l)). lia.
Qed.

(** The lines of the experience section stay within the target, and are 0
    when the target is negative. *)
Lemma experienceWalk_lines (resumeData : ResumeData.t) (config : ResumeConfig.t)
    (relevanceMap : RelevanceMap.t) :
  0 <= snd (experienceWalk resumeData config relevanceMap)
    <= Z.max 0 (targetExperienceLines resumeData config).
Proof.
  unfold experienceWalk.
  destruct (walkExperiences_prefix config (targetExperienceLines resumeData config)
              (rankExperiences (ResumeData.experiences resumeData) relevanceMap) [] 0)
    as (admitted & rest & _ & Hwalk & Hpre & _).
  rewrite Hwalk. cbn [snd].
  pose proof (experienceCosts_nonneg config admitted) as Hn.
  split; [lia |].
  destruct admitted as [| a adm]; [cbn; lia |].
  destruct (@exists_last _ (a :: adm)) as (pre & e & Hlast); [discriminate |].
  specialize (Hpre pre e [] Hlast).
  rewrite Hlast, map_app, sumZ_app. cbn. lia.
Qed.

Lemma Admits_lines (target running : Z) (capped admitted : list Project.t) :
  Admits target running capped admitted ->
  match admitted with
  | [] => True
  | _ :: _ => running + sumZ (map projectCost admitted) <= target
  end.
Proof.
  induction 1 as [running | running proj rest admitted Hfit _ IH
                 | running proj rest admitted _ _ IH]; [exact I | | exact IH].
  cbn [map sumZ fold_right]. fold (sumZ (map projectCost admitted)).
  destruct admitted as [| p adm]; [cbn; lia |].
  cbn [map sumZ fold_right] in *. lia.
Qed.

Lemma projectWalk_lines (resumeData : ResumeData.t) (config : ResumeConfig.t)
    (relevanceMap : RelevanceMap.t) :
  0 <= snd (projectWalk resumeData config relevanceMap)
    <= Z.max 0 (targetProjectLines resumeData config relevanceMap).
Proof.
  unfold projectWalk, walkProjects.
  destruct (walkProjects_admits (targetProjectLines resumeData config relevanceMap)
              (cappedProjects resumeData config relevanceMap) [] 0)
    as (admitted & Hadm & Hwalk).
  rewrite Hwalk. cbn [snd].
  pose proof (projectCosts_nonneg admitted) as Hn.
  apply Admits_lines in Hadm.
  destruct admitted; [cbn; lia | lia].
Qed.

Lemma experiencePart_lines (resumeData : ResumeData.t) (config : ResumeConfig.t)
    (relevanceMap : RelevanceMap.t) :
  sumZ (map LayoutSection.allocatedLines (experiencePart resumeData config relevanceMap))
  = if IncludeSections.experience (ResumeConfig.includeSections config)
    then snd (experienceWalk resumeData config relevanceMap) else 0.
Proof.
  unfold experiencePart. destruct (IncludeSections.experience _); cbn; lia.
Qed.

Lemma projectsPart_lines (resumeData : ResumeData.t) (config : ResumeConfig.t)
    (relevanceMap : RelevanceMap.t) :
  sumZ (map LayoutSection.allocatedLines (projectsPart resumeData config relevanceMap))
  = if IncludeSections.projects (ResumeConfig.includeSections config)
    then snd (projectWalk resumeData config relevanceMap) else 0.
Proof.
  unfold projectsPart. destruct (IncludeSections.projects _); [| reflexivity].
  unfold projectWalk, walkProjects.
  destruct (walkProjects_admits (targetProjectLines resumeData config relevanceMap)
              (cappedProjects resumeData config relevanceMap) [] 0)
    as (admitted & _ & Hwalk).
  rewrite Hwalk. cbn [fst snd app]. destruct admitted; cbn; lia.
Qed.

Lemma planSections_lines (resumeData : ResumeData.t) (config : ResumeConfig.t)
    (relevanceMap : RelevanceMap.t) :
  sumZ (map LayoutSection.allocatedLines (planSections resumeData config relevanceMap))
  = fixedLines resumeData config
    + sumZ (map LayoutSection.allocatedLines
                (experiencePart resumeData config relevanceMap))
    + sumZ (map LayoutSection.allocatedLines
                (projectsPart resumeData config relevanceMap)).
Proof.
  unfold planSections, fixedLines, HEADER_LINES.
  rewrite !map_app, !sumZ_app.
  assert (Hs : sumZ (map LayoutSection.allocatedLines (summaryPart config))
               = summaryLinesOf config).
  { unfold summaryPart, summaryLinesOf.
    destruct (IncludeSections.summary _); cbn; [lia | reflexivity]. }
  assert (Hk : sumZ (map LayoutSection.allocatedLines (skillsPart resumeData config))
               = skillLinesOf resumeData config).
  { unfold skillsPart, skillLinesOf.
    destruct (IncludeSections.skills _); cbn; [lia | reflexivity]. }
  assert (He : sumZ (map LayoutSection.allocatedLines (educationPart resumeData config))
               = educationLinesOf resumeData config).
  { unfold educationPart, educationLinesOf.
    destruct (IncludeSections.education _); cbn; [lia | reflexivity]. }
  rewrite Hs, Hk, He. cbn [map sumZ fold_right LayoutSection.allocatedLines]. lia.
Qed.

(** The tally of a plan: the fixed sections, and experiences and projects
    only as far as the fixed sections leave room two lines short of the
    page budget. *)
Lemma totalLines_bounds (resumeData : ResumeData.t) (config : ResumeConfig.t)
    (relevanceMap : RelevanceMap.t) :
  fixedLines resumeData config
  <= LayoutPlan.totalLines (allocateLayout resumeData config relevanceMap)
  <= Z.max (fixedLines resumeData config) (pageBudget config - 2).
Proof.
  rewrite (proj2 (allocateLayout_sections _ _ _)), planSections_lines.
  rewrite experiencePart_lines, projectsPart_lines.
  pose proof (experienceWalk_lines resumeData config relevanceMap) as He.
  pose proof (projectWalk_lines resumeData config relevanceMap) as Hp.
  pose proof (remainingLines_fixed resumeData config) as Hr.
  pose proof (summaryLinesOf_range config) as Hs.
  pose proof (skillLinesOf_range resumeData config) as Hk.
  assert (Ht : targetProjectLines resumeData config relevanceMap
               <= remainingLines resumeData config
                  - (if IncludeSections.experience (ResumeConfig.includeSections config)
                     then snd (experienceWalk resumeData config relevanceMap) else 0)).
  { unfold targetProjectLines. rewrite experiencePart_lines. lia. }
  destruct (Z_lt_ge_dec (remainingLines resumeData config) 0) as [Hneg | Hpos].
  - pose proof (targetExperienceLines_neg resumeData config Hneg).
    destruct (IncludeSections.experience _), (IncludeSections.projects _); lia.
  - pose proof (targetExperienceLines_le resumeData config ltac:(lia)).
    destruct (IncludeSections.experience _), (IncludeSections.projects _); lia.
Qed.

Lemma Admits_sublist (target running : Z) (capped admitted : list Project.t) :
  Admits target running capped admitted -> sublist admitted capped.
Proof.
  induction 1; [constructor | now apply sublist_skip | now apply sublist_cons].
Qed.

Lemma itemsOf_experience (resumeData : ResumeData.t) (config : ResumeConfig.t)
    (relevanceMap : RelevanceMap.t) :
  exists admitted rest : list Experience.t,
    rankExperiences (ResumeData.experiences resumeData) relevanceMap = admitted ++ rest
    /\ itemsOf experience (allocateLayout resumeData config relevanceMap)
       = map (experienceItem config) admitted
    /\ linesOf experience (allocateLayout resumeData config relevanceMap)
       = sumZ (map (experienceCost config) admitted).
Proof.
  unfold itemsOf, linesOf. rewrite sectionOf_experience.
  unfold experiencePart, experienceWalk.
  destruct (IncludeSections.experience _).
  - destruct (walkExperiences_prefix config (targetExperienceLines resumeData config)
                (rankExperiences (ResumeData.experiences resumeData) relevanceMap) [] 0)
      as (admitted & rest & Hsplit & Hwalk & _).
    exists admitted, rest. rewrite Hwalk. cbn [head fst snd app LayoutSection.items
      LayoutSection.allocatedLines].
    split; [exact Hsplit | split; [reflexivity | lia]].
  - exists [], (rankExperiences (ResumeData.experiences resumeData) relevanceMap).
    repeat split.
Qed.

Lemma itemsOf_projects (resumeData : ResumeData.t) (config : ResumeConfig.t)
    (relevanceMap : RelevanceMap.t) :
  exists admitted : list Project.t,
    sublist admitted (cappedProjects resumeData config relevanceMap)
    /\ itemsOf projects (allocateLayout resumeData config relevanceMap)
       = map projectItem admitted
    /\ linesOf projects (allocateLayout resumeData config relevanceMap)
       = sumZ (map projectCost admitted).
Proof.
  unfold itemsOf, linesOf. rewrite sectionOf_projects.
  unfold projectsPart, projectWalk, walkProjects.
  destruct (IncludeSections.projects _).
  - destruct (walkProjects_admits (targetProjectLines resumeData config relevanceMap)
                (cappedProjects resumeData config relevanceMap) [] 0)
      as (admitted & Hadm & Hwalk).
    exists admitted. rewrite Hwalk. cbn [fst snd app].
    split; [eapply Admits_sublist; exact Hadm |].
    destruct admitted; cbn; split; first [reflexivity | lia].
  - exists []. repeat split. apply sublist_nil_l.
Qed.

Lemma rankExperiences_permutation (es : list Experience.t) (rm : RelevanceMap.t) :
  Permutation (rankExperiences es rm) es.
Proof. rewrite rankExperiences_sort. apply Array_sort_permutation. Qed.

Lemma rankProjects_permutation (ps : list Project.t) (rm : RelevanceMap.t) :
  Permutation (rankProjects ps rm) ps.
Proof. rewrite rankProjects_sort. apply Array_sort_permutation. Qed.

Lemma cappedProjects_sublist (resumeData : ResumeData.t) (config : ResumeConfig.t)
    (relevanceMap : RelevanceMap.t) :
  sublist (cappedProjects resumeData config relevanceMap)
          (rankProjects (ResumeData.projects resumeData) relevanceMap).
Proof. apply sublist_take. Qed.

(** X1.  The items of a plan: every experience item carries the identifier
    of an experience of the résumé and min(maxBulletsPerExperience, its
    bullet count) bullets, every project item the identifier of a project
    and min(2, its bullet count) bullets; there are no more experience
    items than experiences and no more project items than maxProjects; and
    the lines allocated to the two sections are the cost of their items:
    2 + 2 * bulletCount for an experience, 1 + 2 * bulletCount for a
    project. *)
Theorem layout_items_within_limits :
  forall (resumeData : ResumeData.t) (config : ResumeConfig.t)
         (relevanceMap : RelevanceMap.t),
    let plan := allocateLayout resumeData config relevanceMap in
    Forall
      (fun item =>
         exists exp, In exp (ResumeData.experiences resumeData)
           /\ LayoutItem.id item = Experience.id exp
           /\ LayoutItem.bulletCount item
              = Z.min (Z.of_nat (ResumeConfig.maxBulletsPerExperience config))
                      (Array_length (Experience.bullets exp)))
      (itemsOf experience plan)
    /\ Array_length (itemsOf experience plan)
       <= Array_length (ResumeData.experiences resumeData)
    /\ linesOf experience plan
       = sumZ (map (fun item => 2 + 2 * LayoutItem.bulletCount item)
                   (itemsOf experience plan))
    /\ Forall
         (fun item =>
            exists proj, In proj (ResumeData.projects resumeData)
              /\ LayoutItem.id item = Project.id proj
              /\ LayoutItem.bulletCount item
                 = Z.min 2 (Array_length (Project.bullets proj)))
         (itemsOf projects plan)
    /\ Array_length (itemsOf projects plan)
       <= Z.of_nat (ResumeConfig.maxProjects config)
    /\ linesOf projects plan
       = sumZ (map (fun item => 1 + 2 * LayoutItem.bulletCount item)
                   (itemsOf projects plan)).
Proof.
  intros rd cfg rm plan. subst plan.
  destruct (itemsOf_experience rd cfg rm) as (adm & rest & Hsplit & Hitems & Hlines).
  destruct (itemsOf_projects rd cfg rm) as (padm & Hsub & Hpitems & Hplines).
  rewrite Hitems, Hlines, Hpitems, Hplines.
  pose proof (rankExperiences_permutation (ResumeData.experiences rd) rm) as Hperm.
  pose proof (rankProjects_permutation (ResumeData.projects rd) rm) as Hpperm.
  split; [| split; [| split; [| split; [| split]]]].
  - apply List.Forall_forall. intros item Hin.
    apply in_map_iff in Hin as (e & <- & He). exists e. repeat split.
    eapply Permutation_in; [exact Hperm |]. rewrite Hsplit. apply in_or_app. now left.
  - unfold Array_length. rewrite length_map.
    apply Permutation_length in Hperm. rewrite <- Hperm, Hsplit, List.length_app. lia.
  - rewrite map_map. f_equal. apply map_ext. intros e.
    unfold experienceCost, experienceItem. cbn. lia.
  - apply List.Forall_forall. intros item Hin.
    apply in_map_iff in Hin as (p & <- & Hp). exists p. repeat split.
    eapply Permutation_in; [exact Hpperm |].
    apply list_elem_of_In. eapply elem_of_sublist; [| apply cappedProjects_sublist].
    eapply elem_of_sublist; [| exact Hsub]. now apply list_elem_of_In.
  - unfold Array_length. rewrite length_map.
    apply sublist_length in Hsub. unfold cappedProjects in Hsub.
    rewrite length_take in Hsub. lia.
  - rewrite map_map. f_equal. apply map_ext. intros p.
    unfold projectCost, projectItem. cbn. lia.
Qed.

(** X2.  When the experiences of the résumé have distinct identifiers and
    so have its projects, no identifier appears twice among the items of a
    plan. *)
Theorem plan_ids_distinct :
  forall (resumeData : ResumeData.t) (config : ResumeConfig.t)
         (relevanceMap : RelevanceMap.t),
    NoDup (map Experience.id (ResumeData.experiences resumeData)) ->
    NoDup (map Project.id (ResumeData.projects resumeData)) ->
    let plan := allocateLayout resumeData config relevanceMap in
    NoDup (map LayoutItem.id (itemsOf experience plan))
    /\ NoDup (map LayoutItem.id (itemsOf projects plan)).
Proof.
  intros rd cfg rm He Hp plan. subst plan.
  destruct (itemsOf_experience rd cfg rm) as (adm & rest & Hsplit & Hitems & _).
  destruct (itemsOf_projects rd cfg rm) as (padm & Hsub & Hpitems & _).
  rewrite Hitems, Hpitems, !map_map. cbn [experienceItem projectItem LayoutItem.id].
  split.
  - assert (Hr : NoDup (map Experience.id
                          (rankExperiences (ResumeData.experiences rd) rm))).
    { eapply NoDup_Permutation_proper; [| exact He].
      apply Permutation_map, rankExperiences_permutation. }
    rewrite Hsplit, map_app in Hr. now apply NoDup_app in Hr as (H & _).
  - assert (Hr : NoDup (map Project.id
                          (rankProjects (ResumeData.projects rd) rm))).
    { eapply NoDup_Permutation_proper; [| exact Hp].
      apply Permutation_map, rankProjects_permutation. }
    eapply sublist_NoDup; [exact Hr |].
    apply (fmap_sublist Project.id).
    etransitivity; [exact Hsub | apply cappedProjects_sublist].
Qed.

Lemma plan_ids_distinct_witness :
  NoDup (map LayoutItem.id
           (itemsOf experience
              (allocateLayout Samples.profileA Samples.defaultConfig Samples.noScores)))
  /\ NoDup (map LayoutItem.id
              (itemsOf projects
                 (allocateLayout Samples.profileA Samples.defaultConfig Samples.noScores))).
Proof.
  apply (plan_ids_distinct Samples.profileA Samples.defaultConfig Samples.noScores).
  - vm_compute. apply NoDup_ListNoDup. repeat constructor; cbn; intros H;
      repeat (destruct H as [H | H]; [discriminate |]); exact H.
  - vm_compute. apply NoDup_ListNoDup. repeat constructor; cbn; intros H;
      repeat (destruct H as [H | H]; [discriminate |]); exact H.
Defined.

(** X3.  A plan starts with the header section of 6 lines; its sections
    come in the order header, summary, skills, experience, projects,
    education, each kind at most once and no other kind; the summary, the
    skills, the experience and the education section are there exactly when
    the configuration includes them; and a projects section is there only
    when the configuration includes it and then lists at least one
    project. *)
Theorem sections_in_fixed_order :
  forall (resumeData : ResumeData.t) (config : ResumeConfig.t)
         (relevanceMap : RelevanceMap.t),
    let plan := allocateLayout resumeData config relevanceMap in
    let include := ResumeConfig.includeSections config in
    head (LayoutPlan.sections plan) = Some (LayoutSection.mk header 6 None)
    /\ sublist (sectionTypes plan) sectionOrder
    /\ (In summary (sectionTypes plan) <-> IncludeSections.summary include = true)
    /\ (In skills (sectionTypes plan) <-> IncludeSections.skills include = true)
    /\ (In experience (sectionTypes plan)
        <-> IncludeSections.experience include = true)
    /\ (In education (sectionTypes plan) <-> IncludeSections.education include = true)
    /\ (In projects (sectionTypes plan)
        <-> IncludeSections.projects include = true /\ itemsOf projects plan <> []).
Proof.
  intros rd cfg rm plan include. subst plan include.
  unfold sectionTypes, itemsOf. rewrite sectionOf_projects.
  rewrite (proj1 (allocateLayout_sections _ _ _)).
  unfold planSections, summaryPart, skillsPart, experiencePart, projectsPart,
    educationPart, sectionOrder.
  destruct (IncludeSections.summary _), (IncludeSections.skills _),
    (IncludeSections.experience _), (IncludeSections.projects _),
    (IncludeSections.education _);
    try destruct (fst (projectWalk _ _ _)) as [| item items];
    cbn [app map head LayoutSection.type LayoutSection.items In];
    (split; [reflexivity |]);
    (split; [repeat first [apply sublist_nil_l | apply sublist_skip | apply sublist_cons] |]);
    repeat split; intros; try discriminate; try tauto;
    repeat match goal with
           | H : _ \/ _ |- _ => destruct H; try discriminate
           | H : _ /\ _ |- _ => destruct H; try discriminate
           end; try contradiction; try congruence.
Qed.

(** X4.  The tally of a plan is at least the lines of the fixed sections
    (header, summary, skills, education) and at most the larger of that
    and the page budget less two lines: experiences and projects are only
    admitted into the room the fixed sections leave.  So the tally exceeds
    the page budget exactly when the fixed sections alone do, and exactly
    then the compression level is moderate or aggressive. *)
Theorem plan_overflows_only_on_fixed_sections :
  forall (resumeData : ResumeData.t) (config : ResumeConfig.t)
         (relevanceMap : RelevanceMap.t),
    let plan := allocateLayout resumeData config relevanceMap in
    fixedLines resumeData config <= LayoutPlan.totalLines plan
    /\ LayoutPlan.totalLines plan
       <= Z.max (fixedLines resumeData config) (pageBudget config - 2)
    /\ (pageBudget config < LayoutPlan.totalLines plan
        <-> pageBudget config < fixedLines resumeData config)
    /\ (LayoutPlan.compressionLevel plan = moderate
        \/ LayoutPlan.compressionLevel plan = aggressive
        <-> pageBudget config < fixedLines resumeData config).
Proof.
  intros rd cfg rm plan. subst plan.
  pose proof (totalLines_bounds rd cfg rm) as [Hlo Hhi].
  assert (Hfix : 6 <= fixedLines rd cfg).
  { unfold fixedLines, HEADER_LINES.
    pose proof (summaryLinesOf_range cfg). pose proof (skillLinesOf_range rd cfg).
    pose proof (educationLinesOf_nonneg rd cfg). lia. }
  split; [exact Hlo |]. split; [exact Hhi |]. split; [lia |].
  rewrite allocateLayout_compression.
  rewrite compressionOf_exact by (first [apply pageBudget_cases | lia]).
  pose proof (pageBudget_cases cfg) as Hb.
  set (total := LayoutPlan.totalLines (allocateLayout rd cfg rm)) in *.
  rewrite !exactCompression_band by lia. lia.
Qed.

(** X5.  The compression level of a plan, by exact comparison of the tally
    with the page budget (55 lines a page): none up to 95 per cent of the
    budget, light above that up to the budget, moderate above the budget up
    to 110 per cent, aggressive beyond; the rounding of the binary64
    quotient never moves a tally across a threshold. *)
Theorem compression_level_thresholds :
  forall (resumeData : ResumeData.t) (config : ResumeConfig.t)
         (relevanceMap : RelevanceMap.t),
    let plan := allocateLayout resumeData config relevanceMap in
    let tally := LayoutPlan.totalLines plan in
    let budget := pages (ResumeConfig.pageCount config) * LINES_PER_PAGE in
    (LayoutPlan.compressionLevel plan = none <-> 100 * tally <= 95 * budget)
    /\ (LayoutPlan.compressionLevel plan = light
        <-> 95 * budget < 100 * tally /\ tally <= budget)
    /\ (LayoutPlan.compressionLevel plan = moderate
        <-> budget < tally /\ 10 * tally <= 11 * budget)
    /\ (LayoutPlan.compressionLevel plan = aggressive <-> 11 * budget < 10 * tally).
Proof.
  intros rd cfg rm plan tally budget. subst plan tally budget.
  fold (pageBudget cfg).
  pose proof (totalLines_bounds rd cfg rm) as [Hlo _].
  assert (Hfix : 6 <= fixedLines rd cfg).
  { unfold fixedLines, HEADER_LINES.
    pose proof (summaryLinesOf_range cfg). pose proof (skillLinesOf_range rd cfg).
    pose proof (educationLinesOf_nonneg rd cfg). lia. }
  rewrite allocateLayout_compression.
  rewrite compressionOf_exact by (first [apply pageBudget_cases | lia]).
  pose proof (pageBudget_cases cfg) as Hb.
  rewrite !exactCompression_band by lia. tauto.
Qed.

(* ===================================================================== *)
(** ** Compliance, rule by rule                                          *)
(* ===================================================================== *)

Module ATSNormalForm.
Import ATSCompliance.

Lemma addIssueIf_error (test : bool) (rule : ATSRule.t) (s l : option string)
    (issues : Issues) :
  ATSRule.severity rule = error ->
  addIssueIf test rule s l issues
  = mkIssues (violations issues ++ issueWhen test (ATSViolation.mk rule s l))
             (warnings issues).
Proof.
  intros H. unfold addIssueIf, addIssue, issueWhen. rewrite H.
  destruct test, issues; cbn; now rewrite ?app_nil_r.
Qed.

Lemma addIssueIf_warning (test : bool) (rule : ATSRule.t) (s l : option string)
    (issues : Issues) :
  ATSRule.severity rule = warning ->
  addIssueIf test rule s l issues
  = mkIssues (violations issues)
             (warnings issues ++ issueWhen test (ATSViolation.mk rule s l)).
Proof.
  intros H. unfold addIssueIf, addIssue, issueWhen. rewrite H.
  destruct test, issues; cbn; now rewrite ?app_nil_r.
Qed.

Lemma addIssueIf_info (test : bool) (rule : ATSRule.t) (s l : option string)
    (issues : Issues) :
  ATSRule.severity rule = info -> addIssueIf test rule s l issues = issues.
Proof.
  intros H. unfold addIssueIf, addIssue. rewrite H. now destruct test.
Qed.

Lemma checkBulletCount_issue (issues : Issues) (exp : GeneratedExperience.t) :
  checkBulletCount issues exp
  = mkIssues (violations issues) (warnings issues ++ bulletCountIssue exp).
Proof.
  unfold checkBulletCount, bulletCountIssue, issueOf, addIssue.
  change (ATSRule.severity (find_rule "bullet-count")) with warning.
  destruct (_ <? 2); [reflexivity |].
  destruct (5 <? _); [reflexivity |].
  destruct issues; cbn; now rewrite app_nil_r.
Qed.

Lemma checkBulletCount_all (exps : list GeneratedExperience.t) (issues : Issues) :
  fold_left checkBulletCount exps issues
  = mkIssues (violations issues) (warnings issues ++ flat_map bulletCountIssue exps).
Proof.
  revert issues. induction exps as [| e exps IH]; intros issues.
  - destruct issues; cbn; now rewrite app_nil_r.
  - cbn [fold_left flat_map]. rewrite IH, checkBulletCount_issue. cbn.
    now rewrite <- app_assoc.
Qed.

(** The two arrays of the comprehensive checker, rule by rule: the rules
    of severity [info] leave no trace. *)
Lemma collectIssues_by_rule (resume : GeneratedResume.t) :
  collectIssues resume = mkIssues (violationsOf resume) (warningsOf resume).
Proof.
  unfold collectIssues. cbv zeta.
  fold (includedExperiences resume). fold (noSkills resume).
  rewrite (addIssueIf_error _ (find_rule "contact-email")) by reflexivity.
  rewrite (addIssueIf_warning _ (find_rule "contact-phone")) by reflexivity.
  rewrite (addIssueIf_error _ (find_rule "contact-name")) by reflexivity.
  rewrite (addIssueIf_warning _ (find_rule "has-experience")) by reflexivity.
  rewrite (addIssueIf_warning _ (find_rule "has-skills")) by reflexivity.
  rewrite checkBulletCount_all.
  rewrite (addIssueIf_info _ (find_rule "bullet-metrics")) by reflexivity.
  rewrite (addIssueIf_info _ (find_rule "bullet-action-verbs")) by reflexivity.
  rewrite (addIssueIf_warning _ (find_rule "no-keyword-stuffing")) by reflexivity.
  cbn [violations warnings app].
  unfold violationsOf, warningsOf, dateIssue, invalidDates.
  fold (includedExperiences resume).
  destruct (List.filter (fun d => negb (isStandardDateFormat d)) _) as [| first rest].
  - rewrite (addIssueIf_warning _ (find_rule "no-special-chars")) by reflexivity.
    cbn [violations warnings app]. f_equal. now rewrite <- !app_assoc.
  - rewrite (addIssueIf_warning _ (find_rule "no-special-chars")) by reflexivity.
    change (addIssue (find_rule "date-format"))
      with (addIssueIf true (find_rule "date-format")).
    rewrite (addIssueIf_warning true (find_rule "date-format")) by reflexivity.
    cbn [violations warnings app issueWhen]. unfold issueOf. f_equal.
    now rewrite <- !app_assoc.
Qed.

End ATSNormalForm.

Import ATSNormalForm.

Lemma ruleId_issueWhen (test : bool) (id suggestion : string) (location : option string) :
  ruleId (issueOf id suggestion location) = id ->
  map ruleId (issueWhen test (issueOf id suggestion location)) = idWhen test id.
Proof. intros H. destruct test; cbn [issueWhen idWhen map]; now rewrite ?H. Qed.

Lemma violation_ids (resume : GeneratedResume.t) :
  map ruleId (violationsOf resume)
  = idWhen (negb (truthy (ContactInfo.email (GeneratedResume.contact resume))))
      "contact-email"
    ++ idWhen (negb (truthy (ContactInfo.fullName (GeneratedResume.contact resume)))
               || (String_length (ContactInfo.fullName (GeneratedResume.contact resume))
                   <? 2))
         "contact-name".
Proof.
  unfold violationsOf. rewrite map_app.
  now rewrite !ruleId_issueWhen by reflexivity.
Qed.

Lemma bulletCount_ids (exps : list GeneratedExperience.t) :
  map ruleId (flat_map bulletCountIssue exps)
  = map (fun _ => "bullet-count") (List.filter badBulletCount exps).
Proof.
  induction exps as [| e exps IH]; [reflexivity |].
  cbn [flat_map List.filter]. rewrite map_app, IH.
  unfold bulletCountIssue, badBulletCount.
  destruct (_ <? 2); [reflexivity |]. destruct (5 <? _); reflexivity.
Qed.

Lemma warning_ids (resume : GeneratedResume.t) :
  map ruleId (warningsOf resume)
  = idWhen (negb (truthy_opt (ContactInfo.phone (GeneratedResume.contact resume))))
      "contact-phone"
    ++ idWhen (Array_length (includedExperiences resume) =? 0) "has-experience"
    ++ idWhen (noSkills resume) "has-skills"
    ++ map (fun _ => "bullet-count")
           (List.filter badBulletCount (includedExperiences resume))
    ++ idWhen (match invalidDates resume with [] => false | _ :: _ => true end)
         "date-format"
    ++ idWhen (ATSCompliance.hasProblematicSpecialChars (ATSCompliance.resumeText resume))
         "no-special-chars"
    ++ idWhen (ATSCompliance.hasKeywordStuffing (ATSCompliance.resumeText resume))
         "no-keyword-stuffing".
Proof.
  unfold warningsOf. rewrite !map_app, bulletCount_ids.
  rewrite !ruleId_issueWhen by reflexivity.
  do 4 f_equal. unfold dateIssue. now destruct (invalidDates resume).
Qed.

Lemma report_violations (resume : GeneratedResume.t) :
  ATSReport.violations (ATSCompliance.checkATSCompliance resume) = violationsOf resume.
Proof.
  cbn [ATSCompliance.checkATSCompliance ATSReport.violations].
  now rewrite collectIssues_by_rule.
Qed.

Lemma report_warnings (resume : GeneratedResume.t) :
  ATSReport.warnings (ATSCompliance.checkATSCompliance resume) = warningsOf resume.
Proof.
  cbn [ATSCompliance.checkATSCompliance ATSReport.warnings].
  now rewrite collectIssues_by_rule.
Qed.

Lemma idWhen_nil (test : bool) (id : string) : idWhen test id = [] <-> test = false.
Proof. destruct test; cbn; split; intros H; congruence. Qed.

Lemma idWhen_In (test : bool) (id x : string) :
  In x (idWhen test id) <-> test = true /\ x = id.
Proof.
  destruct test; cbn; split.
  - intros [<- | []]. now split.
  - intros [_ ->]. now left.
  - contradiction.
  - now intros [? _].
Qed.

Lemma violationsOf_nil (resume : GeneratedResume.t) :
  violationsOf resume = []
  <-> truthy (ContactInfo.email (GeneratedResume.contact resume)) = true
      /\ truthy (ContactInfo.fullName (GeneratedResume.contact resume)) = true
      /\ 2 <= String_length (ContactInfo.fullName (GeneratedResume.contact resume)).
Proof.
  unfold violationsOf, issueWhen.
  destruct (truthy (ContactInfo.email _)), (truthy (ContactInfo.fullName _)),
    (String_length _ <? 2) eqn:L; cbn;
    [apply Z.ltb_lt in L | apply Z.ltb_ge in L | apply Z.ltb_lt in L | apply Z.ltb_ge in L
    | apply Z.ltb_lt in L | apply Z.ltb_ge in L | apply Z.ltb_lt in L | apply Z.ltb_ge in L];
    split; intros H; try discriminate; try (repeat split; first [reflexivity | lia]);
    destruct H as (? & ? & ?); try discriminate; lia.
Qed.

(** X6.  The comprehensive checker passes a résumé exactly when its e-mail
    address is not empty and its full name is not empty and has at least
    two UTF-16 units; the generator's own check passes it exactly when the
    e-mail address is not empty.  Nothing else (no warning, no rule about
    the content) decides [passed], so whatever passes the comprehensive
    check passes the other. *)
Theorem passing_needs_email_and_name :
  forall resume : GeneratedResume.t,
    let contact := GeneratedResume.contact resume in
    (ATSReport.passed (ATSCompliance.checkATSCompliance resume) = true
     <-> truthy (ContactInfo.email contact) = true
         /\ truthy (ContactInfo.fullName contact) = true
         /\ 2 <= String_length (ContactInfo.fullName contact))
    /\ (ATSReport.passed (checkATSCompliance resume) = true
        <-> truthy (ContactInfo.email contact) = true)
    /\ (ATSReport.passed (ATSCompliance.checkATSCompliance resume) = true ->
        ATSReport.passed (checkATSCompliance resume) = true).
Proof.
  intros resume contact. subst contact.
  assert (Hc : ATSReport.passed (ATSCompliance.checkATSCompliance resume) = true
               <-> violationsOf resume = []).
  { cbn [ATSCompliance.checkATSCompliance ATSReport.passed].
    pose proof (comprehensive_violations_are_errors resume) as Herr.
    rewrite report_violations in Herr.
    rewrite collectIssues_by_rule. cbn [ATSCompliance.violations].
    fold isError. rewrite (filter_all _ _ Herr). apply length_zero_iff_nil. }
  assert (Hl : ATSReport.passed (checkATSCompliance resume) = true
               <-> truthy (ContactInfo.email (GeneratedResume.contact resume)) = true).
  { unfold checkATSCompliance. cbn [ATSReport.passed].
    destruct (truthy (ContactInfo.email _)); cbn; split; intros H;
      first [reflexivity | discriminate]. }
  rewrite Hc, Hl, violationsOf_nil. repeat split; tauto.
Qed.

Lemma idWhen_length (test : bool) (id : string) :
  0 <= Array_length (idWhen test id) <= 1.
Proof. destruct test; unfold Array_length, idWhen; cbn [List.length]; lia. Qed.

Lemma Forall_idWhen (P : string -> Prop) (test : bool) (id : string) :
  P id -> Forall P (idWhen test id).
Proof. intros H. destruct test; cbn; [now repeat constructor | constructor]. Qed.

(** X7.  Of the 23 rules that every report of the comprehensive checker
    lists as checked, only nine are ever reported: a violation names
    contact-email or contact-name, and there are at most two violations; a
    warning names contact-phone, has-experience, has-skills, bullet-count,
    date-format, no-special-chars or no-keyword-stuffing.  The two rules of
    severity info that the checker evaluates (bullet-metrics and
    bullet-action-verbs) are never reported. *)
Theorem reportable_rules :
  forall resume : GeneratedResume.t,
    let report := ATSCompliance.checkATSCompliance resume in
    Array_length (ATSReport.checkedRules report) = 23
    /\ Forall (fun v => In (ruleId v) ["contact-email"; "contact-name"])
              (ATSReport.violations report)
    /\ Array_length (ATSReport.violations report) <= 2
    /\ Forall (fun w => In (ruleId w)
                           ["contact-phone"; "has-experience"; "has-skills";
                            "bullet-count"; "date-format"; "no-special-chars";
                            "no-keyword-stuffing"])
              (ATSReport.warnings report).
Proof.
  intros resume report. subst report.
  rewrite report_violations, report_warnings.
  split; [reflexivity |].
  split; [| split].
  - apply (proj1 (List.Forall_map ruleId
                     (fun id => In id ["contact-email"; "contact-name"]) _)).
    rewrite violation_ids.
    apply Forall_app; split; apply Forall_idWhen; cbn; tauto.
  - unfold Array_length. rewrite <- (length_map ruleId), violation_ids, List.length_app.
    pose proof (idWhen_length
                  (negb (truthy (ContactInfo.email (GeneratedResume.contact resume))))
                  "contact-email") as H1.
    pose proof (idWhen_length
                  (negb (truthy (ContactInfo.fullName (GeneratedResume.contact resume)))
                   || (String_length (ContactInfo.fullName (GeneratedResume.contact resume))
                       <? 2))
                  "contact-name") as H2.
    unfold Array_length in H1, H2. lia.
  - apply (proj1 (List.Forall_map ruleId
                     (fun id => In id ["contact-phone"; "has-experience"; "has-skills";
                                       "bullet-count"; "date-format"; "no-special-chars";
                                       "no-keyword-stuffing"]) _)).
    rewrite warning_ids.
    repeat (apply Forall_app; split); try (apply Forall_idWhen; cbn; tauto).
    apply List.Forall_forall. intros id Hin.
    apply in_map_iff in Hin as (e & <- & _). cbn. tauto.
Qed.

(** X8.  The comprehensive checker reports one bullet-count warning for
    each included experience that has fewer than two or more than five
    rewritten bullets, and none for any other experience. *)
Theorem bullet_count_warning_per_experience :
  forall resume : GeneratedResume.t,
    map ATSViolation.location
        (List.filter (fun w => String.eqb (ruleId w) "bullet-count")
           (ATSReport.warnings (ATSCompliance.checkATSCompliance resume)))
    = map (fun exp => Some ("experience." ++ GeneratedExperience.id exp)%string)
          (List.filter badBulletCount
             (List.filter GeneratedExperience.includedInResume
                (GeneratedResume.experiences resume))).
Proof.
  intros resume. rewrite report_warnings. unfold warningsOf.
  fold (includedExperiences resume).
  rewrite !List.filter_app, !map_app.
  assert (Hnone : forall test id s,
            String.eqb id "bullet-count" = false ->
            ruleId (issueOf id s None) = id ->
            List.filter (fun w => String.eqb (ruleId w) "bullet-count")
                        (issueWhen test (issueOf id s None)) = []).
  { intros test id s Hid Hr. destruct test; cbn; [| reflexivity].
    now rewrite Hr, Hid. }
  rewrite !Hnone by reflexivity.
  assert (Hdate :
    List.filter (fun w => String.eqb (ruleId w) "bullet-count") (dateIssue resume) = []).
  { unfold dateIssue. destruct (invalidDates resume); reflexivity. }
  rewrite Hdate. cbn [map app]. rewrite !app_nil_r.
  induction (includedExperiences resume) as [| e exps IH]; [reflexivity |].
  cbn [flat_map List.filter]. rewrite List.filter_app, map_app, IH.
  unfold bulletCountIssue, badBulletCount.
  destruct (_ <? 2); [reflexivity |]. destruct (5 <? _); reflexivity.
Qed.

(** X9.  The quick check lists each of its four messages at most once, in
    the order of the checks; its score is between 50 and 100 (the clamp at
    0 never applies); and the score is 100 exactly when no issue is
    listed. *)
Theorem quick_check_score_and_issues :
  forall resume : PartialResume.t,
    let quick := quickATSCheck resume in
    sublist (QuickReport.issues quick) quickMessages
    /\ 50 <= QuickReport.score quick <= 100
    /\ (QuickReport.issues quick = [] <-> QuickReport.score quick = 100).
Proof.
  intros resume quick. subst quick. unfold quickATSCheck, quickMessages.
  destruct (negb (truthy_opt (option_map ContactInfo.email _)));
    destruct (negb (truthy_opt match PartialResume.contact resume with
                               | Some contact => ContactInfo.phone contact
                               | None => None
                               end));
    destruct (Array_length match PartialResume.experiences resume with
                           | Some entries => _
                           | None => []
                           end =? 0);
    destruct (Array_length match PartialResume.skills resume with
                           | Some categories => _
                           | None => []
                           end =? 0);
    cbn [app QuickReport.issues QuickReport.score];
    (split;
     [repeat first [apply sublist_nil_l | apply sublist_skip | apply sublist_cons] |]);
    (split; [lia |]); split; intros H; first [discriminate | reflexivity | lia].
Qed.

Lemma noSkills_flat (resume : GeneratedResume.t) :
  noSkills resume
  = (Array_length (flat_map SkillCategory.skills (GeneratedResume.skills resume)) =? 0).
Proof.
  unfold noSkills. destruct (GeneratedResume.skills resume); reflexivity.
Qed.

(** The issues of the quick check, check by check. *)
Lemma quick_issues_by_check (resume : PartialResume.t) :
  QuickReport.issues (quickATSCheck resume)
  = idWhen (negb (truthy_opt (option_map ContactInfo.email
                                (PartialResume.contact resume))))
      "Missing email address"
    ++ idWhen (negb (truthy_opt match PartialResume.contact resume with
                                | Some contact => ContactInfo.phone contact
                                | None => None
                                end))
         "Missing phone number"
    ++ idWhen (Array_length
                 match PartialResume.experiences resume with
                 | Some entries =>
                     List.filter GeneratedExperience.includedInResume entries
                 | None => []
                 end =? 0)
         "No work experience included"
    ++ idWhen (Array_length
                 match PartialResume.skills resume with
                 | Some categories => flat_map SkillCategory.skills categories
                 | None => []
                 end =? 0)
         "No skills listed".
Proof.
  unfold quickATSCheck.
  destruct (negb (truthy_opt (option_map ContactInfo.email _)));
    destruct (negb (truthy_opt match PartialResume.contact resume with
                               | Some contact => ContactInfo.phone contact
                               | None => None
                               end));
    destruct (Array_length match PartialResume.experiences resume with
                           | Some entries => _
                           | None => []
                           end =? 0);
    destruct (Array_length match PartialResume.skills resume with
                           | Some categories => _
                           | None => []
                           end =? 0);
    reflexivity.
Qed.

Lemma In_existsb (id : string) (l : list string) :
  In id l <-> existsb (String.eqb id) l = true.
Proof.
  rewrite existsb_exists. split.
  - intros H. exists id. split; [exact H | apply String.eqb_refl].
  - intros (x & Hx & E). apply String.eqb_eq in E. now subst.
Qed.

Lemma existsb_idWhen (id other : string) (test : bool) :
  existsb (String.eqb id) (idWhen test other) = test && String.eqb id other.
Proof. destruct test; cbn [idWhen existsb andb]; [apply orb_false_r | reflexivity]. Qed.

Lemma existsb_bulletCount (id : string) (exps : list GeneratedExperience.t) :
  String.eqb id "bullet-count" = false ->
  existsb (String.eqb id) (map (fun _ : GeneratedExperience.t => "bullet-count") exps)
  = false.
Proof.
  intros H. induction exps as [| e exps IH]; [reflexivity |].
  cbn [map existsb]. now rewrite H, IH.
Qed.

(** X10.  On a résumé with all its fields the quick check and the
    comprehensive checker agree on the four things the quick check looks
    at: it lists the missing e-mail address, the missing telephone number,
    the missing experience or the missing skills exactly when the
    comprehensive report holds the rule contact-email, contact-phone,
    has-experience or has-skills. *)
Theorem quick_check_agrees_with_comprehensive :
  forall resume : GeneratedResume.t,
    let quick := quickATSCheck (asPartial resume) in
    let report := ATSCompliance.checkATSCompliance resume in
    (In "Missing email address" (QuickReport.issues quick)
     <-> In "contact-email" (map ruleId (ATSReport.violations report)))
    /\ (In "Missing phone number" (QuickReport.issues quick)
        <-> In "contact-phone" (map ruleId (ATSReport.warnings report)))
    /\ (In "No work experience included" (QuickReport.issues quick)
        <-> In "has-experience" (map ruleId (ATSReport.warnings report)))
    /\ (In "No skills listed" (QuickReport.issues quick)
        <-> In "has-skills" (map ruleId (ATSReport.warnings report))).
Proof.
  intros resume quick report. subst quick report.
  rewrite report_violations, report_warnings, violation_ids, warning_ids.
  rewrite noSkills_flat, quick_issues_by_check.
  unfold asPartial, includedExperiences.
  cbn [PartialResume.contact PartialResume.experiences PartialResume.skills
       option_map truthy_opt].
  assert (Hside : forall (message id : string) (l k : list string) (a b : bool),
            existsb (String.eqb message) l = a -> existsb (String.eqb id) k = b ->
            a = b -> In message l <-> In id k).
  { intros message id l k a b Hl Hk E. rewrite !In_existsb, Hl, Hk, E. reflexivity. }
  split; [| split; [| split]];
    (eapply Hside;
     [ rewrite !existsb_app, !existsb_idWhen; reflexivity
     | rewrite !existsb_app, !existsb_idWhen, ?existsb_bulletCount by reflexivity;
       reflexivity
     | cbn [String.eqb Ascii.eqb Bool.eqb andb orb];
       rewrite ?andb_false_r, ?andb_true_r, ?orb_false_r; reflexivity ]).
Qed.

(** X11.  The generator's own check reports at most one violation and at
    most three warnings, so its score is never below 65; the score is 100
    less 20 for a violation and 5 for each warning, and the report always
    lists the same five rules as checked. *)
Theorem legacy_check_score_floor :
  forall resume : GeneratedResume.t,
    let report := checkATSCompliance resume in
    Array_length (ATSReport.violations report) <= 1
    /\ Array_length (ATSReport.warnings report) <= 3
    /\ ATSReport.score report
       = 100 - 20 * Array_length (ATSReport.violations report)
         - 5 * Array_length (ATSReport.warnings report)
    /\ 65 <= ATSReport.score report <= 100
    /\ map ATSRule.id (ATSReport.checkedRules report)
       = ["contact-info"; "has-experience"; "has-skills"; "date-format";
          "bullet-metrics"].
Proof.
  intros resume report. subst report. unfold checkATSCompliance.
  cbn [ATSReport.violations ATSReport.warnings ATSReport.score ATSReport.checkedRules].
  repeat match goal with |- context [if ?c then _ else _] => destruct c end;
    cbn [app]; unfold Array_length; cbn [List.length];
    repeat split; first [reflexivity | lia].
Qed.

(* ===================================================================== *)
(** ** Percentages of the reports                                        *)
(* ===================================================================== *)

Lemma fl_one : fl 1 = 1%Q.
Proof. vm_compute. reflexivity. Qed.

Lemma fl_hundred : fl 100 = 100%Q.
Proof. vm_compute. reflexivity. Qed.

Lemma num_le (a b : Z) : a <= b -> (num a <= num b)%Q.
Proof. intros H. unfold num. now rewrite <- Zle_Qle. Qed.

Lemma ratio_le_1 (c n : Z) : 0 <= c <= n -> 1 <= n -> (0 <= num c / num n <= 1)%Q.
Proof.
  intros Hc Hn. unfold num, Qdiv, Qmult, Qinv, inject_Z, Qle.
  destruct n; try lia. simpl. lia.
Qed.

(** A share of a count is between 0 and 1. *)
Lemma fdiv_ratio_range (c n : Z) :
  0 <= c <= n -> 1 <= n -> (0 <= fdiv (num c) (num n) <= 1)%Q.
Proof.
  intros Hc Hn. destruct (ratio_le_1 c n Hc Hn) as [H0 H1].
  unfold fdiv. split; [now apply fl_nonneg |].
  rewrite <- fl_one. now apply fl_monotone.
Qed.

Lemma fmul_le (x y c b : Q) :
  (0 <= x <= b)%Q -> (0 <= c)%Q -> (fmul x c <= fmul b c)%Q.
Proof.
  intros [Hx Hb] Hc. unfold fmul. apply fl_monotone.
  - now apply Qmult_le_0_compat.
  - now apply Qmult_le_compat_r.
Qed.

Lemma fadd_le (x y a b : Q) :
  (0 <= x <= a)%Q -> (0 <= y <= b)%Q -> (fadd x y <= fadd a b)%Q.
Proof.
  intros [Hx Ha] [Hy Hb]. unfold fadd. apply fl_monotone.
  - apply Qle_trans with (0 + 0)%Q; [discriminate | now apply Qplus_le_compat].
  - now apply Qplus_le_compat.
Qed.

(** A percentage computed from a share. *)
Lemma percent_range (r : Q) : (0 <= r <= 1)%Q -> (0 <= fmul r 100 <= 100)%Q.
Proof.
  intros Hr. split.
  - apply fmul_nonneg; [apply Hr | discriminate].
  - apply Qle_trans with (fmul 1 100); [now apply (fmul_le r r) | discriminate].
Qed.

Lemma Math_round_range (x : Q) (lo hi : Z) :
  (inject_Z lo <= x <= inject_Z hi)%Q -> lo <= Math_round x <= hi.
Proof.
  intros [Hlo Hhi]. unfold Math_round. split.
  - rewrite <- (Qfloor_Z lo). apply Qfloor_resp_le.
    apply Qle_trans with x; [exact Hlo |].
    rewrite <- (Qplus_0_r x) at 1. apply Qplus_le_r. discriminate.
  - assert (H : Qfloor (x + (1 # 2)) <= Qfloor (inject_Z hi + (1 # 2))).
    { apply Qfloor_resp_le. now apply Qplus_le_l. }
    assert (E : Qfloor (inject_Z hi + (1 # 2)) = hi).
    { unfold Qfloor, Qplus, inject_Z. cbn [Qnum Qden].
      change (Z.pos (1 * 2)) with 2.
      symmetry. apply Z.div_unique with (r := 1); lia. }
    lia.
Qed.

Lemma hundred_times (k : Z) : (inject_Z (100 * k) == 100 * inject_Z k)%Q.
Proof. now rewrite inject_Z_mult. Qed.

(** The binary64 sum of fewer than [2 ^ 32] scores between 0 and 100 is at
    most 100 times their number. *)
Lemma fold_fadd_upper (terms : list Q) :
  Forall (fun t => (0 <= t <= 100)%Q) terms ->
  forall (s : Q) (k : Z),
    0 <= k -> k + Array_length terms <= arrayLimit ->
    (0 <= s <= inject_Z (100 * k))%Q ->
    (0 <= fold_left fadd terms s <= inject_Z (100 * (k + Array_length terms)))%Q.
Proof.
  unfold arrayLimit, Array_length.
  induction 1 as [| t terms Ht _ IH]; intros s k Hk Hlen Hs.
  - cbn [fold_left List.length]. now rewrite Z.add_0_r.
  - cbn [fold_left]. cbn [List.length] in Hlen |- *.
    replace (k + Z.of_nat (S (List.length terms)))
      with ((k + 1) + Z.of_nat (List.length terms)) in * by lia.
    apply IH; [lia | lia |]. split.
    + apply fadd_nonneg; [apply Hs | apply Ht].
    + unfold fadd. apply fl_le_integer.
      * apply Qle_trans with (0 + 0)%Q; [discriminate |].
        apply Qplus_le_compat; [apply Hs | apply Ht].
      * change (2 ^ 32) with 4294967296 in Hlen.
        change (2 ^ 53) with 9007199254740992. lia.
      * replace (100 * (k + 1)) with (100 * k + 100) by lia.
        rewrite inject_Z_plus. apply Qplus_le_compat; [apply Hs | apply Ht].
Qed.

(** The binary64 mean of fewer than [2 ^ 32] scores between 0 and 100 is
    between 0 and 100; the mean of no score is 0. *)
Lemma average_range (terms : list Q) :
  Forall (fun t => (0 <= t <= 100)%Q) terms ->
  Array_length terms < arrayLimit ->
  (0 <= fdiv (fold_left fadd terms 0%Q) (num (Z.max (Array_length terms) 1)) <= 100)%Q.
Proof.
  intros Hterms Hlen.
  pose proof (Array_length_nonneg terms) as Hn.
  destruct (fold_fadd_upper terms Hterms 0%Q 0 ltac:(lia) ltac:(lia)) as [Hlo Hhi].
  { split; [apply Qle_refl | discriminate]. }
  rewrite Z.add_0_l in Hhi.
  set (sum := fold_left fadd terms 0%Q) in *.
  set (n := Array_length terms) in *.
  assert (Hd : (0 < num (Z.max n 1))%Q).
  { unfold num. change 0%Q with (inject_Z 0). rewrite <- Zlt_Qlt. lia. }
  unfold fdiv. split.
  - apply fl_nonneg. apply Qle_shift_div_l; [exact Hd |]. now rewrite Qmult_0_l.
  - rewrite <- fl_hundred. apply fl_monotone.
    + apply Qle_shift_div_l; [exact Hd |]. now rewrite Qmult_0_l.
    + apply Qle_shift_div_r; [exact Hd |].
      apply Qle_trans with (inject_Z (100 * n)); [exact Hhi |].
      rewrite hundred_times. apply Qmult_le_l; [reflexivity |].
      apply num_le. lia.
Qed.


Lemma Array_includes_In (arr : list string) (x : string) :
  Array_includes arr x = true <-> In x arr.
Proof.
  unfold Array_includes. rewrite existsb_exists. split.
  - intros (y & Hy & E). apply String.eqb_eq in E. now subst.
  - intros H. exists x. split; [exact H | apply String.eqb_refl].
Qed.




Lemma coverageScore_counts (resumeData : ResumeData.t) (jd : JDAnalysis.t)
    (generatedResume : GeneratedResume.t) (relevanceMap : RelevanceMap.t) :
  JDMatchReport.coverageScore
    (generateJDMatchReport resumeData jd generatedResume relevanceMap)
  = coverageOfCounts (Array_length (foundKeywords jd generatedResume))
      (Array_length (JDAnalysis.primaryKeywords jd ++ JDAnalysis.secondaryKeywords jd)).
Proof.
  cbn [generateJDMatchReport JDMatchReport.coverageScore].
  unfold coverageOfCounts, foundKeywords. now rewrite filter_map_length.
Qed.

Lemma coverageOfCounts_range (found total : Z) :
  0 <= found <= total -> 0 <= coverageOfCounts found total <= 100.
Proof.
  intros H. unfold coverageOfCounts.
  apply (Math_round_range _ 0 100). apply percent_range.
  apply fdiv_ratio_range; lia.
Qed.

Lemma coverageOfCounts_none (total : Z) : coverageOfCounts 0 total = 0.
Proof.
  unfold coverageOfCounts.
  assert (E : fdiv (num 0) (num (Z.max total 1)) = 0%Q).
  { unfold fdiv, num, Qdiv, Qmult, inject_Z. cbn [Qnum Qden]. reflexivity. }
  rewrite E. reflexivity.
Qed.

Lemma coverageOfCounts_all (total : Z) : 1 <= total -> coverageOfCounts total total = 100.
Proof.
  intros H. unfold coverageOfCounts. rewrite Z.max_l by lia.
  assert (Hq : (num total / num total == 1)%Q).
  { apply Qmult_inv_r. unfold num. intros E.
    assert (Hlt : (inject_Z 0 < inject_Z total)%Q) by (rewrite <- Zlt_Qlt; lia).
    rewrite E in Hlt. now apply Qlt_irrefl in Hlt. }
  assert (E1 : (fdiv (num total) (num total) == 1)%Q).
  { unfold fdiv. apply Qeq_trans with (fl 1); [| now rewrite fl_one].
    apply fl_Qeq; [| exact Hq]. rewrite Hq. discriminate. }
  assert (E2 : (fmul (fdiv (num total) (num total)) 100 == 100)%Q).
  { unfold fmul. apply Qeq_trans with (fl 100); [| now rewrite fl_hundred].
    apply fl_Qeq.
    - rewrite E1. discriminate.
    - rewrite E1. reflexivity. }
  unfold Math_round. rewrite E2. reflexivity.
Qed.

(** X12.  The coverage score of a match report lies between 0 and 100,
    whatever the counts (the two binary64 roundings never carry it out of
    the range); it is 0 when no keyword is found, in particular when the
    job has no keyword, and 100 when the job has keywords and all are
    found. *)
Theorem coverage_score_range :
  forall (resumeData : ResumeData.t) (jd : JDAnalysis.t)
         (generatedResume : GeneratedResume.t) (relevanceMap : RelevanceMap.t),
    let report := generateJDMatchReport resumeData jd generatedResume relevanceMap in
    let keywords := JDAnalysis.primaryKeywords jd ++ JDAnalysis.secondaryKeywords jd in
    0 <= JDMatchReport.coverageScore report <= 100
    /\ (foundKeywords jd generatedResume = [] -> JDMatchReport.coverageScore report = 0)
    /\ (keywords <> [] -> foundKeywords jd generatedResume = keywords ->
        JDMatchReport.coverageScore report = 100).
Proof.
  intros rd jd gr rm report keywords. subst report keywords.
  rewrite coverageScore_counts. split; [| split].
  - apply coverageOfCounts_range. unfold foundKeywords. apply filter_length_le.
  - intros ->. apply coverageOfCounts_none.
  - intros Hne ->. apply coverageOfCounts_all.
    destruct (JDAnalysis.primaryKeywords jd ++ JDAnalysis.secondaryKeywords jd);
      [now contradiction Hne |].
    unfold Array_length. cbn [List.length]. lia.
Qed.


Lemma Array_length_map {A B} (f : A -> B) (l : list A) :
  Array_length (map f l) = Array_length l.
Proof. unfold Array_length. now rewrite length_map. Qed.




(** *** The relevance map *)

Lemma Object_keys_from (written seen : list string) :
  Array_length
    (fold_left (fun seen k => if Array_includes seen k then seen else seen ++ [k])
               written seen)
  <= Array_length seen + Array_length written.
Proof.
  unfold Array_length. revert seen.
  induction written as [| k written IH]; intros seen; cbn [fold_left List.length]; [lia |].
  destruct (Array_includes seen k).
  - specialize (IH seen). lia.
  - specialize (IH (seen ++ [k])). rewrite List.length_app in IH. cbn in IH. lia.
Qed.

Lemma Object_values_length (written : list string) (scores : gmap string Q) :
  Array_length (Object_values written scores) <= Array_length written.
Proof.
  unfold Object_values. rewrite Array_length_map.
  pose proof (Object_keys_from written []) as H. unfold Object_keys.
  unfold Array_length in *. cbn [List.length] in H. lia.
Qed.

Lemma Object_values_range (written : list string) (scores : gmap string Q) :
  (forall id s, scores !! id = Some s -> (0 <= s <= 100)%Q) ->
  Forall (fun v => (0 <= v <= 100)%Q) (Object_values written scores).
Proof.
  intros H. unfold Object_values. apply List.Forall_forall. intros v Hv.
  apply in_map_iff in Hv as (k & <- & _). unfold scoreOr0.
  destruct (scores !! k) as [s |] eqn:E; [now apply (H k) | split; discriminate].
Qed.

Lemma average_of_values (written : list string) (scores : gmap string Q) :
  (forall id s, scores !! id = Some s -> (0 <= s <= 100)%Q) ->
  Array_length written < arrayLimit ->
  (0 <= fdiv (sumValues (Object_values written scores))
             (num (Z.max (Array_length (Object_values written scores)) 1)) <= 100)%Q.
Proof.
  intros Hr Hlen. apply average_range.
  - now apply Object_values_range.
  - pose proof (Object_values_length written scores). lia.
Qed.

Lemma weighted_sum_range (a p s : Q) :
  (0 <= a <= 100)%Q -> (0 <= p <= 100)%Q -> (0 <= s <= 100)%Q ->
  0 <= Math_round
         (fadd (fadd (fmul a (fl (5 # 10))) (fmul p (fl (2 # 10))))
               (fmul s (fl (3 # 10))))
    <= 100.
Proof.
  intros Ha Hp Hs. apply (Math_round_range _ 0 100).
  assert (H5 : (0 <= fl (5 # 10))%Q) by discriminate.
  assert (H2 : (0 <= fl (2 # 10))%Q) by discriminate.
  assert (H3 : (0 <= fl (3 # 10))%Q) by discriminate.
  pose proof (fmul_le a a _ 100 Ha H5) as Ua.
  pose proof (fmul_le p p _ 100 Hp H2) as Up.
  pose proof (fmul_le s s _ 100 Hs H3) as Us.
  assert (La : (0 <= fmul a (fl (5 # 10)))%Q) by (apply fmul_nonneg; [apply Ha | exact H5]).
  assert (Lp : (0 <= fmul p (fl (2 # 10)))%Q) by (apply fmul_nonneg; [apply Hp | exact H2]).
  assert (Ls : (0 <= fmul s (fl (3 # 10)))%Q) by (apply fmul_nonneg; [apply Hs | exact H3]).
  split.
  - apply fadd_nonneg; [apply fadd_nonneg |]; assumption.
  - apply Qle_trans
      with (fadd (fadd (fmul 100 (fl (5 # 10))) (fmul 100 (fl (2 # 10))))
                 (fmul 100 (fl (3 # 10)))).
    + apply (fadd_le _ _ _ _); [split | split; assumption].
      * apply fadd_nonneg; assumption.
      * apply (fadd_le _ _ _ _); split; assumption.
    + vm_compute. discriminate.
Qed.

Lemma experience_scores_range (jd : JDAnalysis.t) (exps : list Experience.t) :
  nonnegativeWeights jd ->
  forall id s,
    fold_left (fun (m : gmap string Q) exp =>
                 <[Experience.id exp := calculateExperienceRelevance exp jd]> m)
              exps (∅ : gmap string Q) !! id = Some s ->
    (0 <= s <= 100)%Q.
Proof.
  intros Hw.
  apply (scores_written_in_range Experience.id
           (fun e => calculateExperienceRelevance e jd)).
  - intros e. now apply experience_relevance_range.
  - intros id s. now rewrite lookup_empty.
Qed.

Lemma project_scores_range (jd : JDAnalysis.t) (projs : list Project.t) :
  forall id s,
    fold_left (fun (m : gmap string Q) proj =>
                 <[Project.id proj := calculateProjectRelevance proj jd]> m)
              projs (∅ : gmap string Q) !! id = Some s ->
    (0 <= s <= 100)%Q.
Proof.
  apply (scores_written_in_range Project.id (fun p => calculateProjectRelevance p jd)).
  - intros p. apply project_relevance_range.
  - intros id s. now rewrite lookup_empty.
Qed.

Lemma overallMatch_bounds (jd : JDAnalysis.t) (resumeData : ResumeData.t) :
  nonnegativeWeights jd ->
  Array_length (ResumeData.experiences resumeData) < arrayLimit ->
  Array_length (ResumeData.projects resumeData) < arrayLimit ->
  0 <= RelevanceMap.overallMatch (mapJDToProfile jd resumeData) <= 100.
Proof.
  intros Hw Hle Hlp.
  cbn [mapJDToProfile RelevanceMap.overallMatch].
  apply weighted_sum_range.
  - apply average_of_values; [now apply experience_scores_range |].
    now rewrite Array_length_map.
  - apply average_of_values; [apply project_scores_range |].
    now rewrite Array_length_map.
  - apply percent_range. apply fdiv_ratio_range; [| lia].
    set (allSkills := flat_map SkillCategory.skills (ResumeData.skills resumeData)).
    set (values := Object_values allSkills _).
    pose proof (filter_length_le (fun s => gtb s 0) values) as Hf.
    pose proof (Object_values_length allSkills
                  (fold_left (fun (m : gmap string Q) skill =>
                                <[skill := skillScore jd skill]> m)
                             allSkills ∅)) as Hv.
    fold values in Hv. lia.
Qed.

(** X15.  For a job whose theme weights are not negative and a résumé whose
    arrays are within the size of a JavaScript array, the overall match
    that [mapJDToProfile] computes lies between 0 and 100, and so does
    every score it stores for an experience, a project or a skill. *)
Theorem overall_match_range :
  forall (jd : JDAnalysis.t) (resumeData : ResumeData.t),
    nonnegativeWeights jd ->
    Array_length (ResumeData.experiences resumeData) < arrayLimit ->
    Array_length (ResumeData.projects resumeData) < arrayLimit ->
    let relevanceMap := mapJDToProfile jd resumeData in
    0 <= RelevanceMap.overallMatch relevanceMap <= 100
    /\ (forall id s,
           RelevanceMap.experiences relevanceMap !! id = Some s
           \/ RelevanceMap.projects relevanceMap !! id = Some s
           \/ RelevanceMap.skills relevanceMap !! id = Some s ->
           (0 <= s <= 100)%Q).
Proof.
  intros jd rd Hw Hle Hlp relevanceMap. subst relevanceMap.
  split; [now apply overallMatch_bounds | now apply relevance_map_in_range].
Qed.

(* ===================================================================== *)
(** ** The relevance map and the ranking                                 *)
(* ===================================================================== *)

(** *** Writing scores into a map *)






(** *** Ranking *)

Section RankingMore.

Context {A : Type} (score : A -> Q).

Lemma descending_app_inv (front back : list A) :
  descending score (front ++ back) ->
  descending score front /\ descending score back
  /\ forall a b, In a front -> In b back -> (score b <= score a)%Q.
Proof.
  unfold descending. induction front as [| x front IH]; cbn [app]; intros H.
  - repeat split; [constructor | exact H | contradiction].
  - apply StronglySorted_inv in H as [Hrest Hx].
    destruct (IH Hrest) as (Hf & Hb & Hcross).
    rewrite List.Forall_forall in Hx.
    repeat split.
    + constructor; [exact Hf |]. apply List.Forall_forall. intros y Hy.
      apply Hx, in_or_app. now left.
    + exact Hb.
    + intros a b [<- | Ha] Hbin.
      * apply Hx, in_or_app. now right.
      * now apply Hcross.
Qed.

(** Sorting a list that is already in descending order changes nothing. *)
Lemma Array_sort_sorted (l : list A) :
  descending score l -> Array_sort (byScoreDescending score) l = l.
Proof.
  unfold descending, Array_sort. induction l as [| x l IH]; intros H; [reflexivity |].
  apply StronglySorted_inv in H as [Hrest Hx].
  cbn [fold_right]. rewrite (IH Hrest).
  destruct l as [| y l]; [reflexivity |].
  cbn [sort_insert].
  apply Forall_inv in Hx.
  now rewrite (proj2 (comparator_not_positive score x y) Hx).
Qed.

Lemma descending_take (n : nat) (l : list A) :
  descending score l -> descending score (firstn n l).
Proof.
  intros H. rewrite <- (take_drop n l) in H.
  now apply descending_app_inv in H as (Hf & _).
Qed.


End RankingMore.


(** X18.  Ranking a list that is already ranked changes nothing, for
    experiences and for projects, and selecting the top projects of a
    selection returns the selection. *)
Theorem ranking_is_idempotent :
  forall (experienceList : list Experience.t) (projectList : list Project.t)
         (maxCount : nat) (relevanceMap : RelevanceMap.t),
    rankExperiences (rankExperiences experienceList relevanceMap) relevanceMap
    = rankExperiences experienceList relevanceMap
    /\ rankProjects (rankProjects projectList relevanceMap) relevanceMap
       = rankProjects projectList relevanceMap
    /\ selectTopProjects (selectTopProjects projectList maxCount relevanceMap)
         maxCount relevanceMap
       = selectTopProjects projectList maxCount relevanceMap.
Proof.
  intros es ps n rm. split; [| split].
  - rewrite !rankExperiences_sort. apply Array_sort_sorted, Array_sort_descending.
  - rewrite !rankProjects_sort. apply Array_sort_sorted, Array_sort_descending.
  - unfold selectTopProjects, slice0. rewrite !rankProjects_sort.
    rewrite (Array_sort_sorted (projectScore rm) (firstn n _)).
    + now rewrite take_take, Nat.min_id.
    + apply descending_take, Array_sort_descending.
Qed.


(* ===================================================================== *)
(** ** The patterns                                                      *)
(* ===================================================================== *)

Module RegexFacts.
Import Regex RegexLang StringFacts.

Lemma append_nil_r (s : string) : (s ++ "")%string = s.
Proof. induction s as [| c s IH]; [reflexivity |]. now rewrite append_cons, IH. Qed.

Lemma append_assoc (a b c : string) : ((a ++ b) ++ c)%string = (a ++ (b ++ c))%string.
Proof. induction a as [| x a IH]; [reflexivity |]. now rewrite !append_cons, IH. Qed.

Lemma append_eq_nil (a b : string) : (a ++ b)%string = "" -> a = "" /\ b = "".
Proof. destruct a; [now rewrite append_nil | now rewrite append_cons]. Qed.

Lemma nullable_Lang (r : regex) : nullable r = true <-> Lang r "".
Proof.
  induction r as [| | p | a IHa b IHb | a IHa b IHb | a IHa]; cbn [nullable].
  - split; [discriminate | inversion 1].
  - split; [constructor | reflexivity].
  - split; [discriminate | inversion 1].
  - rewrite andb_true_iff, IHa, IHb. split.
    + intros [Ha Hb]. change "" with ("" ++ "")%string. now constructor.
    + inversion 1 as [| | a' b' s t Hs Ht Heq Hst | | | |]; subst.
      apply append_eq_nil in Hst as [-> ->]. now split.
  - rewrite orb_true_iff, IHa, IHb. split.
    + intros [H | H]; [now apply Lang_alt_l | now apply Lang_alt_r].
    + inversion 1; subst; [now left | now right].
  - split; [constructor | reflexivity].
Qed.

Lemma Lang_mkCat (a b : regex) (s : string) : Lang (mkCat a b) s <-> Lang (Cat a b) s.
Proof.
  assert (Hvoid_l : forall b s, Lang (Cat Void b) s <-> Lang Void s).
  { intros b' s'. split; inversion 1; subst.
    match goal with H : Lang Void _ |- _ => inversion H end. }
  assert (Hvoid_r : forall a s, Lang (Cat a Void) s <-> Lang Void s).
  { intros a' s'. split; inversion 1; subst.
    match goal with H : Lang Void _ |- _ => inversion H end. }
  assert (Heps : forall b s, Lang (Cat Eps b) s <-> Lang b s).
  { intros b' s'. split.
    - inversion 1 as [| | a0 b0 s0 t0 Hs Ht | | | |]; subst.
      inversion Hs; subst. now rewrite append_nil.
    - intros H. rewrite <- (append_nil s'). constructor; [constructor | exact H]. }
  destruct a; cbn [mkCat]; try (symmetry; apply Hvoid_l);
    destruct b; try reflexivity; try (symmetry; apply Hvoid_r);
    try (symmetry; apply Heps).
Qed.

Lemma Lang_mkAlt (a b : regex) (s : string) : Lang (mkAlt a b) s <-> Lang (Alt a b) s.
Proof.
  assert (Hl : forall b s, Lang (Alt Void b) s <-> Lang b s).
  { intros b' s'. split.
    - inversion 1; subst; [match goal with H : Lang Void _ |- _ => inversion H end
                          | assumption].
    - now apply Lang_alt_r. }
  assert (Hr : forall a s, Lang (Alt a Void) s <-> Lang a s).
  { intros a' s'. split.
    - inversion 1; subst; [assumption
                          | match goal with H : Lang Void _ |- _ => inversion H end].
    - now apply Lang_alt_l. }
  destruct a; cbn [mkAlt]; try (symmetry; apply Hl);
    destruct b; try reflexivity; try (symmetry; apply Hr).
Qed.

(** A non-empty match of [Star a] starts with a non-empty match of [a]. *)
Lemma Lang_star_cons_inv (a : regex) (c : ascii) (s : string) :
  Lang (Star a) (String c s) ->
  exists s1 s2, s = (s1 ++ s2)%string /\ Lang a (String c s1) /\ Lang (Star a) s2.
Proof.
  intros H. remember (Star a) as r eqn:Er. remember (String c s) as w eqn:Ew.
  revert s Ew.
  induction H as [| | | | | a' | a' u v Hu _ Hv IH]; intros w Ew; try discriminate.
  injection Er as ->.
  destruct u as [| d u].
  - rewrite append_nil in Ew. now apply IH.
  - rewrite append_cons in Ew. injection Ew as -> <-.
    exists u, v. now repeat split.
Qed.

Lemma Lang_deriv (r : regex) (c : ascii) (s : string) :
  Lang (deriv c r) s <-> Lang r (String c s).
Proof.
  revert s.
  induction r as [| | p | a IHa b IHb | a IHa b IHb | a IHa]; intros s; cbn [deriv].
  - split; inversion 1.
  - split; inversion 1.
  - destruct (p c) eqn:E; split.
    + inversion 1; subst. now constructor.
    + inversion 1; subst. constructor.
    + inversion 1.
    + inversion 1; subst. congruence.
  - assert (Hfirst : forall s, Lang (Cat (deriv c a) b) s ->
                               Lang (Cat a b) (String c s)).
    { intros s'. inversion 1 as [| | a0 b0 u v Hu Hv | | | |]; subst.
      rewrite <- append_cons. constructor; [now apply IHa | exact Hv]. }
    destruct (nullable a) eqn:N.
    + rewrite Lang_mkAlt. split.
      * inversion 1 as [| | | a0 b0 s0 Hl | a0 b0 s0 Hr | |]; subst.
        -- apply Lang_mkCat in Hl. now apply Hfirst.
        -- rewrite <- (append_nil (String c s)).
           constructor; [now apply nullable_Lang | now apply IHb].
      * inversion 1 as [| | a0 b0 u v Hu Hv Heq Huv | | | |]; subst.
        destruct u as [| d u].
        -- rewrite append_nil in Huv. subst v. apply Lang_alt_r. now apply IHb.
        -- rewrite append_cons in Huv. injection Huv as -> <-.
           apply Lang_alt_l, Lang_mkCat. constructor; [now apply IHa | exact Hv].
    + rewrite Lang_mkCat. split; [apply Hfirst |].
      inversion 1 as [| | a0 b0 u v Hu Hv Heq Huv | | | |]; subst.
      destruct u as [| d u].
      * apply nullable_Lang in Hu. congruence.
      * rewrite append_cons in Huv. injection Huv as -> <-.
        constructor; [now apply IHa | exact Hv].
  - rewrite Lang_mkAlt. split.
    + inversion 1; subst; [apply Lang_alt_l; now apply IHa
                          | apply Lang_alt_r; now apply IHb].
    + inversion 1; subst; [apply Lang_alt_l; now apply IHa
                          | apply Lang_alt_r; now apply IHb].
  - rewrite Lang_mkCat. split.
    + inversion 1 as [| | a0 b0 u v Hu Hv | | | |]; subst.
      rewrite <- append_cons. constructor; [now apply IHa | exact Hv].
    + intros H. apply Lang_star_cons_inv in H as (s1 & s2 & -> & H1 & H2).
      constructor; [now apply IHa | exact H2].
Qed.

(** The matcher decides the language. *)
Lemma matches_Lang (r : regex) (s : string) : matches r s = true <-> Lang r s.
Proof.
  revert r. induction s as [| c s IH]; intros r; cbn [matches].
  - apply nullable_Lang.
  - rewrite IH. apply Lang_deriv.
Qed.

Lemma Lang_any_star (s : string) : Lang (Star any) s.
Proof.
  induction s as [| c s IH]; [constructor |].
  change (String c s) with (String c "" ++ s)%string.
  constructor; [now constructor | exact IH].
Qed.

(** [test] finds a match somewhere in the string. *)
Lemma test_Lang (r : regex) (s : string) :
  test r s = true
  <-> exists front mid back, s = (front ++ mid ++ back)%string /\ Lang r mid.
Proof.
  unfold test. rewrite matches_Lang. split.
  - inversion 1 as [| | a0 b0 u v Hu Hv | | | |]; subst.
    inversion Hv as [| | a1 b1 m w Hm Hw | | | |]; subst.
    now exists u, m, w.
  - intros (front & mid & back & -> & H).
    constructor; [apply Lang_any_star |].
    constructor; [exact H | apply Lang_any_star].
Qed.

End RegexFacts.

Module MetricFacts.
Import Regex RegexLang RegexFacts StringFacts.

Lemma hasDigit_app (a b : string) : hasDigit (a ++ b) = hasDigit a || hasDigit b.
Proof.
  induction a as [| c a IH]; [reflexivity |].
  rewrite append_cons. cbn [hasDigit]. now rewrite IH, orb_assoc.
Qed.

Lemma hasDigit_split (s : string) :
  hasDigit s = true
  <-> exists front c back, s = (front ++ String c back)%string /\ isDigit c = true.
Proof.
  split.
  - induction s as [| c s IH]; [discriminate |]. cbn [hasDigit].
    destruct (isDigit c) eqn:E.
    + intros _. now exists "", c, s.
    + intros H. destruct (IH H) as (front & d & back & -> & Hd).
      now exists (String c front), d, back.
  - intros (front & c & back & -> & Hc). rewrite hasDigit_app. cbn [hasDigit].
    rewrite Hc. now rewrite orb_true_r.
Qed.

Lemma prefix_split (k s : string) :
  String.prefix k s = true <-> exists back, s = (k ++ back)%string.
Proof.
  revert s. induction k as [| c k IH]; intros s.
  - rewrite prefix_nil. split; [intros _; now exists s | reflexivity].
  - destruct s as [| d s]; cbn [String.prefix].
    + split; [discriminate | intros (back & H); now rewrite append_cons in H].
    + destruct (ascii_dec c d) as [-> | ne].
      * rewrite IH. split; intros (back & H); exists back.
        -- now rewrite append_cons, H.
        -- rewrite append_cons in H. now injection H.
      * split; [discriminate |]. intros (back & H). rewrite append_cons in H.
        injection H as -> _. now contradiction ne.
Qed.

Lemma includes_split (hay needle : string) :
  includes hay needle = true
  <-> exists front back, hay = (front ++ needle ++ back)%string.
Proof.
  split.
  - induction hay as [| c hay IH].
    + rewrite includes_nil. destruct needle; [| discriminate].
      intros _. now exists "", "".
    + rewrite includes_cons. destruct (String.prefix needle (String c hay)) eqn:P.
      * intros _. apply prefix_split in P as (back & ->). now exists "", back.
      * intros H. destruct (IH H) as (front & back & ->).
        now exists (String c front), back.
  - intros (front & back & ->). apply includes_app_r.
    assert (P : String.prefix needle (needle ++ back) = true)
      by (apply prefix_split; now exists back).
    destruct (needle ++ back)%string; cbn [includes]; now rewrite P.
Qed.

Ltac lang_inv :=
  repeat match goal with
         | H : Lang Void _ |- _ => inversion H
         | H : Lang Eps _ |- _ => inversion H; subst; clear H
         | H : Lang (Cls _) _ |- _ => inversion H; subst; clear H
         | H : Lang (Cat _ _) _ |- _ => inversion H; subst; clear H
         | H : Lang (Alt _ _) _ |- _ => inversion H; subst; clear H
         end.

(** What the two metric patterns match holds a digit or starts with a
    dollar sign and a comma. *)
Lemma metric_match_shape (mid : string) :
  Lang ATSCompliance.metricPattern mid \/ Lang rewriteMetricPattern mid ->
  hasDigit mid = true \/ String.prefix "$," mid = true.
Proof.
  unfold ATSCompliance.metricPattern, rewriteMetricPattern.
  cbv zeta. cbn [alts]. unfold plus, opt, chr, digit.
  intros [H | H]; lang_inv;
    rewrite ?hasDigit_app, ?append_cons, ?append_nil; cbn [hasDigit];
    repeat match goal with
           | H : (48 <=? N_of_ascii ?c)%N && _ = true |- _ =>
               change (isDigit c = true) in H; rewrite H; clear H
           | H : Ascii.eqb _ _ = true |- _ => apply Ascii.eqb_eq in H; subst
           end;
    first [ left; cbn; rewrite ?orb_true_r; reflexivity
          | right; apply prefix_split; eexists; reflexivity ].
Qed.

Lemma digit_is_metric (c : ascii) :
  isDigit c = true ->
  Lang ATSCompliance.metricPattern (String c "")
  /\ Lang rewriteMetricPattern (String c "").
Proof.
  intros Hc.
  assert (Hd : Lang digit (String c "")) by (now constructor).
  assert (Hp : Lang (plus digit) (String c "")).
  { change (String c "") with (String c "" ++ "")%string.
    constructor; [exact Hd | constructor]. }
  split.
  - unfold ATSCompliance.metricPattern. cbv zeta. cbn [alts].
    do 5 apply Lang_alt_r. apply Lang_alt_l. exact Hp.
  - unfold rewriteMetricPattern. cbv zeta. cbn [alts].
    apply Lang_alt_l. rewrite <- (RegexFacts.append_nil_r (String c "")).
    constructor; [exact Hp |]. apply Lang_alt_r. constructor.
Qed.

Lemma dollar_comma_is_metric :
  Lang ATSCompliance.metricPattern "$," /\ Lang rewriteMetricPattern "$,".
Proof.
  assert (H : Lang (Cat (chr "$") (plus (Alt digit (chr ",")))) "$,").
  { change "$,"%string with ("$" ++ ("," ++ ""))%string.
    constructor; [now constructor |].
    constructor; [| constructor]. apply Lang_alt_r. now constructor. }
  split.
  - unfold ATSCompliance.metricPattern. cbv zeta. cbn [alts].
    apply Lang_alt_r, Lang_alt_l. exact H.
  - unfold rewriteMetricPattern. cbv zeta. cbn [alts].
    apply Lang_alt_r, Lang_alt_l. exact H.
Qed.

(** Both metric tests hold exactly when the text has a digit or the two
    characters "$,". *)
Lemma metric_test_shape (pattern : regex) (text : string) :
  (forall mid, Lang pattern mid ->
               hasDigit mid = true \/ String.prefix "$," mid = true) ->
  (forall c, isDigit c = true -> Lang pattern (String c "")) ->
  Lang pattern "$," ->
  test pattern text = hasDigit text || includes text "$,".
Proof.
  intros Hshape Hdigit Hdollar.
  apply eq_true_iff_eq. rewrite orb_true_iff, test_Lang. split.
  - intros (front & mid & back & -> & Hmid).
    destruct (Hshape mid Hmid) as [Hd | Hp].
    + left. rewrite !hasDigit_app, Hd. now rewrite orb_true_r.
    + right. apply includes_app_r, includes_app_l.
      destruct mid; cbn [includes]; now rewrite Hp.
  - intros [Hd | Hi].
    + apply hasDigit_split in Hd as (front & c & back & -> & Hc).
      exists front, (String c ""), back. split; [reflexivity | now apply Hdigit].
    + apply includes_split in Hi as (front & back & ->).
      now exists front, "$,"%string, back.
Qed.

End MetricFacts.

(** X20.  [hasMetric] holds exactly when the text has an ASCII digit
    somewhere or the two characters "$,": the alternatives of the pattern
    for a percentage, a multiplier, a plus sign and grouped thousands add
    nothing to the alternative for a run of digits. *)
Theorem hasMetric_digit_or_dollar_comma :
  forall text : string,
    ATSCompliance.hasMetric text = hasDigit text || includes text "$,".
Proof.
  intros text. unfold ATSCompliance.hasMetric.
  apply MetricFacts.metric_test_shape.
  - intros mid H. apply MetricFacts.metric_match_shape. now left.
  - intros c Hc. now apply MetricFacts.digit_is_metric.
  - apply MetricFacts.dollar_comma_is_metric.
Qed.

(* ===================================================================== *)
(** ** Rewriting and assembly                                            *)
(* ===================================================================== *)

Lemma map_imap {A B C} (f : nat -> A -> B) (g : B -> C) (h : A -> C) (l : list A) :
  (forall i x, g (f i x) = h x) -> map g (imap f l) = map h l.
Proof.
  intros H. revert f H. induction l as [| x l IH]; intros f H; [reflexivity |].
  rewrite imap_cons. cbn [map]. rewrite H. f_equal. apply IH. intros i y. apply H.
Qed.

Lemma Forall_imap {A B} (f : nat -> A -> B) (P : B -> Prop) (l : list A) :
  (forall i x, In x l -> P (f i x)) -> Forall P (imap f l).
Proof.
  revert f. induction l as [| x l IH]; intros f H; [constructor |].
  rewrite imap_cons. constructor.
  - apply H. now left.
  - apply IH. intros i y Hy. apply H. now right.
Qed.

Lemma rewriteBullets_originals (completions : nat -> Completion)
    (bullets : list string) (jd : JDAnalysis.t) :
  map BulletRewrite.original (rewriteBullets completions bullets jd) = bullets.
Proof.
  unfold rewriteBullets. rewrite (map_imap _ _ (fun b => b)); [apply map_id |].
  intros i b. now destruct (completions i).
Qed.

Lemma rewriteBullets_length (completions : nat -> Completion)
    (bullets : list string) (jd : JDAnalysis.t) :
  Array_length (rewriteBullets completions bullets jd) = Array_length bullets.
Proof. unfold Array_length, rewriteBullets. now rewrite length_imap. Qed.



Lemma sectionItems_itemsOf (kind : SectionType) (plan : LayoutPlan.t) :
  match sectionItems kind plan with Some items => items | None => [] end
  = itemsOf kind plan.
Proof.
  unfold sectionItems, itemsOf, sectionOf.
  now destruct (List.find _ (LayoutPlan.sections plan)).
Qed.

Lemma sectionItems_ids (kind : SectionType) (plan : LayoutPlan.t) :
  match sectionItems kind plan with
  | Some items => map LayoutItem.id items
  | None => []
  end = map LayoutItem.id (itemsOf kind plan).
Proof.
  rewrite <- sectionItems_itemsOf. now destruct (sectionItems kind plan).
Qed.

Lemma sectionItems_find (kind : SectionType) (plan : LayoutPlan.t) (id : string) :
  match sectionItems kind plan with
  | Some items => List.find (fun i => String.eqb (LayoutItem.id i) id) items
  | None => None
  end = List.find (fun i => String.eqb (LayoutItem.id i) id) (itemsOf kind plan).
Proof.
  rewrite <- sectionItems_itemsOf. now destruct (sectionItems kind plan).
Qed.

Lemma Array_slice0_prefix {A} (arr : list A) (n : Z) :
  exists rest, arr = Array_slice0 arr n ++ rest.
Proof.
  unfold Array_slice0. destruct (n <? 0).
  - exists (skipn (List.length arr - Z.to_nat (- n)) arr). now rewrite take_drop.
  - exists (skipn (Z.to_nat n) arr). now rewrite take_drop.
Qed.

Lemma Array_slice0_length {A} (arr : list A) (n : Z) :
  0 <= n -> Array_length (Array_slice0 arr n) = Z.min n (Array_length arr).
Proof.
  intros Hn. unfold Array_slice0, Array_length.
  destruct (n <? 0) eqn:E; [apply Z.ltb_lt in E; lia |].
  rewrite length_take. lia.
Qed.

Lemma bulletCountFor_range (config : ResumeConfig.t) (items : list LayoutItem.t)
    (id : string) :
  Forall (fun item => 0 <= LayoutItem.bulletCount item
                      <= Z.of_nat (ResumeConfig.maxBulletsPerExperience config)) items ->
  0 <= bulletCountFor config
         (List.find (fun i => String.eqb (LayoutItem.id i) id) items)
    <= Z.of_nat (ResumeConfig.maxBulletsPerExperience config).
Proof.
  intros Hall. unfold bulletCountFor.
  destruct (List.find _ items) as [item |] eqn:F; [| lia].
  apply find_some in F as [Hin _].
  rewrite List.Forall_forall in Hall. specialize (Hall item Hin).
  destruct (LayoutItem.bulletCount item =? 0); lia.
Qed.

Lemma experience_items_range (resumeData : ResumeData.t) (config : ResumeConfig.t)
    (relevanceMap : RelevanceMap.t) :
  Forall (fun item => 0 <= LayoutItem.bulletCount item
                      <= Z.of_nat (ResumeConfig.maxBulletsPerExperience config))
         (itemsOf experience (allocateLayout resumeData config relevanceMap)).
Proof.
  destruct (itemsOf_experience resumeData config relevanceMap)
    as (adm & rest & _ & -> & _).
  apply List.Forall_forall. intros item Hin.
  apply in_map_iff in Hin as (e & <- & _). cbn [experienceItem LayoutItem.bulletCount].
  unfold experienceBullets.
  pose proof (Array_length_nonneg (Experience.bullets e)). lia.
Qed.

(** X22.  The entries of the résumé that [generateResume] returns, whatever
    the completion service answers: they are the experiences and the
    projects of the input, in the same order; an entry is included exactly
    when the layout plan lists its identifier; an entry that is not
    included has no rewritten bullet; the rewritten bullets of an included
    experience rewrite, in order, the first bullets of the experience, at
    most [maxBulletsPerExperience] of them; and those of an included
    project rewrite all its bullets, however many lines the plan allocated
    to it. *)
Theorem generated_entries_follow_plan :
  forall (service : Service.t) (resumeData : ResumeData.t) (jd : JDAnalysis.t)
         (config : ResumeConfig.t),
    let generated := generateResume service resumeData jd config in
    let resume := Generated.resume generated in
    let plan := Generated.layoutPlan generated in
    map GeneratedExperience.id (GeneratedResume.experiences resume)
    = map Experience.id (ResumeData.experiences resumeData)
    /\ map GeneratedProject.id (GeneratedResume.projects resume)
       = map Project.id (ResumeData.projects resumeData)
    /\ Forall
         (fun e =>
            GeneratedExperience.includedInResume e
            = Array_includes (map LayoutItem.id (itemsOf experience plan))
                             (GeneratedExperience.id e)
            /\ (GeneratedExperience.includedInResume e = false ->
                GeneratedExperience.rewrittenBullets e = [])
            /\ (exists rest,
                   GeneratedExperience.bullets e
                   = map BulletRewrite.original (GeneratedExperience.rewrittenBullets e)
                     ++ rest)
            /\ Array_length (GeneratedExperience.rewrittenBullets e)
               <= Z.of_nat (ResumeConfig.maxBulletsPerExperience config))
         (GeneratedResume.experiences resume)
    /\ Forall
         (fun p =>
            GeneratedProject.includedInResume p
            = Array_includes (map LayoutItem.id (itemsOf projects plan))
                             (GeneratedProject.id p)
            /\ map BulletRewrite.original (GeneratedProject.rewrittenBullets p)
               = if GeneratedProject.includedInResume p
                 then GeneratedProject.bullets p else [])
         (GeneratedResume.projects resume).
Proof.
  intros service rd jd cfg generated resume plan. subst resume plan generated.
  cbn [generateResume Generated.resume Generated.layoutPlan
       GeneratedResume.experiences GeneratedResume.projects].
  set (rm := mapJDToProfile jd rd). set (plan := allocateLayout rd cfg rm).
  rewrite !sectionItems_ids.
  split; [apply map_imap; reflexivity |].
  split; [apply map_imap; reflexivity |].
  split.
  - apply Forall_imap. intros i e _.
    unfold generateExperience.
    cbn [GeneratedExperience.includedInResume GeneratedExperience.id
         GeneratedExperience.rewrittenBullets GeneratedExperience.bullets].
    rewrite sectionItems_find. fold (bulletCountFor cfg
      (List.find (fun i0 => String.eqb (LayoutItem.id i0) (Experience.id e))
                 (itemsOf experience plan))).
    pose proof (bulletCountFor_range cfg (itemsOf experience plan) (Experience.id e)
                  (experience_items_range rd cfg rm)) as Hcount.
    set (count := bulletCountFor cfg _) in *.
    split; [reflexivity |].
    destruct (Array_includes _ (Experience.id e)).
    + split; [discriminate |]. rewrite rewriteBullets_originals, rewriteBullets_length.
      split; [apply Array_slice0_prefix |].
      rewrite Array_slice0_length by lia. lia.
    + split; [reflexivity |]. split; [now exists (Experience.bullets e) |].
      unfold Array_length. cbn [List.length]. lia.
  - apply Forall_imap. intros i p _.
    unfold generateProject, rewriteProjectBullets.
    cbn [GeneratedProject.includedInResume GeneratedProject.id
         GeneratedProject.rewrittenBullets GeneratedProject.bullets].
    split; [reflexivity |].
    destruct (Array_includes _ (Project.id p)); [apply rewriteBullets_originals |].
    reflexivity.
Qed.

Lemma filter_imap {A B C} (f : nat -> A -> B) (p : B -> bool) (p' : A -> bool)
    (h : B -> C) (h' : A -> C) (l : list A) :
  (forall i x, In x l -> p (f i x) = p' x) ->
  (forall i x, In x l -> p' x = true -> h (f i x) = h' x) ->
  map h (List.filter p (imap f l)) = map h' (List.filter p' l).
Proof.
  revert f. induction l as [| x l IH]; intros f Hp Hh; [reflexivity |].
  rewrite imap_cons. cbn [List.filter].
  rewrite (Hp 0%nat x (or_introl eq_refl)).
  assert (Hrest : map h (List.filter p (imap (f ∘ S) l)) = map h' (List.filter p' l)).
  { apply IH.
    - intros i y Hy. apply Hp. now right.
    - intros i y Hy. apply Hh. now right. }
  destruct (p' x) eqn:E; cbn [map]; [| exact Hrest].
  rewrite Hrest. f_equal. apply Hh; [now left | exact E].
Qed.

Lemma NoDup_map_injective {A} (f : A -> string) (l : list A) (a b : A) :
  NoDup (map f l) -> In a l -> In b l -> f a = f b -> a = b.
Proof.
  induction l as [| x l IH]; intros Hnd Ha Hb Hf; [contradiction |].
  cbn [map] in Hnd. apply NoDup_cons in Hnd as [Hx Hnd].
  destruct Ha as [-> | Ha], Hb as [-> | Hb]; try reflexivity.
  - contradiction Hx. apply list_elem_of_In. rewrite Hf. now apply in_map.
  - contradiction Hx. apply list_elem_of_In. rewrite <- Hf. now apply in_map.
  - now apply IH.
Qed.

Lemma sumZ_Permutation (a b : list Z) : Permutation a b -> sumZ a = sumZ b.
Proof.
  unfold sumZ.
  induction 1 as [| x a b _ IH | x y a | a b c _ IH1 _ IH2]; cbn [fold_right]; lia.
Qed.

(** The experiences whose identifier the plan lists are, up to order, the
    experiences the plan admitted. *)
Lemma listed_are_admitted (experienceList admitted rest ranked : list Experience.t) :
  NoDup (map Experience.id experienceList) ->
  Permutation ranked experienceList ->
  ranked = admitted ++ rest ->
  Permutation
    (List.filter
       (fun e => Array_includes (map Experience.id admitted) (Experience.id e))
       experienceList)
    admitted.
Proof.
  intros Hnd Hperm Hsplit.
  assert (Hsub : forall e, In e admitted -> In e experienceList).
  { intros e He. apply (Permutation_in _ Hperm). rewrite Hsplit.
    apply in_or_app. now left. }
  assert (Hl : NoDup experienceList) by (eapply NoDup_fmap_1; exact Hnd).
  assert (Hr : NoDup ranked) by (eapply NoDup_Permutation_proper; eassumption).
  rewrite Hsplit in Hr. apply NoDup_app in Hr as (Ha & _ & _).
  apply NoDup_Permutation;
    [apply NoDup_ListNoDup, List.NoDup_filter; now apply NoDup_ListNoDup | exact Ha |].
  intros e. rewrite !list_elem_of_In, filter_In, Array_includes_In, in_map_iff. split.
  - intros (He & e' & Hid & He').
    rewrite <- (NoDup_map_injective Experience.id experienceList e' e Hnd);
      auto.
  - intros He. split; [now apply Hsub | now exists e].
Qed.

(** X23.  When the experiences of the résumé have distinct identifiers, the
    included experiences of the résumé that [generateResume] returns are,
    up to order, the items of the experience section of its plan, each with
    as many rewritten bullets as the plan counted for it (the fallback to
    [maxBulletsPerExperience] for a count of 0 rewrites no bullet); so the
    lines the plan allocated to the section are two for each included
    experience and two for each of its rewritten bullets. *)
Theorem included_experiences_are_plan_items :
  forall (service : Service.t) (resumeData : ResumeData.t) (jd : JDAnalysis.t)
         (config : ResumeConfig.t),
    NoDup (map Experience.id (ResumeData.experiences resumeData)) ->
    let generated := generateResume service resumeData jd config in
    let included :=
      List.filter GeneratedExperience.includedInResume
        (GeneratedResume.experiences (Generated.resume generated)) in
    let plan := Generated.layoutPlan generated in
    Permutation
      (map (fun e => LayoutItem.mk (GeneratedExperience.id e)
                       (Array_length (GeneratedExperience.rewrittenBullets e)))
           included)
      (itemsOf experience plan)
    /\ linesOf experience plan
       = sumZ (map (fun e => 2 + 2 * Array_length (GeneratedExperience.rewrittenBullets e))
                   included).
Proof.
  intros service rd jd cfg Hnd generated included plan.
  subst included plan generated.
  cbn [generateResume Generated.resume Generated.layoutPlan GeneratedResume.experiences].
  set (rm := mapJDToProfile jd rd). set (plan := allocateLayout rd cfg rm).
  rewrite !sectionItems_ids.
  destruct (itemsOf_experience rd cfg rm) as (adm & rest & Hsplit & Hitems & Hlines).
  fold plan in Hitems, Hlines.
  pose proof (rankExperiences_permutation (ResumeData.experiences rd) rm) as Hperm.
  pose proof (listed_are_admitted _ adm rest _ Hnd Hperm Hsplit) as Hlisted.
  assert (Hids : map LayoutItem.id (itemsOf experience plan) = map Experience.id adm).
  { rewrite Hitems, map_map. reflexivity. }
  assert (Hsub : forall e, In e adm -> In e (ResumeData.experiences rd)).
  { intros e He. apply (Permutation_in _ Hperm). rewrite Hsplit.
    apply in_or_app. now left. }
  (* the bullets rewritten for a listed experience *)
  assert (Hcount : forall i e,
            In e (ResumeData.experiences rd) ->
            Array_includes (map Experience.id adm) (Experience.id e) = true ->
            Array_length
              (GeneratedExperience.rewrittenBullets
                 (generateExperience service jd cfg rm plan
                    (map LayoutItem.id (itemsOf experience plan)) i e))
            = experienceBullets cfg e).
  { intros i e He Hin. unfold generateExperience.
    cbn [GeneratedExperience.rewrittenBullets].
    rewrite sectionItems_find, Hids, Hin, rewriteBullets_length.
    destruct (List.find _ (itemsOf experience plan)) as [item |] eqn:F.
    - apply find_some in F as [Hitem Hid]. apply String.eqb_eq in Hid.
      rewrite Hitems in Hitem. apply in_map_iff in Hitem as (e' & <- & He').
      cbn [experienceItem LayoutItem.id LayoutItem.bulletCount] in Hid |- *.
      rewrite (NoDup_map_injective Experience.id _ e' e Hnd (Hsub e' He') He Hid).
      unfold experienceBullets.
      pose proof (Array_length_nonneg (Experience.bullets e)) as Hn.
      destruct (Z.min _ _ =? 0) eqn:Z0.
      + apply Z.eqb_eq in Z0. rewrite Array_slice0_length by lia. lia.
      + rewrite Array_slice0_length by lia. lia.
    - exfalso. apply Array_includes_In, in_map_iff in Hin as (e' & Hid & He').
      assert (Hno : String.eqb (LayoutItem.id (experienceItem cfg e')) (Experience.id e)
                    = false).
      { apply (find_none _ _ F). rewrite Hitems. now apply in_map. }
      cbn [experienceItem LayoutItem.id] in Hno.
      apply String.eqb_neq in Hno. now contradiction Hno. }
  split.
  - rewrite (filter_imap _ _
               (fun e => Array_includes (map Experience.id adm) (Experience.id e))
               _ (experienceItem cfg)).
    + rewrite Hitems. now apply Permutation_map.
    + intros i e _. cbn [generateExperience GeneratedExperience.includedInResume].
      now rewrite Hids.
    + intros i e He Hin. unfold experienceItem. f_equal. now apply Hcount.
  - rewrite (filter_imap _ _
               (fun e => Array_includes (map Experience.id adm) (Experience.id e))
               _ (experienceCost cfg)).
    + rewrite Hlines. apply sumZ_Permutation. symmetry. now apply Permutation_map.
    + intros i e _. cbn [generateExperience GeneratedExperience.includedInResume].
      now rewrite Hids.
    + intros i e He Hin. rewrite (Hcount i e He Hin). unfold experienceCost. lia.
Qed.



(* ===================================================================== *)
(** ** Keyword stuffing                                                  *)
(* ===================================================================== *)

Module StuffingFacts.





End StuffingFacts.


(* ===================================================================== *)
(** ** Date formats                                                      *)
(* ===================================================================== *)

Module DateFacts.
Import Regex RegexLang RegexFacts StringFacts.













End DateFacts.


(* ===================================================================== *)
(** ** The further properties on the sample inputs                       *)
(* ===================================================================== *)

Lemma sample_ids_distinct :
  NoDup (map Experience.id (ResumeData.experiences Samples.profileA))
  /\ NoDup (map Project.id (ResumeData.projects Samples.profileA)).
Proof.
  split; vm_compute; apply NoDup_ListNoDup; repeat constructor; cbn; intros H;
    repeat (destruct H as [H | H]; [discriminate |]); exact H.
Defined.

Lemma sample_weights_nonnegative : nonnegativeWeights Samples.jobA.
Proof. constructor; [| constructor]. unfold Qle. simpl. lia. Defined.


(** On the sample job and the sample profile. *)
Lemma overall_match_range_witness :
  0 <= RelevanceMap.overallMatch (mapJDToProfile Samples.jobA Samples.profileA) <= 100.
Proof.
  assert (Hle : Array_length (ResumeData.experiences Samples.profileA) < arrayLimit)
    by (vm_compute; reflexivity).
  assert (Hlp : Array_length (ResumeData.projects Samples.profileA) < arrayLimit)
    by (vm_compute; reflexivity).
  exact (proj1 (overall_match_range Samples.jobA Samples.profileA
                  sample_weights_nonnegative Hle Hlp)).
Defined.



(** With the service down the sample profile under the default
    configuration. *)
Lemma included_experiences_witness :
  let generated :=
    generateResume Scenarios.serviceDown Samples.profileA Samples.jobA
      Samples.defaultConfig in
  linesOf experience (Generated.layoutPlan generated)
  = sumZ (map (fun e => 2 + 2 * Array_length (GeneratedExperience.rewrittenBullets e))
              (List.filter GeneratedExperience.includedInResume
                 (GeneratedResume.experiences (Generated.resume generated)))).
Proof.
  exact (proj2 (included_experiences_are_plan_items Scenarios.serviceDown
                  Samples.profileA Samples.jobA Samples.defaultConfig
                  (proj1 sample_ids_distinct))).
Defined.

